(** * A model of [file_comparison.py]

    The script reads two tabular files with pandas, compares them row by row
    on a key column and writes a three-sheet spreadsheet report.  The model
    below follows the script function by function:

    - [Py] holds the fragment of the Python runtime the script relies on
      (exceptions, binary64 floats, [==], [<], [float()], [round()], [sorted],
      [set], dict literals, [str.endswith], [Path.stem]);
    - [Pandas] holds the fragment of pandas it relies on ([DataFrame],
      [set_index], [df[col]], [df.at], [pd.DataFrame(records)],
      [sort_values], [to_excel]);
    - [FileComparison] holds [read_file], [compare_files] and [save_report].

    Floats are IEEE-754 binary64 numbers ([spec_float] with precision 53 and
    maximal exponent 1024), so [nan != nan] and rounding behave as in CPython. *)

From Stdlib Require Import ZArith List String Ascii Bool Lia.
From Stdlib Require Import Permutation Sorted DecimalString OrderedTypeEx.
From Stdlib Require Import SpecFloat.
Import ListNotations.

Local Open Scope string_scope.
Local Open Scope Z_scope.

(* ================================================================== *)
(** ** Python runtime *)
(* ================================================================== *)
Module Py.

(** Python [float]: IEEE-754 binary64. *)
Definition float := spec_float.
Definition prec : Z := 53.
Definition emax : Z := 1024.

Definition nan : float := S754_nan.
Definition fsub : float -> float -> float := SFsub prec emax.
Definition fmul : float -> float -> float := SFmul prec emax.
Definition fneg : float -> float := SFopp.
Definition feqb : float -> float -> bool := SFeqb.
Definition fltb : float -> float -> bool := SFltb.

Definition is_nan (f : float) : bool :=
  match f with S754_nan => true | _ => false end.

Definition is_finite (f : float) : bool :=
  match f with S754_zero _ | S754_finite _ _ _ => true | _ => false end.

(** The nearest binary64 number to an integer (ties to even). *)
Definition float_of_Z (z : Z) : float := binary_normalize prec emax z 0 false.

(** The nearest binary64 number to [n / d] for positive integers [n] and
    [d], with sign [s]. *)
Definition fdiv_pos (s : bool) (n d : Z) : float :=
  let '(q, e, l) := SFdiv_core_binary prec emax n 0 d 0 in
  binary_round_aux prec emax s q e l.

(** The values a cell, an index label or a dict entry can hold. *)
Inductive value :=
| VNone
| VBool (b : bool)
| VInt (z : Z)
| VFloat (f : float)
| VStr (s : string).

(** Exceptions raised by the script or by the library calls it makes. *)
Inductive exn :=
| ValueError (msg : string)
| KeyError (key : value)
| TypeError (msg : string)
| ZeroDivisionError (msg : string)
| OverflowError (msg : string)
| OSError (msg : string).

Inductive result (A : Type) :=
| Ok (a : A)
| Raise (e : exn).
Arguments Ok {A} a.
Arguments Raise {A} e.

Definition rbind {A B} (r : result A) (k : A -> result B) : result B :=
  match r with
  | Ok a => k a
  | Raise e => Raise e
  end.

Declare Scope result_scope.
Delimit Scope result_scope with result.
Notation "x <- r ;; k" := (rbind r (fun x => k))
  (at level 61, r at next level, right associativity) : result_scope.
Notation "' pat <- r ;; k" := (rbind r (fun x => match x with pat => k end))
  (at level 61, pat pattern, r at next level, right associativity) : result_scope.

(** *** Integer true division: [a / b] on Python ints *)
Definition int_true_div (a b : Z) : result float :=
  match b with
  | Z0 => Raise (ZeroDivisionError "division by zero")
  | _ =>
      match a with
      | Z0 => Ok (S754_zero (b <? 0))
      | _ =>
          match fdiv_pos (xorb (a <? 0) (b <? 0)) (Z.abs a) (Z.abs b) with
          | S754_infinity _ =>
              Raise (OverflowError "integer division result too large for a float")
          | f => Ok f
          end
      end
  end.

(** *** [round(x, ndigits)] for a float and [ndigits >= 0]

    CPython converts the float to the correctly rounded decimal string with
    [ndigits] digits after the point (round-half-even on the exact binary
    value), and converts that string back to the nearest float. *)
Definition round_half_even_div (n d : Z) : Z :=
  let q := n / d in
  let r := n mod d in
  match 2 * r ?= d with
  | Lt => q
  | Gt => q + 1
  | Eq => if Z.even q then q else q + 1
  end.

Definition py_round (x : float) (ndigits : Z) : float :=
  match x with
  | S754_finite s m e =>
      let p := 10 ^ ndigits in
      let n := if 0 <=? e then Zpos m * 2 ^ e * p
               else round_half_even_div (Zpos m * p) (2 ^ (- e)) in
      match n with
      | Z0 => S754_zero s
      | _ => fdiv_pos s n p
      end
  | _ => x
  end.

(** *** [float(s)] on a string

    The grammar of the Python reference: optional sign, then [inf],
    [infinity], [nan] (any case) or a decimal number with an optional
    fraction and exponent; digits may be grouped with single underscores;
    surrounding whitespace is ignored. *)
Definition is_digit (c : ascii) : bool :=
  ((48 <=? nat_of_ascii c) && (nat_of_ascii c <=? 57))%nat.

Definition digit_val (c : ascii) : Z := Z.of_nat (nat_of_ascii c) - 48.

Definition is_space (c : ascii) : bool :=
  let n := nat_of_ascii c in
  ((n =? 32) || ((9 <=? n) && (n <=? 13)))%nat.

Definition lower (c : ascii) : ascii :=
  let n := nat_of_ascii c in
  if ((65 <=? n) && (n <=? 90))%nat then ascii_of_nat (n + 32) else c.

Fixpoint lstrip (s : list ascii) : list ascii :=
  match s with
  | c :: s' => if is_space c then lstrip s' else s
  | [] => []
  end.

Definition strip (s : list ascii) : list ascii :=
  rev (lstrip (rev (lstrip s))).

(** [digitpart_rest s acc n]: the digits (and grouping underscores) that
    continue a digit part whose value so far is [acc], [n] digits long. *)
Fixpoint digitpart_rest (s : list ascii) (acc n : Z) : Z * Z * list ascii :=
  match s with
  | c :: s' =>
      if is_digit c then digitpart_rest s' (10 * acc + digit_val c) (n + 1)
      else if Ascii.eqb c "_" then
        match s' with
        | d :: s'' =>
            if is_digit d
            then digitpart_rest s'' (10 * acc + digit_val d) (n + 1)
            else (acc, n, s)
        | [] => (acc, n, s)
        end
      else (acc, n, s)
  | [] => (acc, n, s)
  end.

Definition digitpart (s : list ascii) (acc : Z) : option (Z * Z * list ascii) :=
  match s with
  | c :: s' =>
      if is_digit c then Some (digitpart_rest s' (10 * acc + digit_val c) 1)
      else None
  | [] => None
  end.

(** [number s]: mantissa digits as an integer, number of digits after the
    point, remaining input. *)
Definition number (s : list ascii) : option (Z * Z * list ascii) :=
  match digitpart s 0 with
  | Some (ip, _, rest) =>
      match rest with
      | "."%char :: rest' =>
          match digitpart rest' ip with
          | Some (m, nf, rest'') => Some (m, nf, rest'')
          | None => Some (ip, 0, rest')
          end
      | _ => Some (ip, 0, rest)
      end
  | None =>
      match s with
      | "."%char :: rest' => digitpart rest' 0
      | _ => None
      end
  end.

Definition take_sign (s : list ascii) : bool * list ascii :=
  match s with
  | "-"%char :: s' => (true, s')
  | "+"%char :: s' => (false, s')
  | _ => (false, s)
  end.

Definition exponent (s : list ascii) : option Z :=
  match s with
  | [] => Some 0
  | c :: s' =>
      if Ascii.eqb (lower c) "e" then
        let '(neg, s'') := take_sign s' in
        match digitpart s'' 0 with
        | Some (e, _, []) => Some (if neg then - e else e)
        | _ => None
        end
      else None
  end.

(** The float nearest to [m * 10 ^ e10], for [m >= 0]. *)
Definition float_of_decimal (s : bool) (m e10 : Z) : float :=
  match m with
  | Z0 => S754_zero s
  | _ =>
      if 0 <=? e10
      then binary_normalize prec emax (if s then - (m * 10 ^ e10) else m * 10 ^ e10) 0 false
      else fdiv_pos s m (10 ^ (- e10))
  end.

Definition float_of_str (str : string) : option float :=
  let '(neg, s) := take_sign (strip (list_ascii_of_string str)) in
  let low := string_of_list_ascii (map lower s) in
  if String.eqb low "inf" || String.eqb low "infinity"
  then Some (S754_infinity neg)
  else if String.eqb low "nan" then Some nan
  else
    match number s with
    | Some (m, nf, rest) =>
        match exponent rest with
        | Some e => Some (float_of_decimal neg m (e - nf))
        | None => None
        end
    | None => None
    end.

(** *** [float(v)]: [None] stands for the [TypeError], [ValueError] or
    [OverflowError] that the call raises. *)
Definition py_float (v : value) : option float :=
  match v with
  | VNone => None
  | VBool b => Some (float_of_Z (Z.b2z b))
  | VInt z => let f := float_of_Z z in if is_finite f then Some f else None
  | VFloat f => Some f
  | VStr s => float_of_str s
  end.

(** *** Comparison of cell values

    Numbers (bools, integers, floats) compare numerically; an integer meets
    a float as the float nearest to it, as numpy scalars do.  Strings compare
    lexicographically.  [None] equals only [None].  Ordering values of
    different kinds raises [TypeError]. *)
Inductive num :=
| NInt (z : Z)
| NFloat (f : float).

Definition as_num (v : value) : option num :=
  match v with
  | VBool b => Some (NInt (Z.b2z b))
  | VInt z => Some (NInt z)
  | VFloat f => Some (NFloat f)
  | _ => None
  end.

Definition num_to_float (x : num) : float :=
  match x with
  | NInt z => float_of_Z z
  | NFloat f => f
  end.

Definition num_compare (x y : num) : option comparison :=
  match x, y with
  | NInt a, NInt b => Some (a ?= b)
  | _, _ => SFcompare (num_to_float x) (num_to_float y)
  end.

Definition py_eq (a b : value) : bool :=
  match as_num a, as_num b with
  | Some x, Some y =>
      match num_compare x y with Some Eq => true | _ => false end
  | None, None =>
      match a, b with
      | VStr s, VStr t => String.eqb s t
      | VNone, VNone => true
      | _, _ => false
      end
  | _, _ => false
  end.

Definition py_ne (a b : value) : bool := negb (py_eq a b).

Definition py_lt (a b : value) : result bool :=
  match as_num a, as_num b with
  | Some x, Some y =>
      Ok match num_compare x y with Some Lt => true | _ => false end
  | None, None =>
      match a, b with
      | VStr s, VStr t => Ok (String.ltb s t)
      | _, _ => Raise (TypeError "'<' not supported between these instances")
      end
  | _, _ => Raise (TypeError "'<' not supported between these instances")
  end.

(** *** [sorted]: only [<] is used; the sort is stable. *)
Fixpoint insert_sorted {A} (lt : A -> A -> result bool) (x : A) (l : list A)
  : result (list A) :=
  match l with
  | [] => Ok [x]
  | y :: l' =>
      (b <- lt y x ;;
       if b then (l'' <- insert_sorted lt x l' ;; Ok (y :: l''))
       else Ok (x :: l))%result
  end.

Fixpoint sorted {A} (lt : A -> A -> result bool) (l : list A) : result (list A) :=
  match l with
  | [] => Ok []
  | x :: l' => (s <- sorted lt l' ;; insert_sorted lt x s)%result
  end.

Definition str_lt (a b : string) : result bool := Ok (String.ltb a b).

(** *** [set(xs)] and [s.union(t)], as duplicate-free lists *)
Definition set_add {A} (eq : A -> A -> bool) (s : list A) (x : A) : list A :=
  if existsb (eq x) s then s else s ++ [x].

Definition set_of {A} (eq : A -> A -> bool) (xs : list A) : list A :=
  fold_left (set_add eq) xs [].

Definition set_union {A} (eq : A -> A -> bool) (s t : list A) : list A :=
  fold_left (set_add eq) t s.

(** Keys of a set of labels: equal values are one element; [nan] never
    equals itself. *)
Definition value_key_eq (a b : value) : bool := py_eq a b.

(** *** Dict literals and item assignment (insertion order is kept) *)
Definition dict := list (string * value).

Fixpoint dict_set (d : dict) (k : string) (v : value) : dict :=
  match d with
  | [] => [(k, v)]
  | (k', v') :: d' =>
      if String.eqb k' k then (k', v) :: d' else (k', v') :: dict_set d' k v
  end.

Fixpoint dict_get (d : dict) (k : string) : option value :=
  match d with
  | [] => None
  | (k', v') :: d' => if String.eqb k' k then Some v' else dict_get d' k
  end.

Definition dict_of (items : list (string * value)) : dict :=
  fold_left (fun d kv => dict_set d (fst kv) (snd kv)) items [].

(** *** Strings *)
Definition endswith (s suffix : string) : bool :=
  let n := String.length s in
  let m := String.length suffix in
  ((m <=? n)%nat && String.eqb (substring (n - m) m s) suffix).

Definition str_of_nat (n : nat) : string :=
  NilZero.string_of_uint (Nat.to_uint n).

(** [Path(p).stem]: the last path component without its last suffix. *)
Fixpoint split_on (sep : ascii) (s : list ascii) (cur : list ascii)
  : list (list ascii) :=
  match s with
  | [] => [rev cur]
  | c :: s' =>
      if Ascii.eqb c sep then rev cur :: split_on sep s' []
      else split_on sep s' (c :: cur)
  end.

Definition path_name (p : string) : list ascii :=
  let parts := split_on "/" (list_ascii_of_string p) [] in
  let keep (c : list ascii) :=
    negb (match c with [] => true | ["."%char] => true | _ => false end) in
  last (filter keep parts) [].

(** Index of the last ["."] of [s], counted from the left. *)
Fixpoint rfind_dot (s : list ascii) (i : nat) (found : option nat) : option nat :=
  match s with
  | [] => found
  | c :: s' =>
      rfind_dot s' (S i) (if Ascii.eqb c "." then Some i else found)
  end.

Definition stem (p : string) : string :=
  let name := path_name p in
  match rfind_dot name 0 None with
  | Some i =>
      if ((0 <? i) && (i <? List.length name - 1))%nat
      then string_of_list_ascii (firstn i name)
      else string_of_list_ascii name
  | None => string_of_list_ascii name
  end.

End Py.

(* ================================================================== *)
(** ** The pandas and xlsxwriter calls of the script *)
(* ================================================================== *)
Module Pandas.
Import Py.
Local Open Scope result_scope.

Inductive dtype := int64 | float64 | bool_ | object_.

(** [np.issubdtype(d, np.number)] *)
Definition is_number (d : dtype) : bool :=
  match d with
  | int64 | float64 => true
  | bool_ | object_ => false
  end.

Record Series := { s_dtype : dtype; s_values : list value }.

(** A frame is kept row by row: the row labels, the column names with their
    dtypes, and one list of cells per row. *)
Record DataFrame := {
  index : list value;
  schema : list (string * dtype);
  data : list (list value)
}.

Definition columns (df : DataFrame) : list string := map fst (schema df).

Definition len (df : DataFrame) : nat := List.length (data df).

Fixpoint position (c : string) (cs : list string) : option nat :=
  match cs with
  | [] => None
  | c' :: cs' =>
      if String.eqb c' c then Some O
      else match position c cs' with Some n => Some (S n) | None => None end
  end.

(** [col in df.columns] *)
Definition has_column (col : string) (df : DataFrame) : bool :=
  existsb (String.eqb col) (columns df).

Definition cell_at (j : nat) (row : list value) : value := nth j row (VFloat nan).

(** [df[col]] *)
Definition getitem (df : DataFrame) (col : string) : result Series :=
  match position col (columns df) with
  | Some j =>
      Ok {| s_dtype := nth j (map snd (schema df)) object_;
            s_values := map (cell_at j) (data df) |}
  | None => Raise (KeyError (VStr col))
  end.

Fixpoint remove_nth {A} (n : nat) (l : list A) : list A :=
  match l, n with
  | [], _ => []
  | _ :: l', O => l'
  | x :: l', S n' => x :: remove_nth n' l'
  end.

(** [df.set_index(key)] *)
Definition set_index (df : DataFrame) (key : string) : result DataFrame :=
  match position key (columns df) with
  | Some j =>
      Ok {| index := map (cell_at j) (data df);
            schema := remove_nth j (schema df);
            data := map (remove_nth j) (data df) |}
  | None => Raise (KeyError (VStr key))
  end.

Definition is_na (v : value) : bool :=
  match v with
  | VNone => true
  | VFloat f => is_nan f
  | _ => false
  end.

(** Label lookup: equal values are the same label, and a missing label
    ([nan]) finds a missing label. *)
Definition label_eq (a b : value) : bool := py_eq a b || (is_na a && is_na b).

(** [key in df.index] *)
Definition index_contains (idx : list value) (key : value) : bool :=
  existsb (fun l => label_eq l key) idx.

(** [df.at[key, col]]: a scalar when the label is unique, the series of the
    matching cells when it is not. *)
Inductive cell :=
| Scalar (v : value)
| SeriesOf (vs : list value).

Definition at_ (df : DataFrame) (key : value) (col : string) : result cell :=
  match position col (columns df) with
  | None => Raise (KeyError (VStr col))
  | Some j =>
      match filter (fun lr => label_eq (fst lr) key) (combine (index df) (data df)) with
      | [] => Raise (KeyError key)
      | [(_, row)] => Ok (Scalar (cell_at j row))
      | rows => Ok (SeriesOf (map (fun lr => cell_at j (snd lr)) rows))
      end
  end.

(** *** [pd.DataFrame(records)] on a list of dicts

    The columns are the keys in order of first appearance; a key missing from
    a record gives [nan]; a column of numbers and missing values becomes
    float64. *)
Definition record_columns (rows : list dict) : list string :=
  fold_left (fun acc r => fold_left (set_add String.eqb) (map fst r) acc) rows [].

Definition is_int (v : value) : bool :=
  match v with VInt _ => true | _ => false end.
Definition is_bool (v : value) : bool :=
  match v with VBool _ => true | _ => false end.
Definition is_float (v : value) : bool :=
  match v with VFloat _ => true | _ => false end.

Definition infer_dtype (vs : list value) : dtype :=
  match vs with
  | [] => object_
  | _ =>
      if forallb is_int vs then int64
      else if forallb is_bool vs then bool_
      else if forallb (fun v => is_int v || is_float v || is_na v) vs
              && existsb (fun v => is_int v || is_float v) vs
      then float64
      else object_
  end.

Definition coerce (d : dtype) (v : value) : value :=
  match d, v with
  | float64, VInt z => VFloat (float_of_Z z)
  | float64, VNone => VFloat nan
  | _, _ => v
  end.

Definition record_cell (r : dict) (c : string) : value :=
  match dict_get r c with
  | Some v => v
  | None => VFloat nan
  end.

Definition range_index (n : nat) : list value :=
  map (fun i => VInt (Z.of_nat i)) (seq 0 n).

Definition DataFrame_of_records (rows : list dict) : DataFrame :=
  let cols := record_columns rows in
  let raw := map (fun r => map (record_cell r) cols) rows in
  let dts := map (fun j => infer_dtype (map (cell_at j) raw)) (seq 0 (List.length cols)) in
  {| index := range_index (List.length rows);
     schema := combine cols dts;
     data := map (fun row => map (fun dv => coerce (fst dv) (snd dv)) (combine dts row)) raw |}.

(** *** [df.sort_values(by)]: ascending, missing values last.  Rows with
    equal values keep their order here; pandas' default sort makes no promise
    about them. *)
Definition na_last_lt (a b : value) : result bool :=
  if is_na a then Ok false
  else if is_na b then Ok true
  else py_lt a b.

Definition sort_values (df : DataFrame) (by_ : string) : result DataFrame :=
  match position by_ (columns df) with
  | None => Raise (KeyError (VStr by_))
  | Some j =>
      rows <- sorted (fun a b => na_last_lt (cell_at j (snd a)) (cell_at j (snd b)))
                     (combine (index df) (data df)) ;;
      Ok {| index := map fst rows; schema := schema df; data := map snd rows |}
  end.

(** *** Files on disk, as pandas parses them *)
Record world := {
  read_csv : string -> result DataFrame;
  read_excel : string -> result DataFrame
}.

(** *** Workbooks *)
Inductive ws_op :=
| FreezePanes (row col : Z)
| WriteCell (row col : Z) (text : string) (fmt : dict)
| SetColumn (first_col last_col width : Z)
| ConditionalFormat (range : string) (options : dict) (fmt : dict).

Record worksheet := {
  ws_header : list string;
  ws_rows : list (list value);
  ws_ops : list ws_op
}.

Definition workbook := list (string * worksheet).

(** [df.to_excel(writer, sheet_name=name, index=False)] *)
Definition to_excel (wb : workbook) (df : DataFrame) (name : string) : workbook :=
  (wb ++ [(name, {| ws_header := columns df; ws_rows := data df; ws_ops := [] |})])%list.

(** [writer.sheets[name]] *)
Fixpoint sheet (wb : workbook) (name : string) : option worksheet :=
  match wb with
  | [] => None
  | (n, ws) :: wb' => if String.eqb n name then Some ws else sheet wb' name
  end.

(** A method call on the worksheet [writer.sheets[name]]. *)
Fixpoint sheet_call (wb : workbook) (name : string) (op : ws_op) : workbook :=
  match wb with
  | [] => []
  | (n, ws) :: wb' =>
      if String.eqb n name
      then (n, {| ws_header := ws_header ws; ws_rows := ws_rows ws;
                  ws_ops := (ws_ops ws ++ [op])%list |}) :: wb'
      else (n, ws) :: sheet_call wb' name op
  end.

End Pandas.

(* ================================================================== *)
(** ** The script *)
(* ================================================================== *)
Module FileComparison.
Import Py Pandas.

(** What a run does to the outside: log lines, files parsed, files saved. *)
Inductive event :=
| LogInfo (msg : string)
| ReadCsv (path : string)
| ReadExcel (path : string)
| SaveExcel (path : string) (wb : workbook).

(** Computations that may raise and that extend the trace of events. *)
Definition IO (A : Type) : Type := list event -> result A * list event.

Definition ret {A} (a : A) : IO A := fun tr => (Ok a, tr).

Definition bind {A B} (m : IO A) (k : A -> IO B) : IO B :=
  fun tr =>
    match m tr with
    | (Ok a, tr') => k a tr'
    | (Raise e, tr') => (Raise e, tr')
    end.

Definition raise {A} (e : exn) : IO A := fun tr => (Raise e, tr).

Definition lift {A} (r : result A) : IO A := fun tr => (r, tr).

Definition emit (e : event) : IO unit := fun tr => (Ok tt, (tr ++ [e])%list).

Declare Scope io_scope.
Delimit Scope io_scope with io.
Notation "x <- m ;; k" := (bind m (fun x => k))
  (at level 61, m at next level, right associativity) : io_scope.
Notation "' pat <- m ;; k" := (bind m (fun x => match x with pat => k end))
  (at level 61, pat pattern, m at next level, right associativity) : io_scope.
Notation "m ;; k" := (bind m (fun _ => k))
  (at level 61, right associativity) : io_scope.

Definition logging_info (msg : string) : IO unit := emit (LogInfo msg).

Definition pd_read_csv (w : world) (path : string) : IO DataFrame :=
  fun tr => (read_csv w path, (tr ++ [ReadCsv path])%list).

Definition pd_read_excel (w : world) (path : string) : IO DataFrame :=
  fun tr => (read_excel w path, (tr ++ [ReadExcel path])%list).

(** *** [read_file] *)
Definition read_file (w : world) (file_path : string) : IO DataFrame :=
  (logging_info ("Reading file: " ++ file_path) ;;
   if endswith file_path ".csv" then pd_read_csv w file_path
   else if endswith file_path ".xlsx" then pd_read_excel w file_path
   else raise (ValueError "Only CSV and Excel files are supported"))%io.

(** *** [compare_files] *)
Local Open Scope result_scope.

Fixpoint foldM {A B} (f : A -> B -> result A) (l : list B) (a : A) : result A :=
  match l with
  | [] => Ok a
  | x :: l' => a' <- f a x ;; foldM f l' a'
  end.

Fixpoint filterM {A} (f : A -> result bool) (l : list A) : result (list A) :=
  match l with
  | [] => Ok []
  | x :: l' =>
      b <- f x ;;
      l'' <- filterM f l' ;;
      Ok (if b then x :: l'' else l'')
  end.

Definition key_error_msg (key_column : string) : string :=
  "Key column '" ++ key_column ++ "' must exist in both files".

Definition series_ambiguous : string :=
  "The truth value of a Series is ambiguous. Use a.empty, a.bool(), a.item(), a.any() or a.all().".

Definition series_mislabelled : string :=
  "Can only compare identically-labeled Series objects".

(** Lines 57-59: the columns that either frame holds with a numeric dtype. *)
Definition is_numeric_col (df1 df2 : DataFrame) (col : string) : result bool :=
  s1 <- getitem df1 col ;;
  if is_number (s_dtype s1) then Ok true
  else s2 <- getitem df2 col ;; Ok (is_number (s_dtype s2)).

Definition numeric_columns (df1 df2 : DataFrame) (all_columns : list string)
  : result (list string) :=
  filterM (is_numeric_col df1 df2) all_columns.

(** Lines 85-88: [float(val2) - float(val1)], or [None] when a conversion
    raises. *)
Definition difference (val1 val2 : value) : value :=
  match py_float val2, py_float val1 with
  | Some f2, Some f1 => VFloat (fsub f2 f1)
  | _, _ => VNone
  end.

(** Lines 77-88: the row appended for a mismatching cell. *)
Definition mismatch_row (file1_name file2_name : string) (numeric_cols : list string)
    (key : value) (col : string) (val1 val2 : value) : dict :=
  let row := dict_of [("key", key); ("column_name", VStr col);
                      (file1_name, val1); (file2_name, val2)] in
  if existsb (String.eqb col) numeric_cols
  then dict_set row "difference" (difference val1 val2)
  else row.

(** Lines 72-73 *)
Definition lookup (df : DataFrame) (key : value) (col : string) : result cell :=
  if has_column col df then at_ df key col else Ok (Scalar VNone).

(** Lines 72-89: one turn of the loop over the columns. *)
Definition compare_column (df1 df2 : DataFrame) (file1_name file2_name : string)
    (numeric_cols : list string) (key : value)
    (st : Z * list dict) (col : string) : result (Z * list dict) :=
  let '(mismatches, detailed_rows) := st in
  val1 <- lookup df1 key col ;;
  val2 <- lookup df2 key col ;;
  match val1, val2 with
  | Scalar v1, Scalar v2 =>
      if py_ne v1 v2
      then Ok (mismatches + 1,
               (detailed_rows ++
                  [mismatch_row file1_name file2_name numeric_cols key col v1 v2])%list)
      else Ok st
  | SeriesOf xs, SeriesOf ys =>
      if (List.length xs =? List.length ys)%nat
      then Raise (ValueError series_ambiguous)
      else Raise (ValueError series_mislabelled)
  | _, _ => Raise (ValueError series_ambiguous)
  end.

Definition status_of (mismatches : Z) : string :=
  if mismatches =? 0 then "✅ MATCH" else "❌ MISMATCH".

(** Line 92 *)
Definition match_percentage (total_cols mismatches : Z) : result float :=
  q <- int_true_div (total_cols - mismatches) total_cols ;;
  Ok (py_round (fmul q (float_of_Z 100)) 2).

(** Lines 94-101 *)
Definition summary_row (key : value) (total_cols mismatches : Z) (match_pct : float)
  : dict :=
  dict_of [("key", key);
           ("total_columns", VInt total_cols);
           ("matched_columns", VInt (total_cols - mismatches));
           ("mismatched_columns", VInt mismatches);
           ("match_percentage", VFloat match_pct);
           ("status", VStr (status_of mismatches))].

Definition missing_row (key : value) (file_name : string) : dict :=
  dict_of [("key", key); ("present_in", VStr (file_name ++ "_only"))].

Definition outputs : Type := list dict * list dict * list dict.

(** Lines 61-101: one turn of the loop over the keys. *)
Definition compare_key (df1 df2 : DataFrame) (file1_name file2_name : string)
    (all_columns numeric_cols : list string)
    (st : outputs) (key : value) : result outputs :=
  let '(summary_rows, detailed_rows, missing_rows) := st in
  if negb (index_contains (index df1) key)
  then Ok (summary_rows, detailed_rows, (missing_rows ++ [missing_row key file2_name])%list)
  else if negb (index_contains (index df2) key)
  then Ok (summary_rows, detailed_rows, (missing_rows ++ [missing_row key file1_name])%list)
  else
    '(mismatches, detailed_rows) <-
        foldM (compare_column df1 df2 file1_name file2_name numeric_cols key)
              all_columns (0, detailed_rows) ;;
    let total_cols := Z.of_nat (List.length all_columns) in
    match_pct <- match_percentage total_cols mismatches ;;
    Ok ((summary_rows ++ [summary_row key total_cols mismatches match_pct])%list,
        detailed_rows, missing_rows).

Definition key_universe (df1 df2 : DataFrame) : result (list value) :=
  sorted py_lt (set_union py_eq (set_of py_eq (index df1)) (set_of py_eq (index df2))).

Definition column_universe (df1 df2 : DataFrame) : result (list string) :=
  sorted str_lt (set_union String.eqb (set_of String.eqb (columns df1))
                                      (set_of String.eqb (columns df2))).

(** Lines 56-101, on the two re-indexed frames. *)
Definition compare_rows (df1 df2 : DataFrame) (file1_name file2_name : string)
    (all_keys : list value) (all_columns : list string) : result outputs :=
  numeric_cols <- numeric_columns df1 df2 all_columns ;;
  foldM (compare_key df1 df2 file1_name file2_name all_columns numeric_cols)
        all_keys ([], [], []).

Definition frames (o : outputs) : DataFrame * DataFrame * DataFrame :=
  let '(summary_rows, detailed_rows, missing_rows) := o in
  (DataFrame_of_records summary_rows,
   DataFrame_of_records detailed_rows,
   DataFrame_of_records missing_rows).

(** Lines 35-107, once both files are read. *)
Definition compare_frames (df1 df2 : DataFrame) (file1 file2 key_column : string)
  : IO (DataFrame * DataFrame * DataFrame) :=
  (let file1_name := stem file1 in
   let file2_name := stem file2 in
   if negb (has_column key_column df1) || negb (has_column key_column df2)
   then raise (ValueError (key_error_msg key_column))
   else
     df1 <- lift (set_index df1 key_column) ;;
     df2 <- lift (set_index df2 key_column) ;;
     all_keys <- lift (key_universe df1 df2) ;;
     all_columns <- lift (column_universe df1 df2) ;;
     logging_info ("Total keys to compare: " ++ str_of_nat (List.length all_keys)) ;;
     logging_info ("Total columns to compare: " ++ str_of_nat (List.length all_columns)) ;;
     o <- lift (compare_rows df1 df2 file1_name file2_name all_keys all_columns) ;;
     ret (frames o))%io.

Definition compare_files (w : world) (file1 file2 key_column : string)
  : IO (DataFrame * DataFrame * DataFrame) :=
  (df1 <- read_file w file1 ;;
   df2 <- read_file w file2 ;;
   compare_frames df1 df2 file1 file2 key_column)%io.

(** *** [save_report] *)
Definition header_fmt : dict :=
  dict_of [("bold", VBool true); ("border", VInt 1); ("align", VStr "center")].
Definition green_fmt : dict := dict_of [("bg_color", VStr "#C6EFCE")].
Definition red_fmt : dict := dict_of [("bg_color", VStr "#FFC7CE")].

Definition enumerate {A} (l : list A) : list (Z * A) :=
  combine (map Z.of_nat (seq 0 (List.length l))) l.

(** Lines 118-120: the three [to_excel] calls. *)
Definition write_sheets (summary_df detail_df missing_df : DataFrame)
  : result workbook :=
  sorted_df <- sort_values summary_df "match_percentage" ;;
  let wb := to_excel [] sorted_df "SUMMARY" in
  let wb := to_excel wb detail_df "DETAILED_MISMATCHES" in
  Ok (to_excel wb missing_df "MISSING_KEYS").

Definition status_rule (n : nat) (text : string) (fmt : dict) : ws_op :=
  ConditionalFormat ("F2:F" ++ str_of_nat (n + 1))
    (dict_of [("type", VStr "text"); ("criteria", VStr "containing");
              ("value", VStr text)])
    fmt.

(** Lines 128-151: the formatting calls. *)
Definition format_sheets (summary_df detail_df missing_df : DataFrame)
    (wb : workbook) : workbook :=
  let wb := sheet_call wb "SUMMARY" (FreezePanes 1 0) in
  let wb :=
    fold_left
      (fun wb nc =>
         let wb := sheet_call wb "SUMMARY" (WriteCell 0 (fst nc) (snd nc) header_fmt) in
         sheet_call wb "SUMMARY" (SetColumn (fst nc) (fst nc) 18))
      (enumerate (columns summary_df)) wb in
  let wb := sheet_call wb "SUMMARY" (status_rule (len summary_df) "MATCH" green_fmt) in
  let wb := sheet_call wb "SUMMARY" (status_rule (len summary_df) "MISMATCH" red_fmt) in
  let wb := sheet_call wb "DETAILED_MISMATCHES" (FreezePanes 1 0) in
  let wb := sheet_call wb "DETAILED_MISMATCHES"
              (SetColumn 0 (Z.of_nat (List.length (columns detail_df)) - 1) 25) in
  let wb := sheet_call wb "MISSING_KEYS" (FreezePanes 1 0) in
  sheet_call wb "MISSING_KEYS"
    (SetColumn 0 (Z.of_nat (List.length (columns missing_df)) - 1) 25).

(** The [with pd.ExcelWriter(...)] block saves the workbook when it is left,
    also when its body raised: then no sheet has been written yet. *)
Definition save_report (summary_df detail_df missing_df : DataFrame)
    (output_file : string) : IO unit :=
  (logging_info ("Saving report to: " ++ output_file) ;;
   match write_sheets summary_df detail_df missing_df with
   | Ok wb =>
       emit (SaveExcel output_file (format_sheets summary_df detail_df missing_df wb)) ;;
       logging_info "Comparison report saved successfully!"
   | Raise e =>
       emit (SaveExcel output_file []) ;;
       raise e
   end)%io.

(** *** The entry point (lines 158-177)

    [downloads] stands for [os.path.expanduser("~/Downloads")],
    [project_dir] for [Path(__file__).resolve().parent] and [timestamp] for
    [datetime.now().strftime("%Y%m%d_%H%M%S")]; [dir / name] on paths is
    [path_join]. *)
Definition path_join (dir name : string) : string := dir ++ "/" ++ name.

Definition main (w : world) (downloads project_dir timestamp : string) : IO unit :=
  (let file1 := path_join downloads "cricket_file_100_1.xlsx" in
   let file2 := path_join downloads "cricket_file_100_2.xlsx" in
   let key_column := "player_id" in
   logging_info "Starting file comparison..." ;;
   ' (summary, details, missing) <- compare_files w file1 file2 key_column ;;
   let output_file :=
     path_join project_dir ("comparison_result_" ++ timestamp ++ ".xlsx") in
   save_report summary details missing output_file ;;
   logging_info "Comparison Completed!")%io.

End FileComparison.

(* ================================================================== *)
(** ** Concrete tables used below *)
(* ================================================================== *)
Module Examples.
Import Py Pandas FileComparison.

(** A frame as [pd.read_csv] returns it: rows labelled 0, 1, 2, ... *)
Definition table (sch : list (string * dtype)) (rows : list (list value)) : DataFrame :=
  {| index := range_index (List.length rows); schema := sch; data := rows |}.

Fixpoint find_file (files : list (string * DataFrame)) (p : string) : result DataFrame :=
  match files with
  | [] => Raise (OSError "No such file or directory")
  | (n, df) :: files' => if String.eqb n p then Ok df else find_file files' p
  end.

Definition disk (files : list (string * DataFrame)) : world :=
  {| read_csv := find_file files; read_excel := find_file files |}.

(** The scenario of two rows that differ in [score]. *)
Definition scores_A : DataFrame :=
  table [("key", int64); ("score", int64); ("name", object_)]
        [[VInt 1; VInt 10; VStr "x"]].
Definition scores_B : DataFrame :=
  table [("key", int64); ("score", int64); ("name", object_)]
        [[VInt 1; VInt 12; VStr "x"]].

(** Keys {1, 2} against keys {2, 3}. *)
Definition keys12 : DataFrame :=
  table [("key", int64); ("v", int64)] [[VInt 1; VInt 7]; [VInt 2; VInt 7]].
Definition keys23 : DataFrame :=
  table [("key", int64); ("v", int64)] [[VInt 2; VInt 7]; [VInt 3; VInt 7]].

(** Frames whose columns differ. *)
Definition with_x : DataFrame :=
  table [("key", int64); ("x", object_)] [[VInt 1; VStr "a"]].
Definition with_y : DataFrame :=
  table [("key", int64); ("y", object_)] [[VInt 1; VStr "a"]].
Definition with_score : DataFrame :=
  table [("key", int64); ("score", int64)] [[VInt 1; VInt 5]].
Definition key_only : DataFrame :=
  table [("key", int64)] [[VInt 1]].

(** A file with an empty cell: pandas reads it as [nan]. *)
Definition with_blank : DataFrame :=
  table [("key", int64); ("score", float64)] [[VInt 1; VFloat nan]].

(** A numeric column against text. *)
Definition amounts_A : DataFrame :=
  table [("key", int64); ("amount", int64)]
        [[VInt 1; VInt 10]; [VInt 2; VInt 20]; [VInt 3; VInt 30]].
Definition amounts_B : DataFrame :=
  table [("key", int64); ("amount", object_)]
        [[VInt 1; VStr "12.5"]; [VInt 2; VStr "n/a"]; [VInt 3; VStr "31"]].

(** Three output frames as a run could return them. *)
Definition sample_summary : DataFrame :=
  DataFrame_of_records
    [summary_row (VInt 1) 2 0 (float_of_Z 100);
     summary_row (VInt 2) 2 2 (S754_zero false);
     summary_row (VInt 3) 2 1 (float_of_Z 50)].
Definition sample_detail : DataFrame :=
  DataFrame_of_records
    [mismatch_row "old" "new" ["score"] (VInt 2) "name" (VStr "x") (VStr "y");
     mismatch_row "old" "new" ["score"] (VInt 2) "score" (VInt 10) (VInt 12);
     mismatch_row "old" "new" ["score"] (VInt 3) "score" (VInt 7) (VInt 4)].
Definition sample_missing : DataFrame :=
  DataFrame_of_records [missing_row (VInt 4) "old"; missing_row (VInt 5) "new"].

(** Two wide tables: key 1 and the 20001 columns c00000 ... c20000, all
    cells 0 except the first of the second table. *)
Definition col_name (i : N) : string :=
  let d := NilZero.string_of_uint (N.to_uint i) in
  "c" ++ string_of_list_ascii (repeat "0"%char (5 - String.length d)) ++ d.

Fixpoint names_from (start : N) (count : nat) : list string :=
  match count with
  | O => []
  | S count' => col_name start :: names_from (N.succ start) count'
  end.

Definition wide_rest : list string := names_from 1 (N.to_nat 20000).

Definition wide_table (c0 : string) (rest : list string) (first : value) : DataFrame :=
  table (("key", int64) :: map (fun c => (c, int64)) (c0 :: rest))
        [VInt 1 :: first :: repeat (VInt 0) (List.length rest)].

Definition wide_files : world :=
  disk [("wide_A.csv", wide_table "c00000" wide_rest (VInt 0));
        ("wide_B.csv", wide_table "c00000" wide_rest (VInt 1))].

(** A table in which key 1 labels two rows. *)
Definition twice : DataFrame :=
  table [("key", int64); ("v", int64)] [[VInt 1; VInt 7]; [VInt 1; VInt 8]].

(** Keys that an Excel sheet holds as text. *)
Definition text_keys : DataFrame :=
  table [("key", object_); ("v", int64)] [[VStr "1"; VInt 7]; [VStr "2"; VInt 7]].

(** Files with a duplicated key or with text keys, and two files of the
    same name in two directories. *)
Definition more_files : world :=
  disk [("twice.csv", twice); ("once.csv", keys12); ("text.xlsx", text_keys);
        ("old/scores.csv", scores_A); ("new/scores.csv", scores_B)].



Definition files : world :=
  disk [("A.csv", keys12); ("B.csv", keys23);
        ("scores_A.csv", scores_A); ("scores_B.csv", scores_B);
        ("x.csv", with_x); ("y.csv", with_y);
        ("score.csv", with_score); ("ids.csv", key_only);
        ("blank.csv", with_blank); ("blank_copy.csv", with_blank);
        ("amounts_A.csv", amounts_A); ("amounts_B.xlsx", amounts_B)].

End Examples.

(* ================================================================== *)
(** ** Notions used to state the properties *)
(* ================================================================== *)
Module Views.
Import Py Pandas FileComparison.

(** A key is compared when both re-indexed frames hold it. *)
Definition in_both (df1 df2 : DataFrame) (key : value) : bool :=
  index_contains (index df1) key && index_contains (index df2) key.

(** The mismatch rows of one key: one row per column of [cols], in order,
    whose two cells differ. *)
Definition key_mismatches (df1 df2 : DataFrame) (file1_name file2_name : string)
    (numeric_cols : list string) (key : value) (cols : list string) : list dict :=
  flat_map
    (fun col =>
       match lookup df1 key col, lookup df2 key col with
       | Ok (Scalar v1), Ok (Scalar v2) =>
           if py_ne v1 v2
           then [mismatch_row file1_name file2_name numeric_cols key col v1 v2]
           else []
       | _, _ => []
       end)
    cols.

(** The file named in the missing row of a key that is not in both frames. *)
Definition holder (df1 : DataFrame) (file1_name file2_name : string) (key : value)
  : string :=
  if index_contains (index df1) key then file1_name else file2_name.

(** [df1], [df2] are the two re-indexed frames of the run, [keys] and [cols]
    its sorted key and column universes, [ncols] its numeric columns. *)
Definition run_context (w : world) (file1 file2 key_column : string)
    (tr : list event) (df1 df2 : DataFrame) (keys : list value)
    (cols ncols : list string) : Prop :=
  exists raw1 raw2,
    fst (read_file w file1 tr) = Ok raw1 /\
    fst (read_file w file2 (snd (read_file w file1 tr))) = Ok raw2 /\
    set_index raw1 key_column = Ok df1 /\
    set_index raw2 key_column = Ok df2 /\
    key_universe df1 df2 = Ok keys /\
    column_universe df1 df2 = Ok cols /\
    numeric_columns df1 df2 cols = Ok ncols.

(** The number of rows of [df] that [df.at[key, ...]] finds for a label. *)
Definition label_count (df : DataFrame) (key : value) : nat :=
  List.length (filter (fun lr => label_eq (fst lr) key)
                      (combine (index df) (data df))).

(** Labels that are all integers or all strings. *)
Definition plain_labels (l : list value) : Prop :=
  Forall (fun v => exists z, v = VInt z) l \/ Forall (fun v => exists s, v = VStr s) l.

(** The mismatch count written in a summary row. *)
Definition mismatched_of (row : dict) : Z :=
  match dict_get row "mismatched_columns" with
  | Some (VInt z) => z
  | _ => 0
  end.

(** A log line, or the parsing of one of [paths] by the parser of its
    suffix; not the saving of a workbook. *)
Definition is_quiet (paths : list string) (ev : event) : Prop :=
  match ev with
  | LogInfo _ => True
  | ReadCsv p => In p paths /\ endswith p ".csv" = true
  | ReadExcel p => In p paths /\ endswith p ".csv" = false /\ endswith p ".xlsx" = true
  | SaveExcel _ _ => False
  end.

(** [m] only extends the trace, by events that [ok] allows. *)
Definition emits {A} (ok : event -> Prop) (m : IO A) : Prop :=
  forall tr, exists evs, snd (m tr) = (tr ++ evs)%list /\ Forall ok evs.

(** What the entry point may do: log, parse its two inputs as Excel files,
    save a workbook to [output_file]. *)
Definition main_event (file1 file2 output_file : string) (ev : event) : Prop :=
  match ev with
  | LogInfo _ => True
  | ReadCsv _ => False
  | ReadExcel p => p = file1 \/ p = file2
  | SaveExcel p _ => p = output_file
  end.

(** The dtype test of lines 58-59 can be evaluated for [col]: the first
    frame holds it, and the second one too unless the first settles it. *)
Definition dtype_known (df1 df2 : DataFrame) (col : string) : Prop :=
  In col (columns df1) /\
  (In col (columns df2) \/
   exists s, getitem df1 col = Ok s /\ is_number (s_dtype s) = true).

(** The errors of a Series used as a condition, or compared with a Series
    of other labels. *)
Definition series_error (e : exn) : Prop :=
  e = ValueError series_ambiguous \/ e = ValueError series_mislabelled.

(** The key written in a row of the summary or of the missing keys. *)
Definition key_of (row : dict) : option value := dict_get row "key".

(** A dict as lines 94-101 build it. *)
Definition is_summary_row (r : dict) : Prop :=
  exists key t mm pct, r = summary_row key t mm pct.

(** A bool, an int or a float. *)
Definition numeric_value (v : value) : bool :=
  match as_num v with
  | Some _ => true
  | None => false
  end.

(** [df] holds [col] with a numeric dtype. *)
Definition numeric_in (df : DataFrame) (col : string) : bool :=
  match getitem df col with
  | Ok s => is_number (s_dtype s)
  | Raise _ => false
  end.

(** [name in row] for a dict. *)
Definition has_field (name : string) (row : dict) : bool :=
  match dict_get row name with
  | Some _ => true
  | None => false
  end.

(** The keys under which a mismatch row holds the two cells. *)
Definition cell_fields (file1_name file2_name : string) : list string :=
  if String.eqb file1_name file2_name then [file2_name] else [file1_name; file2_name].

(** The two cells of a key and a column are scalars that differ. *)
Definition cells_differ (df1 df2 : DataFrame) (kc : value * string) : bool :=
  match lookup df1 (fst kc) (snd kc), lookup df2 (fst kc) (snd kc) with
  | Ok (Scalar v1), Ok (Scalar v2) => py_ne v1 v2
  | _, _ => false
  end.

(** The key and the column name written in a mismatch row. *)
Definition row_info (row : dict) : option value * option value :=
  (dict_get row "key", dict_get row "column_name").

(** The six columns of the summary frame. *)
Definition summary_columns : list string :=
  ["key"; "total_columns"; "matched_columns"; "mismatched_columns";
   "match_percentage"; "status"].

(** Each string is below the next one. *)
Fixpoint increasing (l : list string) : bool :=
  match l with
  | x :: ((y :: _) as l') => String.ltb x y && increasing l'
  | _ => true
  end.

(** Order on floats as a proposition. *)
Definition fle (x y : float) : Prop := SFleb x y = true.

Definition f0 : float := S754_zero false.
Definition f100 : float := float_of_Z 100.

(** [f] is a zero or a positive float [m * 2 ^ e] with [e <= g] and of value
    at most [C * 2 ^ g]; both sides are scaled by [2 ^ 1200] to stay in the
    integers. *)
Definition below (f : float) (C g : Z) : Prop :=
  match f with
  | S754_zero _ => True
  | S754_finite false m e =>
      -1074 <= e <= g /\ Zpos m * 2 ^ (e + 1200) <= C * 2 ^ (g + 1200)
  | _ => False
  end.

(** The workbook that [save_report] saves once the summary is sorted. *)
Definition report_of (summary_df detail_df missing_df sorted_df : DataFrame) : workbook :=
  format_sheets summary_df detail_df missing_df
    (to_excel (to_excel (to_excel [] sorted_df "SUMMARY")
                        detail_df "DETAILED_MISMATCHES")
              missing_df "MISSING_KEYS").

(** The calls of lines 129-141 on a SUMMARY sheet of [n] rows with the six
    summary columns. *)
Definition summary_calls (n : nat) : list ws_op :=
  (FreezePanes 1 0
   :: flat_map (fun nc => [WriteCell 0 (fst nc) (snd nc) header_fmt;
                           SetColumn (fst nc) (fst nc) 18])
               (enumerate summary_columns)
   ++ [status_rule n "MATCH" green_fmt; status_rule n "MISMATCH" red_fmt])%list.


End Views.

(* ================================================================== *)
(** ** Properties *)
(* ================================================================== *)
Import Py Pandas FileComparison Views.

(** *** Running the script step by step *)

Lemma bind_ok {A B} (m : IO A) (k : A -> IO B) tr a tr' :
  m tr = (Ok a, tr') -> bind m k tr = k a tr'.
Proof. unfold bind. intros ->. reflexivity. Qed.


Lemma bind_inv_ok {A B} (m : IO A) (k : A -> IO B) tr b tr' :
  bind m k tr = (Ok b, tr') ->
  exists a tr1, m tr = (Ok a, tr1) /\ k a tr1 = (Ok b, tr').
Proof.
  unfold bind. destruct (m tr) as [[a|e] tr1]; intros H.
  - exists a, tr1. split; [reflexivity | exact H].
  - discriminate H.
Qed.

Lemma rbind_inv_ok {A B} (r : result A) (k : A -> result B) b :
  rbind r k = Ok b -> exists a, r = Ok a /\ k a = Ok b.
Proof.
  destruct r as [a|e]; simpl; intros H.
  - exists a. split; [reflexivity | exact H].
  - discriminate H.
Qed.

Lemma compare_files_step w file1 file2 key_column tr df1 tr1 df2 tr2 :
  read_file w file1 tr = (Ok df1, tr1) ->
  read_file w file2 tr1 = (Ok df2, tr2) ->
  compare_files w file1 file2 key_column tr
  = compare_frames df1 df2 file1 file2 key_column tr2.
Proof.
  intros H1 H2. unfold compare_files.
  rewrite (bind_ok _ _ _ _ _ H1). rewrite (bind_ok _ _ _ _ _ H2). reflexivity.
Qed.

(** The trace of a successful [read_file]: one log line, one parse. *)
Lemma read_file_ok_trace w file_path tr df tr' :
  read_file w file_path tr = (Ok df, tr') ->
  exists ev, tr' = (tr ++ [LogInfo ("Reading file: " ++ file_path); ev])%list
             /\ (ev = ReadCsv file_path \/ ev = ReadExcel file_path).
Proof.
  unfold read_file, bind, logging_info, emit, pd_read_csv, pd_read_excel, raise.
  destruct (endswith file_path ".csv").
  - intros H. inversion H; subst. exists (ReadCsv file_path).
    rewrite <- app_assoc. simpl. auto.
  - destruct (endswith file_path ".xlsx").
    + intros H. inversion H; subst. exists (ReadExcel file_path).
      rewrite <- app_assoc. simpl. auto.
    + discriminate.
Qed.

(** C7. [read_file] raises "Only CSV and Excel files are supported" for every
    path that ends neither in [.csv] nor in [.xlsx], whatever the files on
    disk hold; the trace then has the log line only: no file was parsed. *)
Theorem read_file_unsupported_format (w : world) (file_path : string) (tr : list event) :
  endswith file_path ".csv" = false ->
  endswith file_path ".xlsx" = false ->
  read_file w file_path tr
  = (Raise (ValueError "Only CSV and Excel files are supported"),
     (tr ++ [LogInfo ("Reading file: " ++ file_path)])%list).
Proof.
  intros Hcsv Hxlsx.
  unfold read_file, bind, logging_info, emit, raise.
  rewrite Hcsv, Hxlsx. reflexivity.
Qed.

Lemma read_file_unsupported_format_witness :
  read_file Examples.files "report.xls" []
  = (Raise (ValueError "Only CSV and Excel files are supported"),
     [LogInfo "Reading file: report.xls"]).
Proof.
  apply (read_file_unsupported_format Examples.files "report.xls" []); reflexivity.
Defined.

(** *** Which exceptions the comparison can raise *)

Lemma foldM_raise {A B} (f : A -> B -> result A) l a e :
  foldM f l a = Raise e -> exists a' x, In x l /\ f a' x = Raise e.
Proof.
  revert a. induction l as [|x l IH]; simpl; intros a H; [discriminate|].
  destruct (f a x) as [a'|e'] eqn:Hf; simpl in H.
  - destruct (IH _ H) as (a'' & y & Hy & Hr). exists a'', y. auto.
  - inversion H; subst. exists a, x. auto.
Qed.

Lemma filterM_raise {A} (f : A -> result bool) l e :
  filterM f l = Raise e -> exists x, In x l /\ f x = Raise e.
Proof.
  induction l as [|x l IH]; simpl; intros H; [discriminate|].
  destruct (f x) as [b|e'] eqn:Hf; simpl in H.
  - destruct (filterM f l) as [l'|e'']; simpl in H; [discriminate|].
    inversion H; subst. destruct (IH eq_refl) as (y & Hy & Hr). exists y. auto.
  - inversion H; subst. exists x. auto.
Qed.

Lemma insert_sorted_raise {A} (lt : A -> A -> result bool) x l e :
  insert_sorted lt x l = Raise e -> exists a b, lt a b = Raise e.
Proof.
  induction l as [|y l IH]; simpl; intros H; [discriminate|].
  destruct (lt y x) as [[|]|e'] eqn:Hlt; simpl in H.
  - destruct (insert_sorted lt x l) as [l'|e'']; simpl in H; [discriminate|].
    inversion H; subst. apply IH. reflexivity.
  - discriminate.
  - inversion H; subst. eauto.
Qed.

Lemma sorted_raise {A} (lt : A -> A -> result bool) l e :
  sorted lt l = Raise e -> exists a b, lt a b = Raise e.
Proof.
  induction l as [|x l IH]; simpl; intros H; [discriminate|].
  destruct (sorted lt l) as [s|e'] eqn:Hs; simpl in H.
  - eapply insert_sorted_raise; eauto.
  - inversion H; subst. apply IH. reflexivity.
Qed.

Lemma py_lt_raise a b e : py_lt a b = Raise e -> exists msg, e = TypeError msg.
Proof.
  unfold py_lt.
  destruct (as_num a), (as_num b); try discriminate;
    try (intros H; inversion H; eauto; fail).
  destruct a, b; intros H; inversion H; eauto.
Qed.

Lemma set_index_raise df key e :
  set_index df key = Raise e -> exists k, e = KeyError k.
Proof.
  unfold set_index. destruct (position key (columns df)); [discriminate|].
  intros H; inversion H; eauto.
Qed.

Lemma getitem_raise df col e :
  getitem df col = Raise e -> e = KeyError (VStr col).
Proof.
  unfold getitem. destruct (position col (columns df)); [discriminate|].
  intros H; inversion H; eauto.
Qed.

Lemma at_raise df key col e :
  at_ df key col = Raise e -> exists k, e = KeyError k.
Proof.
  unfold at_. destruct (position col (columns df)).
  - destruct (filter _ _) as [|[l r] [|p rows]]; try discriminate.
    intros H; inversion H; eauto.
  - intros H; inversion H; eauto.
Qed.

Lemma lookup_raise df key col e :
  lookup df key col = Raise e -> exists k, e = KeyError k.
Proof.
  unfold lookup. destruct (has_column col df); [apply at_raise | discriminate].
Qed.

Lemma int_true_div_raise a b e :
  int_true_div a b = Raise e ->
  (exists msg, e = ZeroDivisionError msg) \/ (exists msg, e = OverflowError msg).
Proof.
  unfold int_true_div. destruct b; [intros H; inversion H; eauto | |];
    (destruct a; [discriminate | |]);
    match goal with |- context [fdiv_pos ?s ?n ?d] => destruct (fdiv_pos s n d) end;
    try discriminate; intros H; inversion H; eauto.
Qed.

(** Every exception raised after the key-column check is a [KeyError], a
    [TypeError], a [ZeroDivisionError], an [OverflowError], or the
    [ValueError] of a comparison of two series. *)
Lemma is_numeric_col_raise df1 df2 col e :
  is_numeric_col df1 df2 col = Raise e -> e = KeyError (VStr col).
Proof.
  unfold is_numeric_col.
  destruct (getitem df1 col) as [s1|e1] eqn:H1; simpl.
  - destruct (is_number (s_dtype s1)); [discriminate|].
    destruct (getitem df2 col) as [s2|e2] eqn:H2; simpl; [discriminate|].
    intros H; inversion H; subst. eapply getitem_raise; eauto.
  - intros H; inversion H; subst. eapply getitem_raise; eauto.
Qed.

Lemma compare_column_raise df1 df2 f1 f2 ncols key st col e :
  compare_column df1 df2 f1 f2 ncols key st col = Raise e ->
  (exists k, e = KeyError k)
  \/ e = ValueError series_ambiguous \/ e = ValueError series_mislabelled.
Proof.
  unfold compare_column. destruct st as [m d].
  destruct (lookup df1 key col) as [c1|e1] eqn:H1; simpl.
  2:{ intros H; inversion H; subst. left. eapply lookup_raise; eauto. }
  destruct (lookup df2 key col) as [c2|e2] eqn:H2; simpl.
  2:{ intros H; inversion H; subst. left. eapply lookup_raise; eauto. }
  destruct c1, c2; try (intros H; inversion H; auto; fail).
  - destruct (py_ne v v0); discriminate.
  - destruct (_ =? _)%nat; intros H; inversion H; auto.
Qed.

Lemma match_percentage_raise t m e :
  match_percentage t m = Raise e ->
  (exists msg, e = ZeroDivisionError msg) \/ (exists msg, e = OverflowError msg).
Proof.
  unfold match_percentage.
  destruct (int_true_div (t - m) t) eqn:H; simpl; [discriminate|].
  intros H'; inversion H'; subst. eapply int_true_div_raise; eauto.
Qed.

Lemma compare_key_raise df1 df2 f1 f2 cols ncols st key e :
  compare_key df1 df2 f1 f2 cols ncols st key = Raise e ->
  (exists k, e = KeyError k)
  \/ e = ValueError series_ambiguous \/ e = ValueError series_mislabelled
  \/ (exists msg, e = ZeroDivisionError msg) \/ (exists msg, e = OverflowError msg).
Proof.
  unfold compare_key. destruct st as [[s d] m].
  destruct (negb (index_contains (index df1) key)); [discriminate|].
  destruct (negb (index_contains (index df2) key)); [discriminate|].
  destruct (foldM _ cols (0, d)) as [[mm d']|e1] eqn:Hf; simpl.
  - destruct (match_percentage _ mm) eqn:Hp; simpl; [discriminate|].
    intros H; inversion H; subst.
    apply match_percentage_raise in Hp. tauto.
  - intros H; inversion H; subst.
    apply foldM_raise in Hf. destruct Hf as (a' & x & _ & Hr).
    apply compare_column_raise in Hr. tauto.
Qed.

Lemma compare_rows_raise df1 df2 f1 f2 keys cols e :
  compare_rows df1 df2 f1 f2 keys cols = Raise e ->
  (exists k, e = KeyError k)
  \/ e = ValueError series_ambiguous \/ e = ValueError series_mislabelled
  \/ (exists msg, e = ZeroDivisionError msg) \/ (exists msg, e = OverflowError msg).
Proof.
  unfold compare_rows, numeric_columns.
  destruct (filterM _ cols) as [ncols|e1] eqn:Hn; simpl.
  - intros H. apply foldM_raise in H. destruct H as (a' & x & _ & Hr).
    eapply compare_key_raise; eauto.
  - intros H; inversion H; subst.
    apply filterM_raise in Hn. destruct Hn as (x & _ & Hr).
    apply is_numeric_col_raise in Hr. eauto.
Qed.

Lemma key_error_msg_not_series k :
  key_error_msg k <> series_ambiguous /\ key_error_msg k <> series_mislabelled.
Proof. split; intros H; discriminate H. Qed.

Lemma has_column_In col df : has_column col df = true <-> In col (columns df).
Proof.
  unfold has_column. rewrite existsb_exists. split.
  - intros (x & Hx & He). apply String.eqb_eq in He. subst. exact Hx.
  - intros H. exists col. split; [exact H | apply String.eqb_refl].
Qed.

(** After a passed key-column check, the key-column error is never raised. *)
Lemma compare_frames_checked df1 df2 file1 file2 key_column tr :
  has_column key_column df1 = true ->
  has_column key_column df2 = true ->
  forall k, fst (compare_frames df1 df2 file1 file2 key_column tr)
            <> Raise (ValueError (key_error_msg k)).
Proof.
  intros H1 H2 k. unfold compare_frames. rewrite H1, H2. simpl.
  unfold bind, lift, logging_info, emit, ret.
  destruct (set_index df1 key_column) as [df1'|e] eqn:Hs1; simpl.
  2:{ apply set_index_raise in Hs1. destruct Hs1 as [? ->]. discriminate. }
  destruct (set_index df2 key_column) as [df2'|e] eqn:Hs2; simpl.
  2:{ apply set_index_raise in Hs2. destruct Hs2 as [? ->]. discriminate. }
  destruct (key_universe df1' df2') as [keys|e] eqn:Hk; simpl.
  2:{ apply sorted_raise in Hk. destruct Hk as (a & b & Hk).
      apply py_lt_raise in Hk. destruct Hk as [? ->]. discriminate. }
  destruct (column_universe df1' df2') as [cols|e] eqn:Hc; simpl.
  2:{ apply sorted_raise in Hc. destruct Hc as (a & b & Hc). discriminate. }
  destruct (compare_rows _ _ _ _ keys cols) as [o|e] eqn:Hr; simpl; [discriminate|].
  apply compare_rows_raise in Hr.
  destruct (key_error_msg_not_series k) as [Ha Hm].
  destruct Hr as [[? ->]|[->|[->|[[? ->]|[? ->]]]]]; congruence.
Qed.

(** C6. Once both files are read, [compare_files] raises the key-column
    [ValueError], whose message quotes the key column, exactly when the key
    column is missing from the columns of one of the two frames; the run then
    ends right after the two reads, before the comparison starts and without
    any of the three outputs. *)
Theorem compare_files_key_column_error
    (w : world) (file1 file2 key_column : string) (tr tr1 tr2 : list event)
    (df1 df2 : DataFrame) :
  read_file w file1 tr = (Ok df1, tr1) ->
  read_file w file2 tr1 = (Ok df2, tr2) ->
  (fst (compare_files w file1 file2 key_column tr)
     = Raise (ValueError ("Key column '" ++ key_column ++ "' must exist in both files"))
   <-> ~ In key_column (columns df1) \/ ~ In key_column (columns df2))
  /\ (~ In key_column (columns df1) \/ ~ In key_column (columns df2) ->
      compare_files w file1 file2 key_column tr
      = (Raise (ValueError ("Key column '" ++ key_column ++ "' must exist in both files")),
         tr2)).
Proof.
  intros Hr1 Hr2.
  rewrite (compare_files_step _ _ _ _ _ _ _ _ _ Hr1 Hr2).
  assert (Hmiss : ~ In key_column (columns df1) \/ ~ In key_column (columns df2) ->
                  compare_frames df1 df2 file1 file2 key_column tr2
                  = (Raise (ValueError (key_error_msg key_column)), tr2)).
  { intros Hm. unfold compare_frames.
    destruct (has_column key_column df1) eqn:H1; simpl.
    - destruct (has_column key_column df2) eqn:H2; simpl; [|reflexivity].
      apply has_column_In in H1. apply has_column_In in H2. tauto.
    - reflexivity. }
  split; [split|exact Hmiss].
  - intros Herr.
    destruct (has_column key_column df1) eqn:H1.
    + destruct (has_column key_column df2) eqn:H2.
      * exfalso. exact (compare_frames_checked _ _ file1 file2 _ tr2 H1 H2 key_column Herr).
      * right. rewrite <- has_column_In. congruence.
    + left. rewrite <- has_column_In. congruence.
  - intros Hm. rewrite (Hmiss Hm). reflexivity.
Qed.

Lemma compare_files_key_column_error_witness :
  compare_files Examples.files "amounts_A.csv" "amounts_B.xlsx" "id" []
  = (Raise (ValueError "Key column 'id' must exist in both files"),
     [LogInfo "Reading file: amounts_A.csv"; ReadCsv "amounts_A.csv";
      LogInfo "Reading file: amounts_B.xlsx"; ReadExcel "amounts_B.xlsx"]).
Proof.
  refine (proj2 (compare_files_key_column_error Examples.files
                   "amounts_A.csv" "amounts_B.xlsx" "id" []
                   [LogInfo "Reading file: amounts_A.csv"; ReadCsv "amounts_A.csv"]
                   [LogInfo "Reading file: amounts_A.csv"; ReadCsv "amounts_A.csv";
                    LogInfo "Reading file: amounts_B.xlsx"; ReadExcel "amounts_B.xlsx"]
                   Examples.amounts_A Examples.amounts_B eq_refl eq_refl) _).
  left. simpl. intros [H|[H|[]]]; discriminate H.
Defined.

(** *** The two loops *)

Lemma compare_column_ok df1 df2 f1 f2 ncols key m0 d0 col m d :
  compare_column df1 df2 f1 f2 ncols key (m0, d0) col = Ok (m, d) ->
  exists v1 v2,
    lookup df1 key col = Ok (Scalar v1) /\ lookup df2 key col = Ok (Scalar v2) /\
    ((py_ne v1 v2 = true /\ m = m0 + 1 /\
      d = (d0 ++ [mismatch_row f1 f2 ncols key col v1 v2])%list)
     \/ (py_ne v1 v2 = false /\ m = m0 /\ d = d0)).
Proof.
  unfold compare_column.
  destruct (lookup df1 key col) as [[v1|xs]|e1]; simpl; try discriminate;
    destruct (lookup df2 key col) as [[v2|ys]|e2]; simpl; try discriminate.
  - destruct (py_ne v1 v2) eqn:Hne; intros H; inversion H; subst;
      exists v1, v2; auto 10.
  - destruct (_ =? _)%nat; discriminate.
Qed.

Lemma key_mismatches_cons df1 df2 f1 f2 ncols key col cols v1 v2 :
  lookup df1 key col = Ok (Scalar v1) ->
  lookup df2 key col = Ok (Scalar v2) ->
  key_mismatches df1 df2 f1 f2 ncols key (col :: cols)
  = ((if py_ne v1 v2 then [mismatch_row f1 f2 ncols key col v1 v2] else [])
     ++ key_mismatches df1 df2 f1 f2 ncols key cols)%list.
Proof. intros H1 H2. unfold key_mismatches. simpl. rewrite H1, H2. reflexivity. Qed.

(** The column loop appends exactly the mismatch rows of the key and counts
    them. *)
Lemma column_loop_ok df1 df2 f1 f2 ncols key cols :
  forall m0 d0 m d,
    foldM (compare_column df1 df2 f1 f2 ncols key) cols (m0, d0) = Ok (m, d) ->
    d = (d0 ++ key_mismatches df1 df2 f1 f2 ncols key cols)%list
    /\ m = m0 + Z.of_nat (List.length (key_mismatches df1 df2 f1 f2 ncols key cols))
    /\ Forall (fun col => exists v1 v2, lookup df1 key col = Ok (Scalar v1)
                                      /\ lookup df2 key col = Ok (Scalar v2)) cols.
Proof.
  induction cols as [|col cols IH]; cbn [foldM]; intros m0 d0 m d H.
  - inversion H; subst. rewrite app_nil_r. repeat split; [simpl; lia | constructor].
  - destruct (compare_column df1 df2 f1 f2 ncols key (m0, d0) col)
      as [[m1 d1]|e] eqn:Hc; cbn [rbind] in H; [|discriminate].
    apply compare_column_ok in Hc.
    destruct Hc as (v1 & v2 & H1 & H2 & Hcase).
    destruct (IH _ _ _ _ H) as (Hd & Hm & Hall).
    rewrite (key_mismatches_cons _ _ _ _ _ _ _ _ _ _ H1 H2).
    destruct Hcase as [(Hne & -> & ->)|(Hne & -> & ->)]; rewrite Hne.
    + repeat split.
      * rewrite Hd, <- app_assoc. reflexivity.
      * rewrite Hm. simpl List.length. lia.
      * constructor; eauto.
    + repeat split; [exact Hd | rewrite Hm; simpl; lia | constructor; eauto].
Qed.

Lemma key_mismatches_length df1 df2 f1 f2 ncols key cols :
  (List.length (key_mismatches df1 df2 f1 f2 ncols key cols) <= List.length cols)%nat.
Proof.
  unfold key_mismatches. induction cols as [|col cols IH]; simpl; [lia|].
  rewrite length_app.
  destruct (lookup df1 key col) as [[v1|?]|?]; simpl; try lia;
    destruct (lookup df2 key col) as [[v2|?]|?]; simpl; try lia.
  destruct (py_ne v1 v2); simpl; lia.
Qed.

(** What one turn of the key loop does. *)
Lemma compare_key_ok df1 df2 f1 f2 cols ncols s0 d0 m0 key s d m :
  compare_key df1 df2 f1 f2 cols ncols (s0, d0, m0) key = Ok (s, d, m) ->
  (in_both df1 df2 key = false /\ s = s0 /\ d = d0 /\
   m = (m0 ++ [missing_row key (holder df1 f1 f2 key)])%list)
  \/ (in_both df1 df2 key = true /\ m = m0 /\
      d = (d0 ++ key_mismatches df1 df2 f1 f2 ncols key cols)%list /\
      exists pct,
        let t := Z.of_nat (List.length cols) in
        let mm := Z.of_nat (List.length (key_mismatches df1 df2 f1 f2 ncols key cols)) in
        match_percentage t mm = Ok pct /\
        s = (s0 ++ [summary_row key t mm pct])%list).
Proof.
  unfold compare_key, in_both, holder.
  destruct (index_contains (index df1) key); simpl.
  2:{ intros H; inversion H; subst. left. auto. }
  destruct (index_contains (index df2) key); simpl.
  2:{ intros H; inversion H; subst. left. auto. }
  destruct (foldM _ cols (0, d0)) as [[mm d']|e] eqn:Hf; simpl; [|discriminate].
  destruct (match_percentage _ mm) as [pct|e] eqn:Hp; simpl; [|discriminate].
  intros H; inversion H; subst. right.
  apply column_loop_ok in Hf. destruct Hf as (Hd & Hm & _).
  simpl in Hm. subst mm.
  repeat split; auto. exists pct. split; [exact Hp | reflexivity].
Qed.

(** The key loop, as a whole: the missing rows are those of the keys not in
    both frames, the mismatch rows those of the keys in both frames, and
    there is one summary row per key in both frames, all in key order. *)
Lemma key_loop_ok df1 df2 f1 f2 cols ncols keys :
  forall s0 d0 m0 s d m,
    foldM (compare_key df1 df2 f1 f2 cols ncols) keys (s0, d0, m0) = Ok (s, d, m) ->
    m = (m0 ++ map (fun k => missing_row k (holder df1 f1 f2 k))
                   (filter (fun k => negb (in_both df1 df2 k)) keys))%list
    /\ d = (d0 ++ flat_map (fun k => key_mismatches df1 df2 f1 f2 ncols k cols)
                           (filter (in_both df1 df2) keys))%list
    /\ exists srows,
         s = (s0 ++ srows)%list /\
         Forall2 (fun k row =>
                    exists pct,
                      let t := Z.of_nat (List.length cols) in
                      let mm := Z.of_nat (List.length
                                  (key_mismatches df1 df2 f1 f2 ncols k cols)) in
                      match_percentage t mm = Ok pct /\
                      row = summary_row k t mm pct)
                 (filter (in_both df1 df2) keys) srows.
Proof.
  induction keys as [|key keys IH]; cbn [foldM]; intros s0 d0 m0 s d m H.
  - inversion H; subst. simpl. rewrite !app_nil_r. repeat split.
    exists []. rewrite app_nil_r. split; [reflexivity | constructor].
  - destruct (compare_key df1 df2 f1 f2 cols ncols (s0, d0, m0) key)
      as [[[s1 d1] m1]|e] eqn:Hk; cbn [rbind] in H; [|discriminate].
    apply compare_key_ok in Hk.
    destruct (IH _ _ _ _ _ _ H) as (Hm & Hd & srows & Hs & Hall).
    destruct Hk as [(Hb & -> & -> & ->)|(Hb & -> & -> & pct & Hp & ->)];
      cbn [filter]; rewrite Hb; cbn [negb map flat_map].
    + repeat split.
      * rewrite Hm, <- app_assoc. reflexivity.
      * exact Hd.
      * exists srows. auto.
    + repeat split.
      * exact Hm.
      * rewrite Hd, <- app_assoc. reflexivity.
      * exists (summary_row key (Z.of_nat (List.length cols))
                  (Z.of_nat (List.length (key_mismatches df1 df2 f1 f2 ncols key cols)))
                  pct :: srows).
        split.
        -- rewrite Hs, <- app_assoc. reflexivity.
        -- constructor; [|exact Hall]. exists pct. split; [exact Hp | reflexivity].
Qed.

(** A successful run, taken apart. *)
Lemma compare_files_ok_inv w file1 file2 key_column tr fr tr' :
  compare_files w file1 file2 key_column tr = (Ok fr, tr') ->
  exists df1 df2 df1' df2' keys cols ncols o,
    fst (read_file w file1 tr) = Ok df1 /\
    fst (read_file w file2 (snd (read_file w file1 tr))) = Ok df2 /\
    set_index df1 key_column = Ok df1' /\
    set_index df2 key_column = Ok df2' /\
    key_universe df1' df2' = Ok keys /\
    column_universe df1' df2' = Ok cols /\
    numeric_columns df1' df2' cols = Ok ncols /\
    foldM (compare_key df1' df2' (stem file1) (stem file2) cols ncols) keys ([], [], [])
    = Ok o /\
    fr = frames o.
Proof.
  unfold compare_files. intros H.
  apply bind_inv_ok in H. destruct H as (df1 & tr1 & Hr1 & H).
  apply bind_inv_ok in H. destruct H as (df2 & tr2 & Hr2 & H).
  unfold compare_frames in H.
  destruct (negb (has_column key_column df1) || negb (has_column key_column df2));
    [discriminate|].
  apply bind_inv_ok in H. destruct H as (df1' & t1 & Hs1 & H).
  apply bind_inv_ok in H. destruct H as (df2' & t2 & Hs2 & H).
  apply bind_inv_ok in H. destruct H as (keys & t3 & Hk & H).
  apply bind_inv_ok in H. destruct H as (cols & t4 & Hc & H).
  apply bind_inv_ok in H. destruct H as (? & t5 & _ & H).
  apply bind_inv_ok in H. destruct H as (? & t6 & _ & H).
  apply bind_inv_ok in H. destruct H as (o & t7 & Ho & H).
  unfold lift in *. unfold ret in H.
  inversion Hs1; inversion Hs2; inversion Hk; inversion Hc; inversion Ho;
    inversion H; subst.
  unfold compare_rows in *.
  match goal with Hx : rbind _ _ = Ok o |- _ =>
    apply rbind_inv_ok in Hx; destruct Hx as (ncols & Hn & Hf) end.
  exists df1, df2, df1', df2', keys, cols, ncols, o.
  rewrite Hr1. simpl. rewrite Hr2. simpl. repeat split; assumption.
Qed.

(** *** Runs on concrete files *)

(** C1. Every key of either table should end in exactly one of the summary
    and missing outputs.  On [x.csv] (columns key, x) and [y.csv] (columns
    key, y), which share the key column, the run stops with [KeyError] at
    line 58, [df1[col]] for a column that only the second file has, although
    lines 72-73 provide for such columns: key 1 reaches no output. *)
Theorem compare_files_differing_columns_raises :
  compare_files Examples.files "x.csv" "y.csv" "key" []
  = (Raise (KeyError (VStr "x")),
     [LogInfo "Reading file: x.csv"; ReadCsv "x.csv";
      LogInfo "Reading file: y.csv"; ReadCsv "y.csv";
      LogInfo "Total keys to compare: 1";
      LogInfo "Total columns to compare: 2"]).
Proof. vm_compute. reflexivity. Qed.

(** C3. Two identical copies of a table should give no mismatch row and a
    match percentage of 100.  On two copies of a file whose [score] cell of
    key 1 is empty (read as [nan]), the comparison [val1 != val2] of line 75
    holds, since [nan != nan]: the run reports one mismatch row, and the
    summary row of key 1 has one mismatched column, 0.0 percent and status
    MISMATCH. *)
Theorem compare_files_identical_with_blank_cell :
  fst (compare_files Examples.files "blank.csv" "blank_copy.csv" "key" [])
  = Ok (frames ([summary_row (VInt 1) 1 1 f0],
                [mismatch_row "blank" "blank_copy" ["score"] (VInt 1) "score"
                              (VFloat nan) (VFloat nan)],
                []))
  /\ dict_get (summary_row (VInt 1) 1 1 f0) "status" = Some (VStr "❌ MISMATCH")
  /\ py_ne (VFloat nan) (VFloat nan) = true.
Proof. repeat split; vm_compute; reflexivity. Qed.

(** C4. Swapping the two files should keep every classification.  With
    [score.csv] (columns key, score) first and [ids.csv] (column key) second
    the run returns a summary row for key 1; with the files swapped it stops
    with [KeyError] at line 58, [df1[col]] for the column [score] that the
    first file now lacks. *)
Theorem compare_files_swap_raises :
  fst (compare_files Examples.files "score.csv" "ids.csv" "key" [])
  = Ok (frames ([summary_row (VInt 1) 1 1 f0],
                [mismatch_row "score" "ids" ["score"] (VInt 1) "score"
                              (VInt 5) VNone],
                []))
  /\ fst (compare_files Examples.files "ids.csv" "score.csv" "key" [])
     = Raise (KeyError (VStr "score")).
Proof. split; vm_compute; reflexivity. Qed.

(** C8 (as stated, refuted). With keys {1, 2} in [A.csv] and keys {2, 3} in
    [B.csv], the missing frame reads key 1, "A_only" and key 3, "B_only":
    key 3 is not labelled "A_only". *)
Lemma scenario_key3_not_A_only :
  exists summary_df detail_df missing_df,
    fst (compare_files Examples.files "A.csv" "B.csv" "key" [])
    = Ok (summary_df, detail_df, missing_df)
    /\ data missing_df = [[VInt 1; VStr "A_only"]; [VInt 3; VStr "B_only"]]
    /\ ~ In [VInt 3; VStr "A_only"] (data missing_df).
Proof.
  eexists _, _, _. split; [vm_compute; reflexivity|].
  split; [reflexivity|].
  simpl. intros [H|[H|[]]]; discriminate H.
Qed.

(** *** Frames that hold the key column only *)

Lemma set_index_only_key df key_column df' :
  columns df = [key_column] ->
  set_index df key_column = Ok df' ->
  columns df' = [].
Proof.
  unfold set_index, columns. intros Hc.
  destruct (schema df) as [|[c d] [|p sch]] eqn:Hs; try discriminate Hc.
  simpl in Hc. inversion Hc; subst c.
  simpl. rewrite String.eqb_refl. intros H; inversion H; subst.
  reflexivity.
Qed.

Lemma column_universe_empty df1 df2 :
  columns df1 = [] -> columns df2 = [] -> column_universe df1 df2 = Ok [].
Proof. unfold column_universe. intros -> ->. reflexivity. Qed.

Lemma match_percentage_zero_division t m :
  match_percentage t m = Raise (ZeroDivisionError "division by zero") <-> t = 0.
Proof.
  unfold match_percentage, int_true_div. split.
  - destruct t; [reflexivity | |];
      (destruct (_ - m); simpl; [discriminate | |]);
      match goal with |- context [fdiv_pos ?s ?n ?d] => destruct (fdiv_pos s n d) end;
      simpl; discriminate.
  - intros ->. reflexivity.
Qed.

Lemma key_loop_no_columns df1 df2 f1 f2 ncols keys :
  forall st,
    (exists key, In key keys /\ in_both df1 df2 key = true) ->
    foldM (compare_key df1 df2 f1 f2 [] ncols) keys st
    = Raise (ZeroDivisionError "division by zero").
Proof.
  induction keys as [|key keys IH]; intros [[s d] m] (k & Hin & Hb).
  - destruct Hin.
  - cbn [foldM]. unfold compare_key at 1. unfold in_both in *.
    destruct (index_contains (index df1) key) eqn:H1; cbn [negb].
    + destruct (index_contains (index df2) key) eqn:H2; cbn [negb].
      * reflexivity.
      * cbn [rbind]. apply IH. destruct Hin as [->|Hin].
        -- rewrite H1, H2 in Hb. discriminate.
        -- exists k. auto.
    + cbn [rbind]. apply IH. destruct Hin as [->|Hin].
      * rewrite H1 in Hb. discriminate.
      * exists k. auto.
Qed.


(** *** The outputs of a successful run *)

Lemma compare_files_outputs w file1 file2 key_column tr fr tr' :
  compare_files w file1 file2 key_column tr = (Ok fr, tr') ->
  exists df1 df2 keys cols ncols summary_rows detailed_rows missing_rows,
    run_context w file1 file2 key_column tr df1 df2 keys cols ncols /\
    fr = frames (summary_rows, detailed_rows, missing_rows) /\
    missing_rows
    = map (fun k => missing_row k (holder df1 (stem file1) (stem file2) k))
          (filter (fun k => negb (in_both df1 df2 k)) keys) /\
    detailed_rows
    = flat_map (fun k => key_mismatches df1 df2 (stem file1) (stem file2) ncols k cols)
               (filter (in_both df1 df2) keys) /\
    Forall2 (fun k row =>
               exists pct,
                 let t := Z.of_nat (List.length cols) in
                 let mm := Z.of_nat (List.length
                             (key_mismatches df1 df2 (stem file1) (stem file2)
                                             ncols k cols)) in
                 match_percentage t mm = Ok pct /\
                 row = summary_row k t mm pct)
            (filter (in_both df1 df2) keys) summary_rows.
Proof.
  intros H. apply compare_files_ok_inv in H.
  destruct H as (raw1 & raw2 & df1 & df2 & keys & cols & ncols & [[s d] m]
                 & Hr1 & Hr2 & Hs1 & Hs2 & Hk & Hc & Hn & Hf & ->).
  apply key_loop_ok in Hf. destruct Hf as (Hm & Hd & srows & Hs & Hall).
  simpl in Hm, Hd, Hs. subst.
  exists df1, df2, keys, cols, ncols, srows.
  eexists _, _. split.
  - exists raw1, raw2. repeat split; assumption.
  - split; [reflexivity|]. split; [reflexivity|]. split; [reflexivity | exact Hall].
Qed.

Lemma dict_get_set_same d k v : dict_get (dict_set d k v) k = Some v.
Proof.
  induction d as [|[k' v'] d IH]; simpl.
  - rewrite String.eqb_refl. reflexivity.
  - destruct (String.eqb k' k) eqn:He; simpl; rewrite He; [reflexivity | exact IH].
Qed.

Lemma existsb_eqb_In col cols : existsb (String.eqb col) cols = true <-> In col cols.
Proof.
  rewrite existsb_exists. split.
  - intros (x & Hx & He). apply String.eqb_eq in He. subst. exact Hx.
  - intros H. exists col. split; [exact H | apply String.eqb_refl].
Qed.

Lemma mismatch_row_difference f1 f2 ncols key col v1 v2 :
  In col ncols ->
  dict_get (mismatch_row f1 f2 ncols key col v1 v2) "difference"
  = Some (difference v1 v2).
Proof.
  intros Hin. unfold mismatch_row.
  apply existsb_eqb_In in Hin. rewrite Hin. apply dict_get_set_same.
Qed.

Lemma key_mismatches_In df1 df2 f1 f2 ncols key cols col v1 v2 :
  In col cols ->
  lookup df1 key col = Ok (Scalar v1) ->
  lookup df2 key col = Ok (Scalar v2) ->
  py_ne v1 v2 = true ->
  In (mismatch_row f1 f2 ncols key col v1 v2)
     (key_mismatches df1 df2 f1 f2 ncols key cols).
Proof.
  intros Hin H1 H2 Hne. unfold key_mismatches. apply in_flat_map.
  exists col. split; [exact Hin|]. rewrite H1, H2, Hne. left. reflexivity.
Qed.

(** C5. In a run that returns, every cell pair that differs in a column
    classified numeric has its mismatch row in the detailed output, and the
    [difference] of that row is [float(val2) - float(val1)] when both
    conversions succeed and [None] (not zero) when one of them fails; a
    failed conversion drops no row, of this key or of another. *)
Theorem numeric_mismatch_difference
    (w : world) (file1 file2 key_column : string) (tr tr' : list event)
    (fr : DataFrame * DataFrame * DataFrame) :
  compare_files w file1 file2 key_column tr = (Ok fr, tr') ->
  exists df1 df2 keys cols ncols summary_rows detailed_rows missing_rows,
    run_context w file1 file2 key_column tr df1 df2 keys cols ncols /\
    fr = frames (summary_rows, detailed_rows, missing_rows) /\
    forall key col v1 v2,
      In key keys -> in_both df1 df2 key = true -> In col cols ->
      lookup df1 key col = Ok (Scalar v1) ->
      lookup df2 key col = Ok (Scalar v2) ->
      py_ne v1 v2 = true ->
      In col ncols ->
      let row := mismatch_row (stem file1) (stem file2) ncols key col v1 v2 in
      In row detailed_rows /\
      dict_get row "difference"
      = Some match py_float v2, py_float v1 with
             | Some x2, Some x1 => VFloat (fsub x2 x1)
             | _, _ => VNone
             end.
Proof.
  intros H. apply compare_files_outputs in H.
  destruct H as (df1 & df2 & keys & cols & ncols & s & d & m
                 & Hctx & -> & Hm & Hd & Hs).
  exists df1, df2, keys, cols, ncols, s, d, m.
  split; [exact Hctx|]. split; [reflexivity|].
  intros key col v1 v2 Hk Hb Hc H1 H2 Hne Hnum row. split.
  - rewrite Hd. apply in_flat_map. exists key. split.
    + apply filter_In. auto.
    + apply key_mismatches_In; assumption.
  - unfold row. rewrite (mismatch_row_difference _ _ _ _ _ _ _ Hnum). reflexivity.
Qed.

Lemma numeric_mismatch_difference_witness :
  exists fr tr',
    compare_files Examples.files "amounts_A.csv" "amounts_B.xlsx" "key" [] = (Ok fr, tr') /\
    exists df1 df2 keys cols ncols summary_rows detailed_rows missing_rows,
      run_context Examples.files "amounts_A.csv" "amounts_B.xlsx" "key" []
                  df1 df2 keys cols ncols /\
      fr = frames (summary_rows, detailed_rows, missing_rows) /\
      forall key col v1 v2,
        In key keys -> in_both df1 df2 key = true -> In col cols ->
        lookup df1 key col = Ok (Scalar v1) ->
        lookup df2 key col = Ok (Scalar v2) ->
        py_ne v1 v2 = true ->
        In col ncols ->
        let row := mismatch_row (stem "amounts_A.csv") (stem "amounts_B.xlsx")
                                ncols key col v1 v2 in
        In row detailed_rows /\
        dict_get row "difference"
        = Some match py_float v2, py_float v1 with
               | Some x2, Some x1 => VFloat (fsub x2 x1)
               | _, _ => VNone
               end.
Proof.
  eexists _, _. split; [vm_compute; reflexivity|].
  eapply (numeric_mismatch_difference Examples.files
            "amounts_A.csv" "amounts_B.xlsx" "key" []).
  vm_compute. reflexivity.
Defined.

(** *** Missing rows *)

Lemma missing_row_present_in key file_name :
  dict_get (missing_row key file_name) "present_in" = Some (VStr (file_name ++ "_only"))
  /\ dict_get (missing_row key file_name) "key" = Some key.
Proof. split; reflexivity. Qed.

Lemma summary_row_key key t mm pct : dict_get (summary_row key t mm pct) "key" = Some key.
Proof. reflexivity. Qed.

(** C8 (amended). In a run that returns, the missing rows are, in key order,
    those of the keys that are not in both tables, and each names the file
    that holds the key: [<stem of file2>_only] for a key absent from the
    first table, [<stem of file1>_only] for a key absent from the second.
    With keys 1, 2 in the first table and 2, 3 in the second there are
    exactly two missing rows, key 1 with the first file's name and key 3 with
    the second file's name, and key 2 has the only summary row. *)
Theorem missing_rows_name_the_holder
    (w : world) (file1 file2 key_column : string) (tr tr' : list event)
    (fr : DataFrame * DataFrame * DataFrame) :
  compare_files w file1 file2 key_column tr = (Ok fr, tr') ->
  exists df1 df2 keys cols ncols summary_rows detailed_rows missing_rows,
    run_context w file1 file2 key_column tr df1 df2 keys cols ncols /\
    fr = frames (summary_rows, detailed_rows, missing_rows) /\
    (forall key, In key keys -> index_contains (index df1) key = false ->
       In (missing_row key (stem file2)) missing_rows) /\
    (forall key, In key keys -> index_contains (index df1) key = true ->
       index_contains (index df2) key = false ->
       In (missing_row key (stem file1)) missing_rows) /\
    (forall key file_name,
       dict_get (missing_row key file_name) "present_in"
       = Some (VStr (file_name ++ "_only"))) /\
    (index df1 = [VInt 1; VInt 2] -> index df2 = [VInt 2; VInt 3] ->
     missing_rows = [missing_row (VInt 1) (stem file1);
                     missing_row (VInt 3) (stem file2)] /\
     map (fun row => dict_get row "key") summary_rows = [Some (VInt 2)]).
Proof.
  intros H. apply compare_files_outputs in H.
  destruct H as (df1 & df2 & keys & cols & ncols & s & d & m
                 & Hctx & -> & Hm & Hd & Hs).
  exists df1, df2, keys, cols, ncols, s, d, m.
  split; [exact Hctx|]. split; [reflexivity|].
  split; [|split; [|split]].
  - intros key Hk H1. rewrite Hm. apply in_map_iff. exists key. split.
    + unfold holder. rewrite H1. reflexivity.
    + apply filter_In. split; [exact Hk|]. unfold in_both. rewrite H1. reflexivity.
  - intros key Hk H1 H2. rewrite Hm. apply in_map_iff. exists key. split.
    + unfold holder. rewrite H1. reflexivity.
    + apply filter_In. split; [exact Hk|]. unfold in_both. rewrite H1, H2. reflexivity.
  - intros key file_name. apply missing_row_present_in.
  - intros Hi1 Hi2.
    destruct Hctx as (raw1 & raw2 & _ & _ & _ & _ & Hk & _ & _).
    unfold key_universe in Hk. rewrite Hi1, Hi2 in Hk.
    vm_compute in Hk. inversion Hk; subst keys. clear Hk.
    assert (Hb1 : in_both df1 df2 (VInt 1) = false)
      by (unfold in_both; rewrite Hi1, Hi2; reflexivity).
    assert (Hb2 : in_both df1 df2 (VInt 2) = true)
      by (unfold in_both; rewrite Hi1, Hi2; reflexivity).
    assert (Hb3 : in_both df1 df2 (VInt 3) = false)
      by (unfold in_both; rewrite Hi1, Hi2; reflexivity).
    cbn [filter] in Hm, Hs. rewrite Hb1, Hb2, Hb3 in Hm, Hs.
    cbn [negb map] in Hm. unfold holder in Hm. rewrite Hi1 in Hm.
    split.
    + rewrite Hm. reflexivity.
    + inversion Hs as [|k row ks rows (pct & _ & Hrow) Hrest]; subst.
      inversion Hrest; subst. reflexivity.
Qed.

Lemma missing_rows_name_the_holder_witness :
  exists fr tr',
    compare_files Examples.files "A.csv" "B.csv" "key" [] = (Ok fr, tr') /\
    exists df1 df2 keys cols ncols summary_rows detailed_rows missing_rows,
      run_context Examples.files "A.csv" "B.csv" "key" [] df1 df2 keys cols ncols /\
      fr = frames (summary_rows, detailed_rows, missing_rows) /\
      (forall key, In key keys -> index_contains (index df1) key = false ->
         In (missing_row key (stem "B.csv")) missing_rows) /\
      (forall key, In key keys -> index_contains (index df1) key = true ->
         index_contains (index df2) key = false ->
         In (missing_row key (stem "A.csv")) missing_rows) /\
      (forall key file_name,
         dict_get (missing_row key file_name) "present_in"
         = Some (VStr (file_name ++ "_only"))) /\
      (index df1 = [VInt 1; VInt 2] -> index df2 = [VInt 2; VInt 3] ->
       missing_rows = [missing_row (VInt 1) (stem "A.csv");
                       missing_row (VInt 3) (stem "B.csv")] /\
       map (fun row => dict_get row "key") summary_rows = [Some (VInt 2)]).
Proof.
  eexists _, _. split; [vm_compute; reflexivity|].
  eapply (missing_rows_name_the_holder Examples.files "A.csv" "B.csv" "key" []).
  vm_compute. reflexivity.
Defined.

(** *** Sorting *)

Section SortedBy.
Context {A : Type} (lt : A -> A -> result bool).
Hypothesis lt_asym : forall a b, lt a b = Ok true -> lt b a = Ok false.

(** [a] may stand before [b]: [b] is not less than [a]. *)
Let ordered (a b : A) : Prop := lt b a = Ok false.

Lemma insert_sorted_perm x l s :
  insert_sorted lt x l = Ok s -> Permutation (x :: l) s.
Proof.
  revert s. induction l as [|y l IH]; simpl; intros s H.
  - inversion H. apply Permutation_refl.
  - destruct (lt y x) as [[|]|e]; simpl in H; try discriminate.
    + destruct (insert_sorted lt x l) as [l'|e]; simpl in H; [|discriminate].
      inversion H; subst.
      apply perm_trans with (y :: x :: l); [apply perm_swap|].
      apply perm_skip. apply IH. reflexivity.
    + inversion H. apply Permutation_refl.
Qed.

Lemma insert_sorted_hd x y l s :
  insert_sorted lt x l = Ok s -> HdRel ordered y l -> ordered y x ->
  HdRel ordered y s.
Proof.
  destruct l as [|z l]; simpl; intros H Hhd Hyx.
  - inversion H. constructor. exact Hyx.
  - destruct (lt z x) as [[|]|e]; simpl in H; try discriminate.
    + destruct (insert_sorted lt x l) as [l'|e]; simpl in H; [|discriminate].
      inversion H; subst. inversion Hhd; subst. constructor. assumption.
    + inversion H; subst. constructor. exact Hyx.
Qed.

Lemma insert_sorted_Sorted x l s :
  Sorted ordered l -> insert_sorted lt x l = Ok s -> Sorted ordered s.
Proof.
  revert s. induction l as [|y l IH]; simpl; intros s Hs H.
  - inversion H. constructor; constructor.
  - destruct (lt y x) as [[|]|e] eqn:Hlt; simpl in H; try discriminate.
    + destruct (insert_sorted lt x l) as [l'|e] eqn:Hi; simpl in H; [|discriminate].
      inversion H; subst. inversion Hs; subst.
      constructor; [apply IH; auto|].
      eapply insert_sorted_hd; eauto. unfold ordered. apply lt_asym. exact Hlt.
    + inversion H; subst. constructor; [exact Hs|]. constructor. exact Hlt.
Qed.

Lemma sorted_perm l s : sorted lt l = Ok s -> Permutation l s.
Proof.
  revert s. induction l as [|x l IH]; simpl; intros s H.
  - inversion H. constructor.
  - destruct (sorted lt l) as [s'|e]; simpl in H; [|discriminate].
    apply perm_trans with (x :: s'); [apply perm_skip; apply IH; reflexivity|].
    apply insert_sorted_perm. exact H.
Qed.

Lemma sorted_Sorted l s : sorted lt l = Ok s -> Sorted ordered s.
Proof.
  revert s. induction l as [|x l IH]; simpl; intros s H.
  - inversion H. constructor.
  - destruct (sorted lt l) as [s'|e]; simpl in H; [|discriminate].
    eapply insert_sorted_Sorted; [apply IH; reflexivity | exact H].
Qed.
End SortedBy.

Lemma SFcompare_antisym x y :
  SFcompare y x = match SFcompare x y with Some c => Some (CompOpp c) | None => None end.
Proof.
  destruct x as [sx|sx| |sx mx ex], y as [sy|sy| |sy my ey]; simpl;
    try reflexivity;
    try (destruct sx; reflexivity); try (destruct sy; reflexivity);
    try (destruct sx, sy; reflexivity).
  pose proof (Pos.compare_cont_antisym mx my Eq) as Hm. simpl in Hm.
  destruct sx, sy; try reflexivity;
    rewrite (Z.compare_antisym ex ey); destruct (ex ?= ey); simpl; try reflexivity;
    rewrite <- Hm; destruct (Pos.compare_cont Eq mx my); reflexivity.
Qed.

Lemma num_compare_antisym x y :
  num_compare y x = match num_compare x y with Some c => Some (CompOpp c) | None => None end.
Proof.
  destruct x as [a|f], y as [b|g]; simpl; try apply SFcompare_antisym.
  rewrite (Z.compare_antisym a b). reflexivity.
Qed.

Lemma py_lt_asym a b : py_lt a b = Ok true -> py_lt b a = Ok false.
Proof.
  unfold py_lt.
  destruct (as_num a) as [x|] eqn:Ha, (as_num b) as [y|] eqn:Hb; try discriminate.
  - rewrite (num_compare_antisym x y).
    destruct (num_compare x y) as [[| |]|]; simpl; try discriminate. reflexivity.
  - destruct a as [| | | |s], b as [| | | |t]; try discriminate.
    unfold String.ltb. rewrite (String.compare_antisym t s).
    destruct (String.compare s t); simpl; try discriminate; reflexivity.
Qed.

Lemma na_last_lt_asym a b : na_last_lt a b = Ok true -> na_last_lt b a = Ok false.
Proof.
  unfold na_last_lt. destruct (is_na a) eqn:Ha; [discriminate|].
  destruct (is_na b) eqn:Hb; [reflexivity|]. apply py_lt_asym.
Qed.

(** On floats that are not [nan], "not less" is "greater or equal". *)
Lemma not_less_fle x y :
  is_nan x = false -> is_nan y = false ->
  na_last_lt (VFloat y) (VFloat x) = Ok false -> fle x y.
Proof.
  intros Hx Hy. unfold na_last_lt, py_lt, fle, SFleb. simpl.
  rewrite Hx, Hy. simpl. rewrite (SFcompare_antisym x y).
  destruct (SFcompare x y) as [[| |]|] eqn:Hc; simpl;
    try discriminate; try reflexivity.
  intros _. destruct x as [sx|sx| |sx mx ex], y as [sy|sy| |sy my ey];
    simpl in Hc; try discriminate Hx; try discriminate Hy; try discriminate Hc;
    destruct sx; try discriminate Hc; destruct sy; discriminate Hc.
Qed.

Lemma Sorted_impl_Forall {A} (R R' : A -> A -> Prop) (P : A -> Prop) l :
  (forall a b, P a -> P b -> R a b -> R' a b) ->
  Forall P l -> Sorted R l -> Sorted R' l.
Proof.
  intros Himp HP Hs. induction Hs as [|a l Hs IH Hhd]; constructor.
  - apply IH. inversion HP; assumption.
  - inversion HP; subst. destruct Hhd as [|b l Hab]; constructor.
    apply Himp; auto. match goal with H : Forall P (b :: l) |- _ => inversion H; auto end.
Qed.

(** *** Sheets *)

Lemma sheet_call_rows wb name op name' :
  option_map ws_rows (sheet (sheet_call wb name op) name')
  = option_map ws_rows (sheet wb name').
Proof.
  induction wb as [|[n ws] wb IH]; simpl; [reflexivity|].
  destruct (String.eqb n name) eqn:Hn; simpl.
  - destruct (String.eqb n name'); reflexivity.
  - destruct (String.eqb n name'); [reflexivity | exact IH].
Qed.

Lemma header_loop_rows (l : list (Z * string)) wb name :
  option_map ws_rows
    (sheet
       (fold_left
          (fun wb nc =>
             let wb := sheet_call wb "SUMMARY" (WriteCell 0 (fst nc) (snd nc) header_fmt) in
             sheet_call wb "SUMMARY" (SetColumn (fst nc) (fst nc) 18))
          l wb)
       name)
  = option_map ws_rows (sheet wb name).
Proof.
  revert wb. induction l as [|nc l IH]; intros wb; simpl; [reflexivity|].
  rewrite IH. rewrite !sheet_call_rows. reflexivity.
Qed.

Lemma format_sheets_rows s d m wb name :
  option_map ws_rows (sheet (format_sheets s d m wb) name)
  = option_map ws_rows (sheet wb name).
Proof.
  unfold format_sheets. rewrite !sheet_call_rows.
  rewrite header_loop_rows. apply sheet_call_rows.
Qed.

Lemma Sorted_map {A B} (f : A -> B) (R : B -> B -> Prop) l :
  Sorted (fun a b => R (f a) (f b)) l -> Sorted R (map f l).
Proof.
  induction 1 as [|a l Hs IH Hhd]; simpl; constructor; [exact IH|].
  destruct Hhd; simpl; constructor; assumption.
Qed.

Lemma map_snd_combine {A B} (l : list A) (l' : list B) :
  List.length l = List.length l' -> map snd (combine l l') = l'.
Proof.
  revert l'. induction l as [|a l IH]; intros [|b l']; simpl; intros H;
    try discriminate; [reflexivity|].
  f_equal. apply IH. congruence.
Qed.

Lemma sort_values_ok df by_ sorted_df :
  List.length (index df) = len df ->
  sort_values df by_ = Ok sorted_df ->
  exists j,
    position by_ (columns df) = Some j /\
    Permutation (data df) (data sorted_df) /\
    Sorted (fun r1 r2 => na_last_lt (cell_at j r2) (cell_at j r1) = Ok false)
           (data sorted_df).
Proof.
  unfold sort_values, len. intros Hlen.
  destruct (position by_ (columns df)) as [j|]; [|discriminate].
  destruct (sorted _ (combine (index df) (data df))) as [rows|e] eqn:Hs;
    simpl; [|discriminate].
  intros H; inversion H; subst; simpl. exists j. split; [reflexivity|]. split.
  - rewrite <- (map_snd_combine (index df) (data df) Hlen) at 1.
    apply Permutation_map. eapply sorted_perm. exact Hs.
  - apply Sorted_map with (f := snd)
      (R := fun r1 r2 => na_last_lt (cell_at j r2) (cell_at j r1) = Ok false).
    eapply (sorted_Sorted _ _ _ _ Hs).
    Unshelve. intros a b. apply na_last_lt_asym.
Qed.

(** C9. A report that is saved without error holds a SUMMARY sheet whose
    rows are the rows of the summary frame rearranged so that no row is
    followed by one with a smaller [match_percentage] (for percentages that
    are floats other than [nan]: each is at most the next), and
    DETAILED_MISMATCHES and MISSING_KEYS sheets whose rows are those of the
    detail and missing frames in their order. *)
Theorem save_report_sheet_order
    (summary_df detail_df missing_df : DataFrame) (output_file : string)
    (tr tr' : list event) :
  List.length (index summary_df) = len summary_df ->
  save_report summary_df detail_df missing_df output_file tr = (Ok tt, tr') ->
  exists wb j rows,
    tr' = (tr ++ [LogInfo ("Saving report to: " ++ output_file);
                  SaveExcel output_file wb;
                  LogInfo "Comparison report saved successfully!"])%list /\
    position "match_percentage" (columns summary_df) = Some j /\
    option_map ws_rows (sheet wb "SUMMARY") = Some rows /\
    Permutation (data summary_df) rows /\
    Sorted (fun r1 r2 => na_last_lt (cell_at j r2) (cell_at j r1) = Ok false) rows /\
    (Forall (fun r => exists x, cell_at j r = VFloat x /\ is_nan x = false)
            (data summary_df) ->
     Sorted (fun r1 r2 => exists x y, cell_at j r1 = VFloat x /\
                                      cell_at j r2 = VFloat y /\ fle x y) rows) /\
    option_map ws_rows (sheet wb "DETAILED_MISMATCHES") = Some (data detail_df) /\
    option_map ws_rows (sheet wb "MISSING_KEYS") = Some (data missing_df).
Proof.
  intros Hlen. unfold save_report, bind, logging_info, emit, raise.
  destruct (write_sheets summary_df detail_df missing_df) as [wb|e] eqn:Hw;
    [|discriminate].
  intros H. inversion H; subst; clear H.
  unfold write_sheets in Hw.
  destruct (sort_values summary_df "match_percentage") as [sorted_df|e] eqn:Hs;
    simpl in Hw; [|discriminate].
  inversion Hw; subst; clear Hw.
  destruct (sort_values_ok _ _ _ Hlen Hs) as (j & Hj & Hperm & Hsorted).
  exists (format_sheets summary_df detail_df missing_df
            (to_excel (to_excel (to_excel [] sorted_df "SUMMARY")
                                detail_df "DETAILED_MISMATCHES")
                      missing_df "MISSING_KEYS")),
         j, (data sorted_df).
  repeat split.
  - rewrite <- !app_assoc. reflexivity.
  - exact Hj.
  - rewrite format_sheets_rows. reflexivity.
  - exact Hperm.
  - exact Hsorted.
  - intros Hfl.
    apply Sorted_impl_Forall
      with (R := fun r1 r2 => na_last_lt (cell_at j r2) (cell_at j r1) = Ok false)
           (P := fun r => exists x, cell_at j r = VFloat x /\ is_nan x = false);
      [| |exact Hsorted].
    + intros a b (x & Hx & Hnx) (y & Hy & Hny) Hab.
      exists x, y. repeat split; auto.
      rewrite Hx, Hy in Hab. apply not_less_fle; assumption.
    + rewrite Forall_forall in *. intros r Hr. apply Hfl.
      eapply Permutation_in; [apply Permutation_sym; exact Hperm | exact Hr].
  - rewrite format_sheets_rows. reflexivity.
  - rewrite format_sheets_rows. reflexivity.
Qed.

Lemma save_report_sheet_order_witness :
  exists tr',
    List.length (index Examples.sample_summary) = len Examples.sample_summary /\
    save_report Examples.sample_summary Examples.sample_detail Examples.sample_missing
                "comparison_result.xlsx" [] = (Ok tt, tr') /\
    exists wb j rows,
      tr' = ([] ++ [LogInfo ("Saving report to: " ++ "comparison_result.xlsx");
                    SaveExcel "comparison_result.xlsx" wb;
                    LogInfo "Comparison report saved successfully!"])%list /\
      position "match_percentage" (columns Examples.sample_summary) = Some j /\
      option_map ws_rows (sheet wb "SUMMARY") = Some rows /\
      Permutation (data Examples.sample_summary) rows /\
      Sorted (fun r1 r2 => na_last_lt (cell_at j r2) (cell_at j r1) = Ok false) rows /\
      (Forall (fun r => exists x, cell_at j r = VFloat x /\ is_nan x = false)
              (data Examples.sample_summary) ->
       Sorted (fun r1 r2 => exists x y, cell_at j r1 = VFloat x /\
                                        cell_at j r2 = VFloat y /\ fle x y) rows) /\
      option_map ws_rows (sheet wb "DETAILED_MISMATCHES")
      = Some (data Examples.sample_detail) /\
      option_map ws_rows (sheet wb "MISSING_KEYS")
      = Some (data Examples.sample_missing).
Proof.
  eexists. split; [reflexivity|]. split; [vm_compute; reflexivity|].
  eapply (save_report_sheet_order Examples.sample_summary Examples.sample_detail
            Examples.sample_missing "comparison_result.xlsx" []).
  - reflexivity.
  - vm_compute. reflexivity.
Defined.

(** *** Rounding: upper bounds on binary64 results *)

Lemma digits2_size p : digits2_pos p = Pos.size p.
Proof. induction p; simpl; congruence. Qed.

Lemma digits_bounds p :
  2 ^ (Zpos (digits2_pos p) - 1) <= Zpos p < 2 ^ Zpos (digits2_pos p).
Proof.
  rewrite digits2_size. split.
  - pose proof (Pos.size_le p) as H.
    assert (H' : 2 ^ Zpos (Pos.size p) <= 2 * Zpos p).
    { rewrite <- Pos2Z.inj_pow. change (2 * Zpos p) with (Zpos p~0).
      apply Pos2Z.pos_le_pos. exact H. }
    replace (Zpos (Pos.size p)) with (Zpos (Pos.size p) - 1 + 1) in H' by lia.
    rewrite Z.pow_add_r in H' by lia. lia.
  - pose proof (Pos.size_gt p) as H.
    rewrite <- Pos2Z.inj_pow. apply Pos2Z.pos_lt_pos. exact H.
Qed.

Lemma shr_1_m mrs : 0 <= shr_m mrs -> shr_m (shr_1 mrs) = shr_m mrs / 2.
Proof.
  destruct mrs as [m r s]. simpl. intros Hm. rewrite <- Z.div2_div.
  destruct m as [|[p|p|]|p]; try reflexivity. lia.
Qed.

Lemma iter_shr_m p :
  forall mrs, 0 <= shr_m mrs ->
              shr_m (iter_pos shr_1 p mrs) = shr_m mrs / 2 ^ Zpos p.
Proof.
  induction p as [p IH|p IH|]; intros mrs Hm; simpl iter_pos.
  - assert (H1 : 0 <= shr_m (shr_1 mrs))
      by (rewrite shr_1_m by exact Hm; apply Z.div_pos; lia).
    assert (H2 : 0 <= shr_m (iter_pos shr_1 p (shr_1 mrs)))
      by (rewrite IH by exact H1; apply Z.div_pos; [exact H1 | apply Z.pow_pos_nonneg; lia]).
    rewrite IH by exact H2. rewrite IH by exact H1. rewrite shr_1_m by exact Hm.
    rewrite !Zdiv.Zdiv_Zdiv by (try apply Z.pow_nonneg; lia).
    f_equal. change (Zpos p~1) with (2 * Zpos p + 1).
    replace (2 * Zpos p + 1) with (1 + Zpos p + Zpos p) by lia.
    rewrite !Z.pow_add_r by lia. lia.
  - assert (H1 : 0 <= shr_m (iter_pos shr_1 p mrs))
      by (rewrite IH by exact Hm; apply Z.div_pos; [exact Hm | apply Z.pow_pos_nonneg; lia]).
    rewrite IH by exact H1. rewrite IH by exact Hm.
    rewrite Zdiv.Zdiv_Zdiv by (apply Z.pow_nonneg; lia).
    f_equal. change (Zpos p~0) with (2 * Zpos p).
    replace (2 * Zpos p) with (Zpos p + Zpos p) by lia.
    rewrite Z.pow_add_r by lia. reflexivity.
  - rewrite shr_1_m by exact Hm. reflexivity.
Qed.

Lemma shr_record_of_loc_m m l : shr_m (shr_record_of_loc m l) = m.
Proof. destruct l as [|[| |]]; reflexivity. Qed.

Lemma shr_spec m l e n :
  0 <= m ->
  shr_m (fst (shr (shr_record_of_loc m l) e n)) = m / 2 ^ Z.max n 0
  /\ snd (shr (shr_record_of_loc m l) e n) = e + Z.max n 0.
Proof.
  intros Hm. destruct n as [|p|p]; simpl.
  - rewrite shr_record_of_loc_m, Z.div_1_r. split; [reflexivity | lia].
  - rewrite iter_shr_m by (rewrite shr_record_of_loc_m; exact Hm).
    rewrite shr_record_of_loc_m. split; reflexivity.
  - rewrite shr_record_of_loc_m, Z.div_1_r. split; [reflexivity | lia].
Qed.

Lemma round_nearest_even_bounds m l :
  m <= round_nearest_even m l <= m + 1.
Proof.
  destruct l as [|[| |]]; simpl; try lia. destruct (Z.even m); lia.
Qed.

(** Exponent reached by [shr_fexp]: at most [g] when the value is below
    [C * 2 ^ g] with [C] on 53 bits. *)
Lemma fexp_below m e C g :
  0 <= m -> -1200 <= e <= g -> -1074 <= g -> 0 < C <= 2 ^ 53 ->
  m * 2 ^ (e + 1200) < C * 2 ^ (g + 1200) ->
  fexp prec emax (Zdigits2 m + e) <= g.
Proof.
  intros Hm He Hg HC Hlt. unfold fexp, emin, prec, emax.
  apply Z.max_lub; [|lia].
  destruct m as [|p|p]; simpl Zdigits2; [lia | | lia].
  pose proof (digits_bounds p) as [Hd _].
  set (d := Zpos (digits2_pos p)) in *.
  assert (Hd0 : 1 <= d) by (unfold d; lia).
  assert (H1 : 2 ^ (d - 1 + (e + 1200)) < 2 ^ (53 + (g + 1200))).
  { rewrite (Z.pow_add_r 2 (d - 1) (e + 1200)), (Z.pow_add_r 2 53 (g + 1200)) by lia.
    assert (HE : 0 < 2 ^ (e + 1200)) by (apply Z.pow_pos_nonneg; lia).
    assert (HG : 0 < 2 ^ (g + 1200)) by (apply Z.pow_pos_nonneg; lia).
    assert (2 ^ (d - 1) * 2 ^ (e + 1200) <= Zpos p * 2 ^ (e + 1200))
      by (apply Z.mul_le_mono_nonneg_r; lia).
    assert (C * 2 ^ (g + 1200) <= 2 ^ 53 * 2 ^ (g + 1200))
      by (apply Z.mul_le_mono_nonneg_r; lia).
    lia. }
  apply Z.pow_lt_mono_r_iff in H1; lia.
Qed.

Lemma shr_fexp_spec m e l mrs e' :
  0 <= m ->
  shr_fexp prec emax m e l = (mrs, e') ->
  let k := Z.max (fexp prec emax (Zdigits2 m + e) - e) 0 in
  shr_m mrs = m / 2 ^ k /\ e' = e + k.
Proof.
  intros Hm H. unfold shr_fexp in H.
  pose proof (shr_spec m l e (fexp prec emax (Zdigits2 m + e) - e) Hm) as [H1 H2].
  rewrite H in H1, H2. simpl in H1, H2. split; assumption.
Qed.

Lemma binary_round_aux_upper s mx ex lx C g :
  0 <= mx -> -1200 <= ex <= g -> -1074 <= g <= 971 -> 0 < C < 2 ^ 53 ->
  mx * 2 ^ (ex + 1200) < C * 2 ^ (g + 1200) ->
  binary_round_aux prec emax s mx ex lx = S754_zero s \/
  exists m e,
    binary_round_aux prec emax s mx ex lx = S754_finite s m e /\
    ex <= e <= g /\ -1074 <= e /\ Zpos m * 2 ^ (e + 1200) <= C * 2 ^ (g + 1200).
Proof.
  intros Hmx Hex Hg HC Hlt. unfold binary_round_aux.
  destruct (shr_fexp prec emax mx ex lx) as [mrs1 e1] eqn:Hs1.
  apply shr_fexp_spec in Hs1; [|exact Hmx]. destruct Hs1 as [Hm0 He1].
  pose proof (fexp_below mx ex C g Hmx Hex (proj1 Hg) (conj (proj1 HC) (Z.lt_le_incl _ _ (proj2 HC))) Hlt) as Hf1.
  set (k1 := Z.max (fexp prec emax (Zdigits2 mx + ex) - ex) 0) in *.
  assert (Hk1 : 0 <= k1) by (unfold k1; lia).
  assert (He1g : ex <= e1 <= g) by (unfold k1 in *; lia).
  assert (He1lo : -1074 <= e1)
    by (unfold k1, fexp, emin, prec, emax in *; lia).
  pose proof (round_nearest_even_bounds (shr_m mrs1) (loc_of_shr_record mrs1)) as Hm1.
  set (m1 := round_nearest_even (shr_m mrs1) (loc_of_shr_record mrs1)) in *.
  assert (HK1 : 0 < 2 ^ k1) by (apply Z.pow_pos_nonneg; lia).
  assert (HX : 0 < 2 ^ (ex + 1200)) by (apply Z.pow_pos_nonneg; lia).
  assert (HG1 : 0 < 2 ^ (g - e1)) by (apply Z.pow_pos_nonneg; lia).
  assert (Hm0pos : 0 <= shr_m mrs1) by (rewrite Hm0; apply Z.div_pos; lia).
  assert (Hsplit : 2 ^ (g + 1200) = 2 ^ (g - e1) * 2 ^ k1 * 2 ^ (ex + 1200)).
  { rewrite <- !Z.pow_add_r by lia. f_equal. lia. }
  assert (Hmxlt : mx < 2 ^ k1 * (C * 2 ^ (g - e1))).
  { rewrite Hsplit in Hlt.
    apply Z.mul_lt_mono_pos_r with (p := 2 ^ (ex + 1200)); [exact HX|].
    replace (2 ^ k1 * (C * 2 ^ (g - e1)) * 2 ^ (ex + 1200))
      with (C * (2 ^ (g - e1) * 2 ^ k1 * 2 ^ (ex + 1200))) by ring.
    exact Hlt. }
  assert (Hm0lt : shr_m mrs1 < C * 2 ^ (g - e1)).
  { rewrite Hm0. apply Z.div_lt_upper_bound; [exact HK1 | exact Hmxlt]. }
  assert (He1split : 2 ^ (g + 1200) = 2 ^ (g - e1) * 2 ^ (e1 + 1200)).
  { rewrite <- Z.pow_add_r by lia. f_equal. lia. }
  assert (HE1 : 0 < 2 ^ (e1 + 1200)) by (apply Z.pow_pos_nonneg; lia).
  assert (Hm1le : m1 * 2 ^ (e1 + 1200) <= C * 2 ^ (g + 1200)).
  { rewrite He1split.
    replace (C * (2 ^ (g - e1) * 2 ^ (e1 + 1200)))
      with (C * 2 ^ (g - e1) * 2 ^ (e1 + 1200)) by ring.
    apply Z.mul_le_mono_nonneg_r; lia. }
  assert (Hm1pos : 0 <= m1) by lia.
  destruct (shr_fexp prec emax m1 e1 loc_Exact) as [mrs2 e2] eqn:Hs2.
  apply shr_fexp_spec in Hs2; [|exact Hm1pos]. destruct Hs2 as [Hm2 He2].
  assert (HG : 0 < 2 ^ (g + 1200)) by (apply Z.pow_pos_nonneg; lia).
  assert (Hf2 : fexp prec emax (Zdigits2 m1 + e1) <= g).
  { apply (fexp_below m1 e1 (C + 1) g); lia. }
  set (k2 := Z.max (fexp prec emax (Zdigits2 m1 + e1) - e1) 0) in *.
  assert (Hk2 : 0 <= k2) by (unfold k2; lia).
  assert (He2g : ex <= e2 <= g) by (unfold k2 in *; lia).
  assert (HK2 : 0 < 2 ^ k2) by (apply Z.pow_pos_nonneg; lia).
  assert (Hm2le : shr_m mrs2 * 2 ^ (e2 + 1200) <= C * 2 ^ (g + 1200)).
  { replace (e2 + 1200) with (k2 + (e1 + 1200)) by lia.
    rewrite Z.pow_add_r by lia. rewrite Hm2.
    pose proof (Z.mul_div_le m1 (2 ^ k2) HK2) as Hd.
    assert (m1 / 2 ^ k2 * (2 ^ k2 * 2 ^ (e1 + 1200)) <= m1 * 2 ^ (e1 + 1200)).
    { replace (m1 / 2 ^ k2 * (2 ^ k2 * 2 ^ (e1 + 1200)))
        with (2 ^ k2 * (m1 / 2 ^ k2) * 2 ^ (e1 + 1200)) by ring.
      apply Z.mul_le_mono_nonneg_r; lia. }
    lia. }
  assert (Hm2pos : 0 <= shr_m mrs2) by (rewrite Hm2; apply Z.div_pos; lia).
  destruct (shr_m mrs2) as [|m|m] eqn:Hm2v.
  - left. reflexivity.
  - right. exists m, e2. unfold emax, prec.
    replace (e2 <=? 1024 - 53) with true by (symmetry; apply Z.leb_le; lia).
    repeat split; try lia.
  - lia.
Qed.

Lemma div_eucl_div_mod a b : Z.div_eucl a b = (a / b, a mod b).
Proof. unfold Z.div, Z.modulo. destruct (Z.div_eucl a b); reflexivity. Qed.

Lemma fdiv_pos_below n d C g :
  0 < n -> 0 < d -> -1074 <= g <= 971 -> 0 < C < 2 ^ 53 ->
  n * 2 ^ 1200 < C * 2 ^ (g + 1200) * d ->
  below (fdiv_pos false n d) C g.
Proof.
  intros Hn Hd Hg HC Hlt. unfold fdiv_pos, SFdiv_core_binary.
  rewrite !Z.add_0_r. change (0 - 0) with 0.
  set (e' := Z.min (fexp prec emax (Zdigits2 n - Zdigits2 d)) 0).
  assert (He'lo : -1074 <= e' <= 0).
  { unfold e', fexp, emin, prec, emax. lia. }
  assert (He'g : e' <= g).
  { destruct n as [|pn|pn]; try lia. destruct d as [|pd|pd]; try lia.
    simpl Zdigits2 in e'.
    pose proof (digits_bounds pn) as [Hn1 _].
    pose proof (digits_bounds pd) as [_ Hd2].
    set (d1 := Zpos (digits2_pos pn)) in *. set (d2 := Zpos (digits2_pos pd)) in *.
    assert (Hd1 : 1 <= d1) by (unfold d1; lia).
    assert (Hd2' : 1 <= d2) by (unfold d2; lia).
    assert (HG : 0 < 2 ^ (g + 1200)) by (apply Z.pow_pos_nonneg; lia).
    assert (H1 : 2 ^ (d1 - 1 + 1200) < 2 ^ (53 + (g + 1200) + d2)).
    { rewrite (Z.pow_add_r 2 (d1 - 1) 1200), (Z.pow_add_r 2 (53 + (g + 1200)) d2),
        (Z.pow_add_r 2 53 (g + 1200)) by lia.
      assert (0 < 2 ^ 1200) by (apply Z.pow_pos_nonneg; lia).
      assert (2 ^ (d1 - 1) * 2 ^ 1200 <= Zpos pn * 2 ^ 1200)
        by (apply Z.mul_le_mono_nonneg_r; lia).
      assert (C * 2 ^ (g + 1200) * Zpos pd < 2 ^ 53 * 2 ^ (g + 1200) * 2 ^ d2).
      { apply Z.le_lt_trans with (C * 2 ^ (g + 1200) * 2 ^ d2).
        - apply Z.mul_le_mono_nonneg_l; [|lia]. apply Z.mul_nonneg_nonneg; lia.
        - apply Z.mul_lt_mono_pos_r; [apply Z.pow_pos_nonneg; lia|].
          apply Z.mul_lt_mono_pos_r; lia. }
      lia. }
    apply Z.pow_lt_mono_r_iff in H1; [|lia|lia].
    unfold e', fexp, emin, prec, emax. lia. }
  set (s := 0 - e').
  assert (Hs : 0 <= s <= 1074) by (unfold s; lia).
  assert (Hm' : match s with Z.pos _ => Z.shiftl n s | 0 => n | Z.neg _ => 0 end
                = n * 2 ^ s).
  { destruct s as [|ps|ps] eqn:Hsv; [lia | apply Z.shiftl_mul_pow2; lia | lia]. }
  rewrite Hm'. rewrite div_eucl_div_mod.
  set (q := n * 2 ^ s / d).
  assert (HS : 0 < 2 ^ s) by (apply Z.pow_pos_nonneg; lia).
  assert (Hq0 : 0 <= q) by (unfold q; apply Z.div_pos; lia).
  assert (Hqd : d * q <= n * 2 ^ s) by (unfold q; apply Z.mul_div_le; lia).
  assert (Hqlt : q * 2 ^ (e' + 1200) < C * 2 ^ (g + 1200)).
  { apply Z.mul_lt_mono_pos_r with (p := d); [exact Hd|].
    apply Z.le_lt_trans with (n * 2 ^ 1200); [|exact Hlt].
    assert (Hp : 2 ^ 1200 = 2 ^ s * 2 ^ (e' + 1200))
      by (rewrite <- Z.pow_add_r by lia; f_equal; unfold s; lia).
    rewrite Hp.
    replace (q * 2 ^ (e' + 1200) * d) with (d * q * 2 ^ (e' + 1200)) by ring.
    replace (n * (2 ^ s * 2 ^ (e' + 1200))) with (n * 2 ^ s * 2 ^ (e' + 1200)) by ring.
    apply Z.mul_le_mono_nonneg_r; [apply Z.pow_nonneg; lia | exact Hqd]. }
  destruct (binary_round_aux_upper false q e' (new_location d (n * 2 ^ s mod d)) C g)
    as [Hz|(m & e & Hf & He & Hlo & Hv)]; try lia.
  - rewrite Hz. exact I.
  - rewrite Hf. simpl. split; [lia | exact Hv].
Qed.

Lemma f100_eq : f100 = S754_finite false 7036874417766400 (-46).
Proof. reflexivity. Qed.

Lemma fmul_100_below x C1 g1 C2 g2 :
  below x C1 g1 -> g1 <= g2 -> -1074 <= g2 <= 971 -> 0 < C2 < 2 ^ 53 ->
  100 * C1 < C2 * 2 ^ (g2 - g1) ->
  below (fmul x f100) C2 g2.
Proof.
  intros Hx Hg12 Hg2 HC2 Hnum. rewrite f100_eq.
  destruct x as [sx|sx| |sx m e]; simpl in Hx; try contradiction.
  - simpl. exact I.
  - destruct sx; [contradiction|]. destruct Hx as [He Hv].
    unfold fmul, SFmul. cbn [xorb].
    assert (HE : 0 < 2 ^ (e + 1154)) by (apply Z.pow_pos_nonneg; lia).
    assert (HE' : 2 ^ (e + 1200) = 2 ^ 46 * 2 ^ (e + 1154))
      by (rewrite <- Z.pow_add_r by lia; f_equal; lia).
    assert (HG : 2 ^ (g2 + 1200) = 2 ^ (g2 - g1) * 2 ^ (g1 + 1200))
      by (rewrite <- Z.pow_add_r by lia; f_equal; lia).
    assert (HG1 : 0 < 2 ^ (g1 + 1200)) by (apply Z.pow_pos_nonneg; lia).
    destruct (binary_round_aux_upper false (Zpos (m * 7036874417766400)) (e + -46)
                loc_Exact C2 g2) as [Hz|(m' & e' & Hf & He' & Hlo' & Hv')]; try lia.
    + replace (e + -46 + 1200) with (e + 1154) by lia.
      rewrite HG. rewrite Pos2Z.inj_mul.
      change (Zpos 7036874417766400) with (100 * 2 ^ 46).
      apply Z.le_lt_trans with (100 * (C1 * 2 ^ (g1 + 1200))).
      * rewrite HE' in Hv.
        replace (Zpos m * (100 * 2 ^ 46) * 2 ^ (e + 1154))
          with (100 * (Zpos m * (2 ^ 46 * 2 ^ (e + 1154)))) by ring.
        apply Z.mul_le_mono_nonneg_l; [lia | exact Hv].
      * replace (100 * (C1 * 2 ^ (g1 + 1200))) with (100 * C1 * 2 ^ (g1 + 1200)) by ring.
        replace (C2 * (2 ^ (g2 - g1) * 2 ^ (g1 + 1200)))
          with (C2 * 2 ^ (g2 - g1) * 2 ^ (g1 + 1200)) by ring.
        apply Z.mul_lt_mono_pos_r; assumption.
    + rewrite Hz. exact I.
    + rewrite Hf. simpl. split; [lia | exact Hv'].
Qed.

Lemma round_half_even_div_le N D K :
  0 <= N -> 0 < D -> 2 * N < (2 * K + 1) * D ->
  0 <= round_half_even_div N D <= K.
Proof.
  intros HN HD Hlt. unfold round_half_even_div.
  pose proof (Z.div_mod N D ltac:(lia)) as Hdm.
  pose proof (Z.mod_pos_bound N D HD) as Hr.
  assert (Hq0 : 0 <= N / D) by (apply Z.div_pos; lia).
  set (q := N / D) in *. set (r := N mod D) in *.
  assert (HqK : q <= K).
  { assert (q < K + 1); [|lia]. unfold q. apply Z.div_lt_upper_bound; [exact HD|]. nia. }
  destruct (Z.eq_dec q K) as [->|Hne].
  - assert (2 * r < D) by nia.
    replace (2 * r ?= D) with Lt by (symmetry; apply Z.compare_lt_iff; assumption).
    lia.
  - destruct (2 * r ?= D); [destruct (Z.even q)| |]; lia.
Qed.

Lemma py_round_2_below y C g K :
  below y C g -> g < 0 -> 200 * C < (2 * K + 1) * 2 ^ (- g) ->
  (exists s, py_round y 2 = S754_zero s)
  \/ exists n, 1 <= n <= K /\ py_round y 2 = fdiv_pos false n 100.
Proof.
  intros Hy Hg Hnum.
  destruct y as [sy|sy| |sy m e]; simpl in Hy; try contradiction.
  - left. exists sy. reflexivity.
  - destruct sy; [contradiction|]. destruct Hy as [He Hv].
    unfold py_round. change (10 ^ 2) with 100.
    replace (0 <=? e) with false by (symmetry; apply Z.leb_gt; lia).
    assert (HD : 0 < 2 ^ (- e)) by (apply Z.pow_pos_nonneg; lia).
    assert (HE : 0 < 2 ^ (e + 1200)) by (apply Z.pow_pos_nonneg; lia).
    assert (HG : 0 < 2 ^ (g + 1200)) by (apply Z.pow_pos_nonneg; lia).
    assert (H1 : 2 ^ 1200 = 2 ^ (- e) * 2 ^ (e + 1200))
      by (rewrite <- Z.pow_add_r by lia; f_equal; lia).
    assert (H2 : 2 ^ 1200 = 2 ^ (- g) * 2 ^ (g + 1200))
      by (rewrite <- Z.pow_add_r by lia; f_equal; lia).
    assert (Hlt : 2 * (Zpos m * 100) < (2 * K + 1) * 2 ^ (- e)).
    { apply Z.mul_lt_mono_pos_r with (p := 2 ^ (e + 1200)); [exact HE|].
      replace ((2 * K + 1) * 2 ^ (- e) * 2 ^ (e + 1200))
        with ((2 * K + 1) * (2 ^ (- e) * 2 ^ (e + 1200))) by ring.
      rewrite <- H1, H2.
      apply Z.le_lt_trans with (200 * (C * 2 ^ (g + 1200))).
      - replace (2 * (Zpos m * 100) * 2 ^ (e + 1200))
          with (200 * (Zpos m * 2 ^ (e + 1200))) by ring.
        apply Z.mul_le_mono_nonneg_l; [lia | exact Hv].
      - replace (200 * (C * 2 ^ (g + 1200))) with (200 * C * 2 ^ (g + 1200)) by ring.
        replace ((2 * K + 1) * (2 ^ (- g) * 2 ^ (g + 1200)))
          with ((2 * K + 1) * 2 ^ (- g) * 2 ^ (g + 1200)) by ring.
        apply Z.mul_lt_mono_pos_r; assumption. }
    pose proof (round_half_even_div_le (Zpos m * 100) (2 ^ (- e)) K
                  ltac:(lia) HD Hlt) as Hn.
    destruct (round_half_even_div (Zpos m * 100) (2 ^ (- e))) as [|n|n] eqn:Hnv.
    + left. exists false. reflexivity.
    + right. exists (Zpos n). split; [lia | reflexivity].
    + lia.
Qed.

Lemma below_fle f C g : below f C g -> fle f0 f.
Proof.
  destruct f as [s|s| |s m e]; simpl; try contradiction.
  - destruct s; reflexivity.
  - destruct s; [contradiction | reflexivity].
Qed.

Lemma scaled_le_cancel m C e :
  0 <= e -> m * 2 ^ e <= C * 2 ^ e -> m <= C.
Proof.
  intros He H. apply Z.mul_le_mono_pos_r in H; [exact H|].
  apply Z.pow_pos_nonneg; lia.
Qed.

Lemma below_100 f C :
  below f C (-46) -> C <= 7036874417766400 -> fle f f100.
Proof.
  rewrite f100_eq. unfold fle, SFleb.
  destruct f as [s|s| |s m e]; intros Hb HC;
    cbv beta iota delta [below] in Hb; try contradiction.
  - destruct s; reflexivity.
  - destruct s; [contradiction|]. destruct Hb as [He Hv].
    cbn [SFcompare].
    destruct (Z.compare_spec e (-46)) as [Heq|Hlt|Hgt]; [|reflexivity|lia].
    rewrite Heq in Hv. apply scaled_le_cancel in Hv; [|lia].
    rewrite Pos.compare_cont_spec. cbn [Pos.switch_Eq].
    destruct (Pos.compare_spec m 7036874417766400); try reflexivity. lia.
Qed.

Lemma below_not_100 f C :
  below f C (-46) -> C < 7036874417766400 -> feqb f f100 = false.
Proof.
  rewrite f100_eq. unfold feqb, SFeqb.
  destruct f as [s|s| |s m e]; intros Hb HC;
    cbv beta iota delta [below] in Hb; try contradiction.
  - reflexivity.
  - destruct s; [contradiction|]. destruct Hb as [He Hv].
    cbn [SFcompare].
    destruct (Z.compare_spec e (-46)) as [Heq|Hlt|Hgt]; [|reflexivity|lia].
    rewrite Heq in Hv. apply scaled_le_cancel in Hv; [|lia].
    rewrite Pos.compare_cont_spec. cbn [Pos.switch_Eq].
    destruct (Pos.compare_spec m 7036874417766400); try reflexivity; lia.
Qed.

Lemma new_location_exact d : new_location d 0 = loc_Exact.
Proof.
  unfold new_location, new_location_even, new_location_odd.
  destruct (Z.even d); reflexivity.
Qed.

Lemma fdiv_pos_same t :
  0 < t -> fdiv_pos false t t = S754_finite false 4503599627370496 (-52).
Proof.
  intros Ht. unfold fdiv_pos, SFdiv_core_binary. cbv zeta.
  replace (Zdigits2 t + 0 - (Zdigits2 t + 0)) with 0 by lia.
  change (Z.min (fexp prec emax 0) (0 - 0)) with (-53).
  change (0 - 0 - -53) with 53. cbv beta iota.
  rewrite Z.shiftl_mul_pow2 by lia. rewrite div_eucl_div_mod.
  rewrite (Z.mul_comm t (2 ^ 53)).
  rewrite Z.div_mul by lia. rewrite Z.mod_mul by lia.
  rewrite new_location_exact. vm_compute. reflexivity.
Qed.

Lemma below_not_infinity f C g : below f C g -> is_finite f = true.
Proof. destruct f as [s|s| |[|] m e]; simpl; try contradiction; reflexivity. Qed.

Lemma int_true_div_pos a t :
  0 < a -> 0 < t -> is_finite (fdiv_pos false a t) = true ->
  int_true_div a t = Ok (fdiv_pos false a t).
Proof.
  intros Ha Ht Hf. unfold int_true_div.
  destruct t as [|pt|pt]; try lia. destruct a as [|pa|pa]; try lia.
  cbn [Z.ltb Z.compare xorb Z.abs].
  destruct (fdiv_pos false (Zpos pa) (Zpos pt)); try reflexivity; discriminate.
Qed.

Lemma pow_1200_split g : -1200 <= g <= 0 -> 2 ^ 1200 = 2 ^ (- g) * 2 ^ (g + 1200).
Proof. intros Hg. rewrite <- Z.pow_add_r by lia. f_equal. lia. Qed.

(** The final division of [round]: [n / 100] for [1 <= n <= 10000]. *)
Lemma fdiv_100_le n :
  1 <= n <= 10000 -> fle (fdiv_pos false n 100) f100.
Proof.
  intros Hn. destruct (Z.eq_dec n 10000) as [->|Hne].
  - vm_compute. reflexivity.
  - apply below_100 with (C := 7036874417766400); [|lia].
    apply fdiv_pos_below; lia.
Qed.

Lemma fdiv_100_lt n :
  1 <= n <= 9999 -> feqb (fdiv_pos false n 100) f100 = false.
Proof.
  intros Hn.
  apply below_not_100 with (C := 7036874417766399); [|lia].
  apply fdiv_pos_below; lia.
Qed.

Lemma match_percentage_all_match t : 0 < t -> match_percentage t 0 = Ok f100.
Proof.
  intros Ht. unfold match_percentage. rewrite Z.sub_0_r.
  rewrite int_true_div_pos; try assumption.
  - rewrite fdiv_pos_same by assumption. vm_compute. reflexivity.
  - rewrite fdiv_pos_same by assumption. reflexivity.
Qed.

Lemma match_percentage_none_match t : 0 < t -> match_percentage t t = Ok f0.
Proof.
  intros Ht. unfold match_percentage, int_true_div. rewrite Z.sub_diag.
  destruct t as [|pt|pt]; try lia. reflexivity.
Qed.

Lemma match_percentage_some t mm :
  0 < mm < t ->
  exists pct,
    match_percentage t mm = Ok pct /\ fle f0 pct /\ fle pct f100 /\
    (t < 20000 -> feqb pct f100 = false).
Proof.
  intros Hmm. unfold match_percentage. change (float_of_Z 100) with f100.
  set (a := t - mm). assert (Ha : 0 < a < t) by (unfold a; lia).
  assert (Hq : below (fdiv_pos false a t) 4503599627370496 (-52)).
  { apply fdiv_pos_below; lia. }
  rewrite int_true_div_pos; try lia;
    [|eapply below_not_infinity; exact Hq].
  cbn [rbind]. eexists. split; [reflexivity|].
  set (q := fdiv_pos false a t) in *.
  assert (Hy : below (fmul q f100) 7036874417766401 (-46)).
  { apply (fmul_100_below q 4503599627370496 (-52)); try lia; exact Hq. }
  split; [|split].
  - destruct (py_round_2_below (fmul q f100) 7036874417766401 (-46) 10000 Hy)
      as [[s Hz]|(n & Hn & Hr)]; try lia.
    + rewrite Hz. destruct s; reflexivity.
    + rewrite Hr. eapply below_fle.
      apply (fdiv_pos_below n 100 7036874417766401 (-46)); lia.
  - destruct (py_round_2_below (fmul q f100) 7036874417766401 (-46) 10000 Hy)
      as [[s Hz]|(n & Hn & Hr)]; try lia.
    + rewrite Hz. destruct s; reflexivity.
    + rewrite Hr. apply fdiv_100_le. exact Hn.
  - intros Ht.
    assert (Hq' : below q 9006748872259132 (-53)).
    { apply fdiv_pos_below; lia. }
    assert (Hy' : below (fmul q f100) 7036522556452447 (-46)).
    { apply (fmul_100_below q 9006748872259132 (-53)); try lia; exact Hq'. }
    destruct (py_round_2_below (fmul q f100) 7036522556452447 (-46) 9999 Hy')
      as [[s Hz]|(n & Hn & Hr)]; try lia.
    + rewrite Hz. reflexivity.
    + rewrite Hr. apply fdiv_100_lt. exact Hn.
Qed.

(** *** The match percentage of a summary row *)

Lemma match_percentage_props t mm pct :
  0 <= mm <= t ->
  match_percentage t mm = Ok pct ->
  fle f0 pct /\ fle pct f100 /\
  (mm = 0 -> pct = f100) /\
  (feqb pct f100 = true -> t < 20000 -> mm = 0).
Proof.
  intros Hmm Hp.
  destruct (Z.eq_dec t 0) as [->|Ht].
  { assert (mm = 0) by lia. subst. discriminate Hp. }
  destruct (Z.eq_dec mm 0) as [->|Hm0].
  { rewrite match_percentage_all_match in Hp by lia. inversion Hp; subst.
    repeat split; reflexivity. }
  destruct (Z.eq_dec mm t) as [->|Hmt].
  { rewrite match_percentage_none_match in Hp by lia. inversion Hp; subst.
    repeat split; try reflexivity; try lia. intros H; discriminate H. }
  destruct (match_percentage_some t mm ltac:(lia)) as (pct' & Hp' & H0 & H100 & Hlt).
  rewrite Hp' in Hp. inversion Hp; subst.
  repeat split; try assumption; try lia.
  intros He Ht'. rewrite (Hlt Ht') in He. discriminate He.
Qed.

(** C2 (amended). In a run that returns, the summary row of each key present
    in both tables holds [round((total - mismatched) / total * 100, 2)] for
    its own total and mismatched column counts; that percentage lies between
    0 and 100; it is 100 when no column mismatches; and a percentage of 100
    means that no column mismatches whenever fewer than 20000 columns are
    compared. *)
Theorem summary_match_percentage
    (w : world) (file1 file2 key_column : string) (tr tr' : list event)
    (fr : DataFrame * DataFrame * DataFrame) :
  compare_files w file1 file2 key_column tr = (Ok fr, tr') ->
  exists df1 df2 keys cols ncols summary_rows detailed_rows missing_rows,
    run_context w file1 file2 key_column tr df1 df2 keys cols ncols /\
    fr = frames (summary_rows, detailed_rows, missing_rows) /\
    Forall2
      (fun key row =>
         exists mismatches pct,
           let total_cols := Z.of_nat (List.length cols) in
           row = summary_row key total_cols mismatches pct /\
           mismatches
           = Z.of_nat (List.length (key_mismatches df1 df2 (stem file1) (stem file2)
                                                   ncols key cols)) /\
           0 <= mismatches <= total_cols /\
           match_percentage total_cols mismatches = Ok pct /\
           fle f0 pct /\ fle pct f100 /\
           (mismatches = 0 -> pct = f100) /\
           (feqb pct f100 = true -> total_cols < 20000 -> mismatches = 0))
      (filter (in_both df1 df2) keys) summary_rows.
Proof.
  intros H. apply compare_files_outputs in H.
  destruct H as (df1 & df2 & keys & cols & ncols & s & d & m
                 & Hctx & -> & Hm & Hd & Hs).
  exists df1, df2, keys, cols, ncols, s, d, m.
  split; [exact Hctx|]. split; [reflexivity|].
  eapply Forall2_impl; [|exact Hs].
  intros key row (pct & Hp & Hrow). cbv zeta in Hp, Hrow.
  pose proof (key_mismatches_length df1 df2 (stem file1) (stem file2) ncols key cols)
    as Hlen.
  assert (Hrange : 0 <= Z.of_nat (List.length (key_mismatches df1 df2 (stem file1)
                                                  (stem file2) ncols key cols))
                   <= Z.of_nat (List.length cols)) by lia.
  destruct (match_percentage_props _ _ _ Hrange Hp) as (H0 & H100 & Hall & Hconv).
  eexists _, pct. cbv zeta.
  split; [exact Hrow|]. split; [reflexivity|].
  split; [exact Hrange|]. split; [exact Hp|].
  split; [exact H0|]. split; [exact H100|]. split; assumption.
Qed.

Lemma summary_match_percentage_witness :
  exists fr tr',
    compare_files Examples.files "scores_A.csv" "scores_B.csv" "key" [] = (Ok fr, tr') /\
    exists df1 df2 keys cols ncols summary_rows detailed_rows missing_rows,
      run_context Examples.files "scores_A.csv" "scores_B.csv" "key" []
                  df1 df2 keys cols ncols /\
      fr = frames (summary_rows, detailed_rows, missing_rows) /\
      Forall2
        (fun key row =>
           exists mismatches pct,
             let total_cols := Z.of_nat (List.length cols) in
             row = summary_row key total_cols mismatches pct /\
             mismatches
             = Z.of_nat (List.length (key_mismatches df1 df2 (stem "scores_A.csv")
                                                     (stem "scores_B.csv")
                                                     ncols key cols)) /\
             0 <= mismatches <= total_cols /\
             match_percentage total_cols mismatches = Ok pct /\
             fle f0 pct /\ fle pct f100 /\
             (mismatches = 0 -> pct = f100) /\
             (feqb pct f100 = true -> total_cols < 20000 -> mismatches = 0))
        (filter (in_both df1 df2) keys) summary_rows.
Proof.
  eexists _, _. split; [vm_compute; reflexivity|].
  eapply (summary_match_percentage Examples.files "scores_A.csv" "scores_B.csv" "key" []).
  vm_compute. reflexivity.
Defined.

(** *** No column to compare *)

Lemma match_percentage_total total_cols mismatches :
  0 < total_cols -> 0 <= mismatches <= total_cols ->
  exists pct, match_percentage total_cols mismatches = Ok pct.
Proof.
  intros Ht Hm.
  destruct (Z.eq_dec mismatches 0) as [->|H0].
  { exists f100. apply match_percentage_all_match. exact Ht. }
  destruct (Z.eq_dec mismatches total_cols) as [->|Ht'].
  { exists f0. apply match_percentage_none_match. exact Ht. }
  destruct (match_percentage_some total_cols mismatches ltac:(lia)) as (pct & Hp & _).
  exists pct. exact Hp.
Qed.

(** C10. When both files hold the key column and nothing else, and some key
    is in both of them, [compare_files] raises [ZeroDivisionError] at line 92
    and returns no output.  Line 92 divides by zero exactly when the number
    of compared columns is zero, and returns a percentage for every
    mismatch count as soon as at least one column is compared. *)
Theorem compare_files_key_only_divides_by_zero
    (w : world) (file1 file2 key_column : string) (tr tr1 tr2 : list event)
    (df1 df2 df1' df2' : DataFrame) (keys : list value) :
  read_file w file1 tr = (Ok df1, tr1) ->
  read_file w file2 tr1 = (Ok df2, tr2) ->
  columns df1 = [key_column] ->
  columns df2 = [key_column] ->
  set_index df1 key_column = Ok df1' ->
  set_index df2 key_column = Ok df2' ->
  key_universe df1' df2' = Ok keys ->
  (exists key, In key keys /\ in_both df1' df2' key = true) ->
  fst (compare_files w file1 file2 key_column tr)
  = Raise (ZeroDivisionError "division by zero")
  /\ (forall total_cols mismatches,
        match_percentage total_cols mismatches
        = Raise (ZeroDivisionError "division by zero")
        <-> total_cols = 0)
  /\ (forall total_cols mismatches,
        0 < total_cols -> 0 <= mismatches <= total_cols ->
        exists pct, match_percentage total_cols mismatches = Ok pct).
Proof.
  intros Hr1 Hr2 Hc1 Hc2 Hs1 Hs2 Hk Hex.
  split; [|split; [apply match_percentage_zero_division
                  |apply match_percentage_total]].
  rewrite (compare_files_step _ _ _ _ _ _ _ _ _ Hr1 Hr2).
  unfold compare_frames.
  assert (H1 : has_column key_column df1 = true)
    by (apply has_column_In; rewrite Hc1; left; reflexivity).
  assert (H2 : has_column key_column df2 = true)
    by (apply has_column_In; rewrite Hc2; left; reflexivity).
  rewrite H1, H2. cbn [negb orb].
  unfold bind, lift, logging_info, emit, ret.
  rewrite Hs1, Hs2, Hk.
  rewrite (column_universe_empty df1' df2'
             (set_index_only_key _ _ _ Hc1 Hs1) (set_index_only_key _ _ _ Hc2 Hs2)).
  unfold compare_rows, numeric_columns. cbn [filterM rbind].
  rewrite (key_loop_no_columns _ _ _ _ _ _ _ Hex). reflexivity.
Qed.

Lemma compare_files_key_only_divides_by_zero_witness :
  fst (compare_files Examples.files "ids.csv" "ids.csv" "key" [])
  = Raise (ZeroDivisionError "division by zero").
Proof.
  refine (proj1 (compare_files_key_only_divides_by_zero Examples.files
                   "ids.csv" "ids.csv" "key" []
                   [LogInfo "Reading file: ids.csv"; ReadCsv "ids.csv"]
                   [LogInfo "Reading file: ids.csv"; ReadCsv "ids.csv";
                    LogInfo "Reading file: ids.csv"; ReadCsv "ids.csv"]
                   Examples.key_only Examples.key_only
                   {| index := [VInt 1]; schema := []; data := [[]] |}
                   {| index := [VInt 1]; schema := []; data := [[]] |}
                   [VInt 1]
                   eq_refl eq_refl eq_refl eq_refl eq_refl eq_refl eq_refl _)).
  exists (VInt 1). split; [left; reflexivity | reflexivity].
Defined.

(** *** Frames with the same, increasing columns *)

Lemma ltb_lt a b : String.ltb a b = true <-> String_as_OT.lt a b.
Proof.
  unfold String.ltb. rewrite <- String_as_OT.cmp_lt. unfold String_as_OT.cmp.
  destruct (String.compare a b); split; intros H; congruence.
Qed.

Lemma increasing_tail x l :
  increasing (x :: l) = true ->
  increasing l = true /\ forall y, In y l -> String_as_OT.lt x y.
Proof.
  revert x. induction l as [|y l IH]; intros x H.
  - split; [reflexivity | intros y []].
  - cbn [increasing] in H. apply andb_true_iff in H. destruct H as [Hxy Hl].
    split; [exact Hl|]. apply ltb_lt in Hxy.
    intros z [<-|Hz]; [exact Hxy|].
    eapply String_as_OT.lt_trans; [exact Hxy|]. apply (IH y Hl). exact Hz.
Qed.

Lemma increasing_NoDup l : increasing l = true -> NoDup l.
Proof.
  induction l as [|x l IH]; intros H; constructor;
    destruct (increasing_tail _ _ H) as [Hl Hlt].
  - intros Hin. apply (String_as_OT.lt_not_eq _ _ (Hlt x Hin)). reflexivity.
  - apply IH. exact Hl.
Qed.

Lemma increasing_sorted l : increasing l = true -> sorted str_lt l = Ok l.
Proof.
  induction l as [|x l IH]; intros H; [reflexivity|].
  destruct (increasing_tail _ _ H) as [Hl Hlt].
  cbn [sorted]. rewrite (IH Hl). cbn [rbind].
  destruct l as [|y l]; [reflexivity|].
  cbn [insert_sorted]. unfold str_lt at 1. cbn [rbind].
  assert (Hyx : String.ltb y x = false).
  { assert (Hxy : String.ltb x y = true) by (apply ltb_lt, Hlt; left; reflexivity).
    unfold String.ltb in *. rewrite (String.compare_antisym y x).
    destruct (String.compare x y); try discriminate. reflexivity. }
  rewrite Hyx. reflexivity.
Qed.

Lemma existsb_eqb_false x l : ~ In x l -> existsb (String.eqb x) l = false.
Proof.
  intros H. destruct (existsb (String.eqb x) l) eqn:He; [|reflexivity].
  apply existsb_eqb_In in He. contradiction.
Qed.

Lemma set_of_fresh l :
  forall acc, NoDup l -> (forall x, In x l -> ~ In x acc) ->
              fold_left (set_add String.eqb) l acc = (acc ++ l)%list.
Proof.
  induction l as [|x l IH]; intros acc Hnd Hfresh; simpl.
  - rewrite app_nil_r. reflexivity.
  - inversion Hnd; subst. unfold set_add at 2.
    rewrite existsb_eqb_false by (apply Hfresh; left; reflexivity).
    rewrite IH; [rewrite <- app_assoc; reflexivity | assumption |].
    intros y Hy Hin. apply in_app_or in Hin. destruct Hin as [Hin|[<-|[]]].
    + apply (Hfresh y); [right; exact Hy | exact Hin].
    + contradiction.
Qed.

Lemma set_union_known t :
  forall s, (forall x, In x t -> In x s) ->
            fold_left (set_add String.eqb) t s = s.
Proof.
  induction t as [|x t IH]; intros s Hin; simpl; [reflexivity|].
  unfold set_add at 2.
  replace (existsb (String.eqb x) s) with true
    by (symmetry; apply existsb_eqb_In, Hin; left; reflexivity).
  apply IH. intros y Hy. apply Hin. right. exact Hy.
Qed.

Lemma column_universe_same df1 df2 cols :
  columns df1 = cols -> columns df2 = cols -> increasing cols = true ->
  column_universe df1 df2 = Ok cols.
Proof.
  intros H1 H2 Hinc. unfold column_universe, set_of, set_union. rewrite H1, H2.
  rewrite (set_of_fresh cols []) by (try apply increasing_NoDup; auto).
  cbn [app]. rewrite set_union_known by auto.
  apply increasing_sorted. exact Hinc.
Qed.

Lemma position_In c cs :
  In c cs -> exists j, position c cs = Some j /\ (j < List.length cs)%nat.
Proof.
  induction cs as [|c' cs IH]; intros Hin; [destruct Hin|].
  simpl. destruct (String.eqb c' c) eqn:He.
  - exists O. split; [reflexivity | lia].
  - destruct Hin as [->|Hin]; [rewrite String.eqb_refl in He; discriminate|].
    destruct (IH Hin) as (j & Hj & Hlt). rewrite Hj. exists (S j). split; [reflexivity | lia].
Qed.

Lemma nth_map_const {A B} (l : list A) (b d : B) j :
  (j < List.length l)%nat -> nth j (map (fun _ => b) l) d = b.
Proof.
  revert j. induction l as [|a l IH]; intros [|j] H; simpl in *; try lia; auto.
  apply IH. lia.
Qed.

Lemma nth_repeat_lt {A} (a d : A) n j : (j < n)%nat -> nth j (repeat a n) d = a.
Proof.
  revert j. induction n as [|n IH]; intros [|j] H; simpl; try lia; auto.
  apply IH. lia.
Qed.

Lemma columns_int64 (cols : list string) :
  map fst (map (fun c => (c, int64)) cols) = cols.
Proof. rewrite map_map. simpl. apply map_id. Qed.

Lemma filterM_all {A} (f : A -> result bool) l :
  (forall x, In x l -> f x = Ok true) -> filterM f l = Ok l.
Proof.
  induction l as [|x l IH]; intros H; simpl; [reflexivity|].
  rewrite (H x) by (left; reflexivity). cbn [rbind].
  rewrite IH by (intros y Hy; apply H; right; exact Hy). reflexivity.
Qed.

(** The column loop runs to its end when every looked up cell is a scalar. *)
Lemma column_loop_run df1 df2 f1 f2 ncols key cols :
  Forall (fun col => exists v1 v2, lookup df1 key col = Ok (Scalar v1)
                                   /\ lookup df2 key col = Ok (Scalar v2)) cols ->
  forall m0 d0,
    foldM (compare_column df1 df2 f1 f2 ncols key) cols (m0, d0)
    = Ok (m0 + Z.of_nat (List.length (key_mismatches df1 df2 f1 f2 ncols key cols)),
          (d0 ++ key_mismatches df1 df2 f1 f2 ncols key cols)%list).
Proof.
  induction 1 as [|col cols (v1 & v2 & H1 & H2) Hall IH]; intros m0 d0.
  - simpl. rewrite Z.add_0_r, app_nil_r. reflexivity.
  - cbn [foldM]. unfold compare_column at 1. rewrite H1, H2. cbn [rbind].
    rewrite (key_mismatches_cons _ _ _ _ _ _ _ _ _ _ H1 H2).
    destruct (py_ne v1 v2); cbn [rbind].
    + rewrite IH. rewrite <- app_assoc. cbn [app List.length].
      f_equal. f_equal. lia.
    + rewrite IH. reflexivity.
Qed.

Section WideFrames.
Variables (c0 : string) (rest : list string).
Hypothesis Hinc : increasing (c0 :: rest) = true.

(** The wide table once re-indexed by its key column. *)
Let reindexed (x : value) : DataFrame :=
  {| index := [VInt 1];
     schema := map (fun c => (c, int64)) (c0 :: rest);
     data := [x :: repeat (VInt 0) (List.length rest)] |}.

Lemma set_index_wide x :
  set_index (Examples.wide_table c0 rest x) "key" = Ok (reindexed x).
Proof. reflexivity. Qed.

Lemma columns_reindexed x : columns (reindexed x) = c0 :: rest.
Proof. unfold columns, reindexed. cbn [schema]. apply columns_int64. Qed.

Lemma lookup_reindexed x c j :
  position c (c0 :: rest) = Some j ->
  lookup (reindexed x) (VInt 1) c
  = Ok (Scalar (cell_at j (x :: repeat (VInt 0) (List.length rest)))).
Proof.
  intros Hj. unfold lookup.
  assert (Hin : has_column c (reindexed x) = true).
  { apply has_column_In. rewrite columns_reindexed.
    clear - Hj. revert j Hj. induction (c0 :: rest) as [|c' cs IH]; intros j Hj.
    - discriminate.
    - simpl in Hj. destruct (String.eqb c' c) eqn:He.
      + left. apply String.eqb_eq. exact He.
      + right. destruct (position c cs); [|discriminate]. eapply IH. reflexivity. }
  rewrite Hin. unfold at_. rewrite columns_reindexed, Hj. reflexivity.
Qed.

Lemma lookup_first x : lookup (reindexed x) (VInt 1) c0 = Ok (Scalar x).
Proof.
  rewrite (lookup_reindexed x c0 O); [reflexivity|].
  simpl. rewrite String.eqb_refl. reflexivity.
Qed.

Lemma lookup_rest x c :
  In c rest -> lookup (reindexed x) (VInt 1) c = Ok (Scalar (VInt 0)).
Proof.
  intros Hin. destruct (position_In c rest Hin) as (j & Hj & Hlt).
  assert (Hne : String.eqb c0 c = false).
  { apply String.eqb_neq. intros <-.
    pose proof (increasing_NoDup _ Hinc) as Hnd. inversion Hnd; contradiction. }
  rewrite (lookup_reindexed x c (S j)).
  - unfold cell_at. cbn [nth]. rewrite nth_repeat_lt by exact Hlt. reflexivity.
  - simpl. rewrite Hne, Hj. reflexivity.
Qed.

Lemma wide_mismatches x1 x2 f1 f2 ncols :
  py_ne x1 x2 = true ->
  key_mismatches (reindexed x1) (reindexed x2) f1 f2 ncols (VInt 1) (c0 :: rest)
  = [mismatch_row f1 f2 ncols (VInt 1) c0 x1 x2].
Proof.
  intros Hne.
  rewrite (key_mismatches_cons _ _ _ _ _ _ _ _ _ _ (lookup_first x1) (lookup_first x2)).
  rewrite Hne. cbn [app]. f_equal.
  unfold key_mismatches.
  assert (H : forall l, (forall c, In c l -> In c rest) ->
              flat_map
                (fun col =>
                   match lookup (reindexed x1) (VInt 1) col,
                         lookup (reindexed x2) (VInt 1) col with
                   | Ok (Scalar v1), Ok (Scalar v2) =>
                       if py_ne v1 v2
                       then [mismatch_row f1 f2 ncols (VInt 1) col v1 v2]
                       else []
                   | _, _ => []
                   end) l = []).
  { induction l as [|c l IH]; intros Hl; [reflexivity|].
    cbn [flat_map]. rewrite !lookup_rest by (apply Hl; left; reflexivity).
    cbn [app]. change (py_ne (VInt 0) (VInt 0)) with false. cbn [app].
    apply IH. intros c' Hc'. apply Hl. right. exact Hc'. }
  apply H. auto.
Qed.

Lemma wide_scalars x1 x2 :
  Forall (fun col => exists v1 v2,
              lookup (reindexed x1) (VInt 1) col = Ok (Scalar v1)
              /\ lookup (reindexed x2) (VInt 1) col = Ok (Scalar v2))
         (c0 :: rest).
Proof.
  constructor.
  - exists x1, x2. split; apply lookup_first.
  - apply Forall_forall. intros c Hc. exists (VInt 0), (VInt 0).
    split; apply lookup_rest; exact Hc.
Qed.

Lemma wide_numeric x1 x2 :
  numeric_columns (reindexed x1) (reindexed x2) (c0 :: rest) = Ok (c0 :: rest).
Proof.
  unfold numeric_columns. apply filterM_all. intros c Hc.
  unfold is_numeric_col, getitem. rewrite columns_reindexed.
  destruct (position_In c (c0 :: rest) Hc) as (j & Hj & Hlt). rewrite Hj.
  cbn [rbind s_dtype]. unfold reindexed at 1. cbn [schema].
  rewrite map_map. cbn [snd]. rewrite nth_map_const by exact Hlt. reflexivity.
Qed.

(** Two wide tables that differ in their first column only. *)
Lemma compare_frames_wide x1 x2 file1 file2 tr pct :
  py_ne x1 x2 = true ->
  match_percentage (Z.of_nat (S (List.length rest))) 1 = Ok pct ->
  fst (compare_frames (Examples.wide_table c0 rest x1) (Examples.wide_table c0 rest x2)
                      file1 file2 "key" tr)
  = Ok (frames ([summary_row (VInt 1) (Z.of_nat (S (List.length rest))) 1 pct],
                [mismatch_row (stem file1) (stem file2) (c0 :: rest)
                              (VInt 1) c0 x1 x2],
                [])).
Proof.
  intros Hne Hpct. unfold compare_frames.
  change (has_column "key" (Examples.wide_table c0 rest x1)) with true.
  change (has_column "key" (Examples.wide_table c0 rest x2)) with true.
  cbn [negb orb]. unfold bind, lift, logging_info, emit, ret.
  rewrite !set_index_wide.
  change (key_universe (reindexed x1) (reindexed x2)) with (Ok [VInt 1]).
  rewrite (column_universe_same _ _ (c0 :: rest)
             (columns_reindexed x1) (columns_reindexed x2) Hinc).
  unfold compare_rows. rewrite wide_numeric. cbn [rbind foldM].
  unfold compare_key.
  change (index_contains (index (reindexed x1)) (VInt 1)) with true.
  change (index_contains (index (reindexed x2)) (VInt 1)) with true.
  cbn [negb]. rewrite (column_loop_run _ _ _ _ _ _ _ (wide_scalars x1 x2)).
  rewrite (wide_mismatches x1 x2 _ _ _ Hne). cbn [rbind List.length app].
  change (0 + Z.of_nat 1) with 1. cbn [List.length] in Hpct |- *.
  rewrite Hpct. reflexivity.
Qed.
End WideFrames.

(** C2 (as stated, refuted). Two tables of 20001 columns that differ in one
    cell of key 1: the summary row of key 1 counts one mismatched column and
    its match percentage is 100.0, since round(99.995..., 2) is 100.0. *)
Lemma wide_table_full_percentage :
  fst (compare_files Examples.wide_files "wide_A.csv" "wide_B.csv" "key" [])
  = Ok (frames ([summary_row (VInt 1) 20001 1 f100],
                [mismatch_row "wide_A" "wide_B" ("c00000" :: Examples.wide_rest)
                              (VInt 1) "c00000" (VInt 0) (VInt 1)],
                []))
  /\ dict_get (summary_row (VInt 1) 20001 1 f100) "mismatched_columns" = Some (VInt 1)
  /\ dict_get (summary_row (VInt 1) 20001 1 f100) "match_percentage"
     = Some (VFloat f100).
Proof.
  split; [|split; reflexivity].
  rewrite (compare_files_step Examples.wide_files "wide_A.csv" "wide_B.csv" "key" []
             (Examples.wide_table "c00000" Examples.wide_rest (VInt 0))
             [LogInfo "Reading file: wide_A.csv"; ReadCsv "wide_A.csv"]
             (Examples.wide_table "c00000" Examples.wide_rest (VInt 1))
             [LogInfo "Reading file: wide_A.csv"; ReadCsv "wide_A.csv";
              LogInfo "Reading file: wide_B.csv"; ReadCsv "wide_B.csv"]
             eq_refl eq_refl).
  assert (Hlen : Z.of_nat (S (List.length Examples.wide_rest)) = 20001)
    by (vm_compute; reflexivity).
  pose proof (compare_frames_wide "c00000" Examples.wide_rest
                ltac:(vm_compute; reflexivity)
                (VInt 0) (VInt 1) "wide_A.csv" "wide_B.csv"
                [LogInfo "Reading file: wide_A.csv"; ReadCsv "wide_A.csv";
                 LogInfo "Reading file: wide_B.csv"; ReadCsv "wide_B.csv"]
                f100 eq_refl) as H.
  rewrite Hlen in H. apply H. vm_compute. reflexivity.
Qed.

(** *** Every key lands in one output *)

Lemma set_add_In {A} (eq : A -> A -> bool) s x y :
  In y (set_add eq s x) -> In y s \/ y = x.
Proof.
  unfold set_add. destruct (existsb (eq x) s); [auto|].
  intros H. apply in_app_or in H. destruct H as [H|[H|[]]]; auto.
Qed.

Lemma set_fold_In {A} (eq : A -> A -> bool) l :
  forall s y, In y (fold_left (set_add eq) l s) -> In y s \/ In y l.
Proof.
  induction l as [|x l IH]; intros s y H; simpl in *; [auto|].
  apply IH in H. destruct H as [H|H]; [|auto].
  apply set_add_In in H. destruct H as [H| ->]; auto.
Qed.

Lemma set_fold_keeps {A} (eq : A -> A -> bool) l :
  forall s y, In y s -> In y (fold_left (set_add eq) l s).
Proof.
  induction l as [|a l IH]; intros s y H; simpl; [exact H|].
  apply IH. unfold set_add. destruct (existsb (eq a) s); [exact H|].
  apply in_or_app. auto.
Qed.

(** Each element that enters a set is there, or an equal one is. *)
Lemma set_fold_covers {A} (eq : A -> A -> bool) l :
  forall s x, In x s \/ In x l ->
              exists y, In y (fold_left (set_add eq) l s) /\ (y = x \/ eq x y = true).
Proof.
  induction l as [|z l IH]; intros s x H; simpl in *.
  - destruct H as [H|[]]. exists x. auto.
  - assert (Hs : In x (set_add eq s z) \/ In x l \/ (x = z /\ existsb (eq z) s = true)).
    { unfold set_add. destruct H as [H|[->|H]].
      - left. destruct (existsb (eq z) s); [exact H | apply in_or_app; auto].
      - destruct (existsb (eq x) s) eqn:He.
        + right. right. auto.
        + left. apply in_or_app. right. left. reflexivity.
      - right. left. exact H. }
    destruct Hs as [Hs|[Hs|[-> He]]].
    + apply IH. auto.
    + apply IH. auto.
    + apply existsb_exists in He. destruct He as (y & Hy & Heq).
      assert (Hy' : In y (set_add eq s z)).
      { unfold set_add. destruct (existsb (eq z) s); [exact Hy | apply in_or_app; auto]. }
      destruct (IH (set_add eq s z) y (or_introl Hy')) as (y' & Hin & Hrel).
      destruct Hrel as [->|Hrel].
      * exists y. auto.
      * exists y. split; [apply set_fold_keeps; exact Hy' | auto].
Qed.

Lemma In_map_Some_filter {A} (f : A -> bool) (l : list A) x :
  In (Some x) (map Some (filter f l)) <-> In x l /\ f x = true.
Proof.
  rewrite in_map_iff. split.
  - intros (y & Hy & Hin). inversion Hy; subst. apply filter_In. exact Hin.
  - intros H. exists x. split; [reflexivity | apply filter_In; exact H].
Qed.

Lemma summary_keys df1 df2 f1 f2 ncols cols keys rows :
  Forall2 (fun k row =>
             exists pct,
               let t := Z.of_nat (List.length cols) in
               let mm := Z.of_nat (List.length (key_mismatches df1 df2 f1 f2 ncols k cols)) in
               match_percentage t mm = Ok pct /\ row = summary_row k t mm pct)
          keys rows ->
  map (fun row => dict_get row "key") rows = map Some keys.
Proof.
  induction 1 as [|k row ks rows (pct & _ & ->) _ IH]; simpl; [reflexivity|].
  rewrite IH. reflexivity.
Qed.

(** In a run that returns, each key of the sorted key universe is the key of
    a summary row or of a missing row, and never of both; and every label of
    either table is in that universe, itself or through an equal label. *)
Lemma keys_in_exactly_one_output
    (w : world) (file1 file2 key_column : string) (tr tr' : list event)
    (fr : DataFrame * DataFrame * DataFrame) :
  compare_files w file1 file2 key_column tr = (Ok fr, tr') ->
  exists df1 df2 keys cols ncols summary_rows detailed_rows missing_rows,
    run_context w file1 file2 key_column tr df1 df2 keys cols ncols /\
    fr = frames (summary_rows, detailed_rows, missing_rows) /\
    (forall key, In key keys ->
       let in_summary := In (Some key) (map (fun row => dict_get row "key") summary_rows) in
       let in_missing := In (Some key) (map (fun row => dict_get row "key") missing_rows) in
       (in_summary /\ ~ in_missing) \/ (in_missing /\ ~ in_summary)) /\
    (forall key, In key keys -> In key (index df1) \/ In key (index df2)) /\
    ((forall a b, In a (index df1 ++ index df2) -> In b (index df1 ++ index df2) ->
                  py_eq a b = true -> a = b) ->
     forall label, In label (index df1) \/ In label (index df2) -> In label keys).
Proof.
  intros H. apply compare_files_outputs in H.
  destruct H as (df1 & df2 & keys & cols & ncols & s & d & m
                 & Hctx & -> & Hm & Hd & Hs).
  exists df1, df2, keys, cols, ncols, s, d, m.
  split; [exact Hctx|]. split; [reflexivity|].
  apply summary_keys in Hs.
  assert (Hmk : map (fun row => dict_get row "key") m
                = map Some (filter (fun k => negb (in_both df1 df2 k)) keys)).
  { rewrite Hm, map_map. apply map_ext. intros k. reflexivity. }
  split; [|split].
  - intros key Hk. cbv zeta. rewrite Hs, Hmk. rewrite !In_map_Some_filter.
    destruct (in_both df1 df2 key); simpl.
    + left. split; [auto|]. intros [_ Hf]. discriminate.
    + right. split; [auto|]. intros [_ Hf]. discriminate.
  - intros key Hk.
    destruct Hctx as (raw1 & raw2 & _ & _ & _ & _ & Hku & _).
    unfold key_universe in Hku. apply sorted_perm in Hku.
    apply Permutation_sym in Hku. apply (Permutation_in _ Hku) in Hk.
    unfold set_union, set_of in Hk.
    apply set_fold_In in Hk. destruct Hk as [Hk|Hk];
      apply set_fold_In in Hk; destruct Hk as [Hk|Hk]; auto; destruct Hk.
  - intros Heq label Hl.
    destruct Hctx as (raw1 & raw2 & _ & _ & _ & _ & Hku & _).
    unfold key_universe in Hku. apply sorted_perm in Hku.
    apply (Permutation_in _ Hku). unfold set_union, set_of.
    set (s1 := fold_left (set_add py_eq) (index df1) []).
    set (s2 := fold_left (set_add py_eq) (index df2) []).
    assert (Hs1 : forall y, In y s1 -> In y (index df1)).
    { intros y Hy. apply set_fold_In in Hy. destruct Hy as [[]|Hy]. exact Hy. }
    assert (Hs2 : forall y, In y s2 -> In y (index df2)).
    { intros y Hy. apply set_fold_In in Hy. destruct Hy as [[]|Hy]. exact Hy. }
    destruct Hl as [Hl|Hl].
    + destruct (set_fold_covers py_eq (index df1) [] label (or_intror Hl))
        as (y & Hy & Hrel).
      assert (y = label) as ->.
      { destruct Hrel as [->|Hrel]; [reflexivity|]. symmetry. apply Heq; auto.
        - apply in_or_app. auto.
        - apply in_or_app. left. apply Hs1. exact Hy. }
      apply set_fold_keeps. exact Hy.
    + destruct (set_fold_covers py_eq (index df2) [] label (or_intror Hl))
        as (y & Hy & Hrel).
      assert (y = label) as ->.
      { destruct Hrel as [->|Hrel]; [reflexivity|]. symmetry. apply Heq; auto.
        - apply in_or_app. auto.
        - apply in_or_app. right. apply Hs2. exact Hy. }
      destruct (set_fold_covers py_eq s2 s1 label (or_intror Hy))
        as (y' & Hy' & Hrel').
      assert (y' = label) as ->.
      { destruct Hrel' as [->|Hrel']; [reflexivity|]. symmetry. apply Heq; auto.
        - apply in_or_app. auto.
        - apply set_fold_In in Hy'. apply in_or_app.
          destruct Hy' as [Hy'|Hy']; [left; apply Hs1 | right; apply Hs2]; exact Hy'. }
      exact Hy'.
Qed.

(** *** Two copies of one table *)

Lemma key_universe_In df1 df2 keys key :
  key_universe df1 df2 = Ok keys -> In key keys ->
  In key (index df1) \/ In key (index df2).
Proof.
  intros Hku Hk. unfold key_universe in Hku. apply sorted_perm in Hku.
  apply Permutation_sym in Hku. apply (Permutation_in _ Hku) in Hk.
  unfold set_union, set_of in Hk.
  apply set_fold_In in Hk. destruct Hk as [Hk|Hk];
    apply set_fold_In in Hk; destruct Hk as [Hk|Hk]; auto; destruct Hk.
Qed.

Lemma SFcompare_refl f : is_nan f = false -> SFcompare f f = Some Eq.
Proof.
  destruct f as [s|s| |s m e]; simpl; intros H; try discriminate; try reflexivity.
  - destruct s; reflexivity.
  - rewrite Z.compare_refl, Pos.compare_cont_refl. destruct s; reflexivity.
Qed.

Lemma py_eq_refl v :
  (forall f, v = VFloat f -> is_nan f = false) -> py_eq v v = true.
Proof.
  intros Hv. destruct v as [|b|z|f|s]; unfold py_eq; simpl.
  - reflexivity.
  - rewrite Z.compare_refl. reflexivity.
  - rewrite Z.compare_refl. reflexivity.
  - rewrite SFcompare_refl by (apply Hv; reflexivity). reflexivity.
  - apply String.eqb_refl.
Qed.

Lemma label_eq_refl k : label_eq k k = true.
Proof.
  unfold label_eq. destruct k as [|b|z|f|s]; try (rewrite py_eq_refl; [reflexivity|];
    intros f' H; discriminate H).
  destruct (is_nan f) eqn:Hn.
  - simpl. rewrite Hn. apply orb_true_r.
  - rewrite py_eq_refl; [reflexivity|]. intros f' H. inversion H; subst. exact Hn.
Qed.

Lemma index_contains_In idx key : In key idx -> index_contains idx key = true.
Proof.
  intros H. unfold index_contains. apply existsb_exists.
  exists key. split; [exact H | apply label_eq_refl].
Qed.

Lemma key_mismatches_same df f1 f2 ncols key cols :
  (forall col f, lookup df key col = Ok (Scalar (VFloat f)) -> is_nan f = false) ->
  key_mismatches df df f1 f2 ncols key cols = [].
Proof.
  intros Hnan. unfold key_mismatches.
  induction cols as [|col cols IH]; [reflexivity|].
  cbn [flat_map]. rewrite IH, app_nil_r.
  destruct (lookup df key col) as [[v|vs]|e] eqn:Hl; try reflexivity.
  unfold py_ne. rewrite py_eq_refl; [reflexivity|].
  intros f ->. eapply Hnan. exact Hl.
Qed.

Lemma filter_none {A} (f : A -> bool) l :
  (forall x, In x l -> f x = false) -> filter f l = [].
Proof.
  induction l as [|x l IH]; intros H; simpl; [reflexivity|].
  rewrite (H x) by (left; reflexivity). apply IH. intros y Hy. apply H. right. exact Hy.
Qed.

Lemma flat_map_none {A B} (f : A -> list B) l :
  (forall x, In x l -> f x = []) -> flat_map f l = [].
Proof.
  induction l as [|x l IH]; intros H; simpl; [reflexivity|].
  rewrite (H x) by (left; reflexivity). apply IH. intros y Hy. apply H. right. exact Hy.
Qed.

(** When both files hold the same table, no cell of which is [nan], a run
    that returns has no mismatch row and no missing row, and every summary
    row shows no mismatched column, 100.0 percent and the status MATCH. *)
Lemma identical_tables_without_nan
    (w : world) (file1 file2 key_column : string) (tr tr' : list event)
    (fr : DataFrame * DataFrame * DataFrame) :
  compare_files w file1 file2 key_column tr = (Ok fr, tr') ->
  fst (read_file w file2 (snd (read_file w file1 tr))) = fst (read_file w file1 tr) ->
  (forall raw df key col f,
     fst (read_file w file1 tr) = Ok raw -> set_index raw key_column = Ok df ->
     lookup df key col = Ok (Scalar (VFloat f)) -> is_nan f = false) ->
  exists summary_rows,
    fr = frames (summary_rows, [], []) /\
    Forall (fun row =>
              dict_get row "mismatched_columns" = Some (VInt 0) /\
              dict_get row "match_percentage" = Some (VFloat f100) /\
              dict_get row "status" = Some (VStr "✅ MATCH"))
           summary_rows.
Proof.
  intros H Hsame Hnan. apply compare_files_outputs in H.
  destruct H as (df1 & df2 & keys & cols & ncols & s & d & m
                 & Hctx & -> & Hm & Hd & Hs).
  destruct Hctx as (raw1 & raw2 & Hr1 & Hr2 & Hs1 & Hs2 & Hk & Hc & Hn).
  assert (raw2 = raw1) as -> by congruence.
  assert (df2 = df1) as -> by congruence.
  assert (Hboth : forall key, In key keys -> in_both df1 df1 key = true).
  { intros key Hin. unfold in_both.
    destruct (key_universe_In _ _ _ _ Hk Hin) as [Hi|Hi];
      rewrite (index_contains_In _ _ Hi); reflexivity. }
  assert (Hkm : forall key, key_mismatches df1 df1 (stem file1) (stem file2) ncols key cols = []).
  { intros key. apply key_mismatches_same. intros col f. apply (Hnan raw1); assumption. }
  exists s. split.
  - f_equal. f_equal.
    + f_equal. rewrite Hd. apply flat_map_none. intros key _. apply Hkm.
    + rewrite Hm, filter_none; [reflexivity|].
      intros key Hin. rewrite (Hboth key Hin). reflexivity.
  - clear Hm Hd. induction Hs as [|key row ks rows (pct & Hp & ->) _ IH]; constructor.
    + cbv zeta in Hp. rewrite Hkm in *. cbn [List.length Z.of_nat] in *.
      assert (Hpct : pct = f100).
      { destruct (Z.eq_dec (Z.of_nat (List.length cols)) 0) as [H0|H0].
        - rewrite H0 in Hp. discriminate Hp.
        - rewrite match_percentage_all_match in Hp by lia. congruence. }
      subst pct. repeat split; reflexivity.
    + exact IH.
Qed.

(** *** Swapping the two cells of a comparison *)

Lemma py_eq_sym a b : py_eq a b = py_eq b a.
Proof.
  unfold py_eq.
  destruct (as_num a) as [x|] eqn:Ha, (as_num b) as [y|] eqn:Hb; try reflexivity.
  - rewrite (num_compare_antisym x y).
    destruct (num_compare x y) as [[| |]|]; reflexivity.
  - destruct a, b; try reflexivity. apply String.eqb_sym.
Qed.

Lemma py_ne_sym a b : py_ne a b = py_ne b a.
Proof. unfold py_ne. rewrite py_eq_sym. reflexivity. Qed.

Lemma SFopp_involutive f : SFopp (SFopp f) = f.
Proof. destruct f; simpl; rewrite ?negb_involutive; reflexivity. Qed.

Lemma binary_round_aux_opp s m e l :
  binary_round_aux prec emax (negb s) m e l
  = SFopp (binary_round_aux prec emax s m e l).
Proof.
  unfold binary_round_aux.
  destruct (shr_fexp prec emax m e l) as [mrs1 e1].
  destruct (shr_fexp prec emax _ e1 loc_Exact) as [mrs2 e2].
  destruct (shr_m mrs2); try reflexivity.
  destruct (e2 <=? emax - prec); reflexivity.
Qed.

Lemma binary_round_opp s m e :
  binary_round prec emax (negb s) m e = SFopp (binary_round prec emax s m e).
Proof.
  unfold binary_round. destruct (shl_align m e _) as [mz ez].
  apply binary_round_aux_opp.
Qed.

Lemma binary_normalize_opp d e :
  d <> 0 ->
  binary_normalize prec emax (- d) e false
  = SFopp (binary_normalize prec emax d e false).
Proof.
  destruct d as [|p|p]; intros Hd; [contradiction| |]; simpl.
  - apply (binary_round_opp false).
  - rewrite (binary_round_opp false). rewrite SFopp_involutive. reflexivity.
Qed.

(** [y - x] is the opposite of [x - y], except that both are [+0.0] when
    [x] and [y] are equal. *)
Lemma fsub_swap x y :
  fsub y x = fneg (fsub x y)
  \/ (fsub x y = S754_zero false /\ fsub y x = S754_zero false).
Proof.
  unfold fsub, fneg.
  destruct x as [sx|sx| |sx mx ex], y as [sy|sy| |sy my ey];
    try (left; reflexivity);
    try (destruct sx, sy; simpl; auto; fail);
    try (destruct sx; simpl; auto; fail);
    try (destruct sy; simpl; auto; fail).
  cbn [SFsub]. rewrite (Z.min_comm ey ex).
  set (ez := Z.min ex ey).
  set (a := cond_Zopp sx (Zpos (fst (shl_align mx ex ez)))).
  set (b := cond_Zopp sy (Zpos (fst (shl_align my ey ez)))).
  destruct (Z.eq_dec (a - b) 0) as [H0|H0].
  - right. replace (b - a) with 0 by lia. rewrite H0. split; reflexivity.
  - left. replace (b - a) with (- (a - b)) by lia.
    apply binary_normalize_opp. exact H0.
Qed.

(** With the two values swapped, the [difference] of a mismatch row is
    negated (two equal numbers give [0.0] both ways), and a difference that
    cannot be computed stays so. *)
Lemma difference_swap v1 v2 :
  (difference v1 v2 = VNone /\ difference v2 v1 = VNone)
  \/ exists d d',
       difference v1 v2 = VFloat d /\ difference v2 v1 = VFloat d' /\
       (d' = fneg d \/ (d = S754_zero false /\ d' = S754_zero false)).
Proof.
  unfold difference.
  destruct (py_float v1) as [x1|], (py_float v2) as [x2|]; auto.
  right. exists (fsub x2 x1), (fsub x1 x2). repeat split; try reflexivity.
  destruct (fsub_swap x2 x1) as [H|[H1 H2]]; auto.
Qed.

(** With the two frames swapped, the column loop finds the same mismatching
    columns of a key, each row holding the two values in the other order. *)
Lemma key_mismatches_swap df1 df2 f1 f2 ncols key cols :
  Forall2 (fun row row' =>
             exists col v1 v2,
               row = mismatch_row f1 f2 ncols key col v1 v2 /\
               row' = mismatch_row f2 f1 ncols key col v2 v1)
          (key_mismatches df1 df2 f1 f2 ncols key cols)
          (key_mismatches df2 df1 f2 f1 ncols key cols).
Proof.
  unfold key_mismatches. induction cols as [|col cols IH]; [constructor|].
  cbn [flat_map].
  destruct (lookup df1 key col) as [[v1|xs]|e1];
    destruct (lookup df2 key col) as [[v2|ys]|e2]; cbn [app]; try exact IH.
  rewrite (py_ne_sym v2 v1). destruct (py_ne v1 v2); cbn [app]; [|exact IH].
  constructor; [|exact IH]. exists col, v1, v2. split; reflexivity.
Qed.

(* ================================================================== *)
(** ** Further properties of the script *)
(* ================================================================== *)

(** *** Suffixes of paths *)
Lemma length_append s t :
  String.length (s ++ t) = (String.length s + String.length t)%nat.
Proof. induction s as [|c s IH]; simpl; [reflexivity|]. rewrite IH. reflexivity. Qed.

Lemma substring_skip s t k m :
  substring (String.length s + k) m (s ++ t) = substring k m t.
Proof. induction s as [|c s IH]; simpl; [reflexivity|exact IH]. Qed.

Lemma substring_all t : substring 0 (String.length t) t = t.
Proof. induction t as [|c t IH]; simpl; [reflexivity|]. rewrite IH. reflexivity. Qed.

Lemma endswith_append s suffix : endswith (s ++ suffix) suffix = true.
Proof.
  unfold endswith. rewrite length_append.
  replace (String.length s + String.length suffix - String.length suffix)%nat
    with (String.length s + 0)%nat by lia.
  rewrite substring_skip, substring_all, String.eqb_refl, andb_true_r.
  apply Nat.leb_le. lia.
Qed.

(** A string that ends with [suffix] ends with the last character of
    [suffix]. *)
Lemma endswith_last s suffix :
  endswith s suffix = true -> suffix <> "" ->
  get (String.length s - 1) s = get (String.length suffix - 1) suffix.
Proof.
  unfold endswith. intros H Hne.
  apply andb_true_iff in H. destruct H as [Hle Heq].
  apply Nat.leb_le in Hle. apply String.eqb_eq in Heq.
  assert (Hpos : (0 < String.length suffix)%nat)
    by (destruct suffix; [congruence | simpl; lia]).
  rewrite <- Heq at 2.
  rewrite (substring_correct1 s (String.length s - String.length suffix)
             (String.length suffix) (String.length suffix - 1)) by lia.
  f_equal. lia.
Qed.

Lemma endswith_other s t suffix :
  t <> "" -> suffix <> "" ->
  get (String.length t - 1) t <> get (String.length suffix - 1) suffix ->
  endswith (s ++ t) suffix = false.
Proof.
  intros Ht Hs Hne.
  destruct (endswith (s ++ t) suffix) eqn:E; [|reflexivity].
  exfalso. apply Hne. rewrite <- (endswith_last _ _ E Hs).
  assert (Hpos : (0 < String.length t)%nat)
    by (destruct t; [congruence | simpl; lia]).
  rewrite length_append.
  replace (String.length s + String.length t - 1)%nat
    with ((String.length t - 1) + String.length s)%nat by lia.
  apply append_correct2.
Qed.

Lemma read_file_csv w name tr :
  read_file w (name ++ ".csv") tr
  = (read_csv w (name ++ ".csv"),
     (tr ++ [LogInfo ("Reading file: " ++ name ++ ".csv"); ReadCsv (name ++ ".csv")])%list).
Proof.
  unfold read_file, bind, logging_info, emit, pd_read_csv.
  rewrite endswith_append. rewrite <- app_assoc. reflexivity.
Qed.

Lemma read_file_xlsx w name tr :
  read_file w (name ++ ".xlsx") tr
  = (read_excel w (name ++ ".xlsx"),
     (tr ++ [LogInfo ("Reading file: " ++ name ++ ".xlsx");
             ReadExcel (name ++ ".xlsx")])%list).
Proof.
  unfold read_file, bind, logging_info, emit, pd_read_excel.
  rewrite (endswith_other name ".xlsx" ".csv") by (simpl; congruence).
  rewrite endswith_append. rewrite <- app_assoc. reflexivity.
Qed.

(** X1: [read_file] chooses the parser by the last characters of the path
    alone: a path ending in [.csv] is handed to [pd.read_csv] and one ending
    in [.xlsx] to [pd.read_excel], each after the log line, and the outcome
    is whatever the parser returns or raises; the test is case-sensitive, so
    [.CSV] and [.XLSX] are refused without any parser being called. *)
Theorem read_file_dispatch (w : world) (name : string) (tr : list event) :
  read_file w (name ++ ".csv") tr
  = (read_csv w (name ++ ".csv"),
     (tr ++ [LogInfo ("Reading file: " ++ name ++ ".csv"); ReadCsv (name ++ ".csv")])%list)
  /\ read_file w (name ++ ".xlsx") tr
     = (read_excel w (name ++ ".xlsx"),
        (tr ++ [LogInfo ("Reading file: " ++ name ++ ".xlsx");
                ReadExcel (name ++ ".xlsx")])%list)
  /\ read_file w (name ++ ".CSV") tr
     = (Raise (ValueError "Only CSV and Excel files are supported"),
        (tr ++ [LogInfo ("Reading file: " ++ name ++ ".CSV")])%list)
  /\ read_file w (name ++ ".XLSX") tr
     = (Raise (ValueError "Only CSV and Excel files are supported"),
        (tr ++ [LogInfo ("Reading file: " ++ name ++ ".XLSX")])%list).
Proof.
  split; [apply read_file_csv|]. split; [apply read_file_xlsx|].
  unfold read_file, bind, logging_info, emit, raise.
  split.
  - rewrite (endswith_other name ".CSV" ".csv") by (simpl; congruence).
    rewrite (endswith_other name ".CSV" ".xlsx") by (simpl; congruence).
    reflexivity.
  - rewrite (endswith_other name ".XLSX" ".csv") by (simpl; congruence).
    rewrite (endswith_other name ".XLSX" ".xlsx") by (simpl; congruence).
    reflexivity.
Qed.

(** *** What a run does to the outside *)
Lemma emits_weaken {A} (ok ok' : event -> Prop) (m : IO A) :
  (forall ev, ok ev -> ok' ev) -> emits ok m -> emits ok' m.
Proof.
  intros Himp H tr. destruct (H tr) as (evs & E & Q).
  exists evs. split; [exact E|]. eapply Forall_impl; [|exact Q]. exact Himp.
Qed.

Lemma emits_bind {A B} (ok : event -> Prop) (m : IO A) (k : A -> IO B) :
  emits ok m -> (forall a, emits ok (k a)) -> emits ok (bind m k).
Proof.
  intros Hm Hk tr. unfold bind.
  destruct (Hm tr) as (evs1 & E1 & Q1).
  destruct (m tr) as [[a|e] tr1]; simpl in E1; subst tr1.
  - destruct (Hk a (tr ++ evs1)%list) as (evs2 & E2 & Q2).
    exists (evs1 ++ evs2)%list. split.
    + rewrite E2. rewrite app_assoc. reflexivity.
    + apply Forall_app. split; assumption.
  - exists evs1. split; [reflexivity|exact Q1].
Qed.

Lemma emits_pure {A} (ok : event -> Prop) (r : result A) : emits ok (lift r).
Proof. intros tr. exists []. rewrite app_nil_r. split; [reflexivity|constructor]. Qed.

Lemma emits_emit (ok : event -> Prop) ev : ok ev -> emits ok (emit ev).
Proof. intros H tr. exists [ev]. split; [reflexivity|]. constructor; [exact H|constructor]. Qed.

Lemma is_quiet_more paths paths' ev :
  (forall p, In p paths -> In p paths') -> is_quiet paths ev -> is_quiet paths' ev.
Proof. intros Hsub. destruct ev as [msg|p|p|p wb]; simpl; intuition. Qed.

Lemma read_file_emits w file_path : emits (is_quiet [file_path]) (read_file w file_path).
Proof.
  unfold read_file. apply emits_bind; [apply emits_emit; exact I|]. intros _.
  destruct (endswith file_path ".csv") eqn:Ec;
    [|destruct (endswith file_path ".xlsx") eqn:Ex].
  - intros tr. exists [ReadCsv file_path]. split; [reflexivity|].
    constructor; [|constructor]. simpl. auto.
  - intros tr. exists [ReadExcel file_path]. split; [reflexivity|].
    constructor; [|constructor]. simpl. auto.
  - apply (emits_pure _ (Raise (ValueError "Only CSV and Excel files are supported"))).
Qed.

Lemma compare_frames_emits df1 df2 file1 file2 key_column :
  emits (is_quiet []) (compare_frames df1 df2 file1 file2 key_column).
Proof.
  unfold compare_frames.
  destruct (negb (has_column key_column df1) || negb (has_column key_column df2)).
  { apply (emits_pure _ (Raise (ValueError (key_error_msg key_column)))). }
  repeat (apply emits_bind; [first [apply emits_pure | apply emits_emit; exact I]|]; intros ?).
  apply (emits_pure _ (Ok _)).
Qed.

(** X2: whatever the files hold and however it ends, [compare_files] only
    extends the trace, and what it adds are log lines and the parsing of its
    two paths, each by the parser of its suffix: it parses no other file and
    saves no workbook. *)
Theorem compare_files_events (w : world) (file1 file2 key_column : string) :
  emits (is_quiet [file1; file2]) (compare_files w file1 file2 key_column).
Proof.
  unfold compare_files.
  apply emits_bind.
  { eapply emits_weaken; [|apply read_file_emits].
    intros ev. apply is_quiet_more. simpl; tauto. }
  intros df1. apply emits_bind.
  { eapply emits_weaken; [|apply read_file_emits].
    intros ev. apply is_quiet_more. simpl; tauto. }
  intros df2. eapply emits_weaken; [|apply compare_frames_emits].
  intros ev. apply is_quiet_more. simpl; tauto.
Qed.

Lemma save_report_emits s d m output_file :
  emits (fun ev => match ev with
                   | LogInfo _ => True
                   | SaveExcel p _ => p = output_file
                   | _ => False
                   end)
        (save_report s d m output_file).
Proof.
  unfold save_report. apply emits_bind; [apply emits_emit; exact I|]. intros _.
  destruct (write_sheets s d m) as [wb|e].
  - apply emits_bind; [apply emits_emit; reflexivity|]. intros _.
    apply emits_emit. exact I.
  - apply emits_bind; [apply emits_emit; reflexivity|]. intros _.
    apply (emits_pure _ (Raise e)).
Qed.

Lemma append_assoc (a b c : string) : (a ++ b) ++ c = a ++ (b ++ c).
Proof. induction a as [|x a IH]; simpl; [reflexivity|]. rewrite IH. reflexivity. Qed.

Lemma xlsx_not_csv dir name :
  endswith (path_join dir (name ++ ".xlsx")) ".csv" = false.
Proof.
  unfold path_join. rewrite <- !append_assoc.
  apply endswith_other; simpl; congruence.
Qed.

(** X3: the entry point, for every home directory, script directory, clock
    and content of the disk: it parses nothing but its two inputs
    [cricket_file_100_1.xlsx] and [cricket_file_100_2.xlsx] of the downloads
    directory, both with the Excel parser, and the only file it may save is
    [comparison_result_<timestamp>.xlsx] in the script directory. *)
Theorem main_events (w : world) (downloads project_dir timestamp : string) :
  emits (main_event (path_join downloads "cricket_file_100_1.xlsx")
                    (path_join downloads "cricket_file_100_2.xlsx")
                    (path_join project_dir
                       ("comparison_result_" ++ timestamp ++ ".xlsx")))
        (main w downloads project_dir timestamp).
Proof.
  unfold main.
  apply emits_bind; [apply emits_emit; exact I|]. intros _.
  apply emits_bind.
  { unfold compare_files.
    apply emits_bind.
    { eapply emits_weaken; [|apply read_file_emits].
      intros [msg|p|p|p wb]; simpl; try tauto.
      - intros [[<-|[]] H].
        pose proof (xlsx_not_csv downloads "cricket_file_100_1") as H'.
        cbn [append] in H'. congruence.
      - intros [[<-|[]] _]. left; reflexivity. }
    intros df1. apply emits_bind.
    { eapply emits_weaken; [|apply read_file_emits].
      intros [msg|p|p|p wb]; simpl; try tauto.
      - intros [[<-|[]] H].
        pose proof (xlsx_not_csv downloads "cricket_file_100_2") as H'.
        cbn [append] in H'. congruence.
      - intros [[<-|[]] _]. right; reflexivity. }
    intros df2. eapply emits_weaken; [|apply compare_frames_emits].
    intros [msg|p|p|p wb]; simpl; tauto. }
  intros [[summary details] missing].
  apply emits_bind.
  { eapply emits_weaken; [|apply save_report_emits].
    intros [msg|p|p|p wb]; simpl; tauto. }
  intros _. apply emits_emit. exact I.
Qed.

(** *** When the comparison returns *)
Lemma insert_sorted_total {A} (lt : A -> A -> result bool) x l :
  (forall y, In y l -> exists r, lt y x = Ok r) ->
  exists s, insert_sorted lt x l = Ok s.
Proof.
  induction l as [|y l IH]; intros H; simpl; [eauto|].
  destruct (H y (or_introl eq_refl)) as [r Hr]. rewrite Hr. simpl.
  destruct r; [|eauto].
  destruct IH as [s Hs]; [intros z Hz; apply H; right; exact Hz|].
  rewrite Hs. simpl. eauto.
Qed.

Lemma sorted_total {A} (lt : A -> A -> result bool) l :
  (forall a b, In a l -> In b l -> exists r, lt a b = Ok r) ->
  exists s, sorted lt l = Ok s.
Proof.
  induction l as [|x l IH]; intros H; simpl; [eauto|].
  destruct IH as [s Hs]; [intros a b Ha Hb; apply H; right; assumption|].
  rewrite Hs. simpl. apply insert_sorted_total.
  intros y Hy. apply H; [right|left; reflexivity].
  eapply Permutation_in; [apply Permutation_sym; eapply sorted_perm; exact Hs|exact Hy].
Qed.

Lemma filterM_total {A} (f : A -> result bool) l :
  (forall x, In x l -> exists b, f x = Ok b) -> exists r, filterM f l = Ok r.
Proof.
  induction l as [|x l IH]; intros H; simpl; [eauto|].
  destruct (H x (or_introl eq_refl)) as [b Hb]. rewrite Hb. simpl.
  destruct IH as [r Hr]; [intros y Hy; apply H; right; exact Hy|].
  rewrite Hr. simpl. eauto.
Qed.

Lemma foldM_total {A B} (f : A -> B -> result A) l :
  (forall a x, In x l -> exists a', f a x = Ok a') ->
  forall a, exists r, foldM f l a = Ok r.
Proof.
  induction l as [|x l IH]; intros H a; simpl; [eauto|].
  destruct (H a x (or_introl eq_refl)) as [a' Ha]. rewrite Ha. simpl.
  apply IH. intros a0 y Hy. apply H. right. exact Hy.
Qed.

Lemma position_Some_In c cs j : position c cs = Some j -> In c cs.
Proof.
  revert j. induction cs as [|c' cs IH]; simpl; intros j H; [discriminate|].
  destruct (String.eqb c' c) eqn:E.
  - left. apply String.eqb_eq. exact E.
  - right. destruct (position c cs) as [n|]; [|discriminate]. eapply IH. reflexivity.
Qed.

Lemma set_index_has_column df key df' :
  set_index df key = Ok df' -> has_column key df = true.
Proof.
  unfold set_index. destruct (position key (columns df)) as [j|] eqn:E; [|discriminate].
  intros _. apply has_column_In. eapply position_Some_In. exact E.
Qed.

Lemma set_index_rows df key df' :
  set_index df key = Ok df' -> List.length (index df') = List.length (data df').
Proof.
  unfold set_index. destruct (position key (columns df)) as [j|]; [|discriminate].
  intros H. inversion H. simpl. rewrite !length_map. reflexivity.
Qed.

Lemma column_universe_total df1 df2 : exists cols, column_universe df1 df2 = Ok cols.
Proof. unfold column_universe. apply sorted_total. intros a b _ _. unfold str_lt. eauto. Qed.

Lemma string_set_In l :
  forall s x, In x (fold_left (set_add String.eqb) l s) <-> In x s \/ In x l.
Proof.
  intros s x. split; [apply set_fold_In|].
  intros H. destruct (set_fold_covers String.eqb l s x H) as (y & Hy & Hy').
  assert (y = x) as ->
    by (destruct Hy' as [?|E]; [assumption|symmetry; apply String.eqb_eq; exact E]).
  exact Hy.
Qed.

Lemma column_universe_In df1 df2 cols col :
  column_universe df1 df2 = Ok cols ->
  (In col cols <-> In col (columns df1) \/ In col (columns df2)).
Proof.
  unfold column_universe, set_union, set_of. intros H. apply sorted_perm in H.
  assert (E : In col cols <->
              In col (fold_left (set_add String.eqb)
                        (fold_left (set_add String.eqb) (columns df2) [])
                        (fold_left (set_add String.eqb) (columns df1) []))).
  { split; apply Permutation_in; [apply Permutation_sym|]; exact H. }
  rewrite E, !string_set_In. simpl. tauto.
Qed.

Lemma label_set_In l1 l2 a :
  In a (set_union py_eq (set_of py_eq l1) (set_of py_eq l2)) -> In a (l1 ++ l2)%list.
Proof.
  unfold set_union, set_of. intros Ha. apply in_or_app.
  apply set_fold_In in Ha. destruct Ha as [Ha|Ha].
  - apply set_fold_In in Ha. destruct Ha as [[]|Ha]. left. exact Ha.
  - apply set_fold_In in Ha. destruct Ha as [[]|Ha]. right. exact Ha.
Qed.

Lemma is_numeric_col_known df1 df2 col :
  dtype_known df1 df2 col <-> exists b, is_numeric_col df1 df2 col = Ok b.
Proof.
  unfold dtype_known, is_numeric_col, getitem. split.
  - intros [H1 H2]. destruct (position_In _ _ H1) as (j & Hj & _).
    rewrite Hj in *. simpl.
    destruct (is_number _) eqn:En; [eauto|].
    destruct H2 as [H2|(s & Hs & Hn)].
    + destruct (position_In _ _ H2) as (j2 & -> & _). simpl. eauto.
    + inversion Hs; subst. simpl in Hn. congruence.
  - intros [b H].
    destruct (position col (columns df1)) as [j|] eqn:E1; [|discriminate].
    split; [eapply position_Some_In; exact E1|].
    simpl in H. destruct (is_number _) eqn:En.
    + right. eexists. split; [reflexivity|]. exact En.
    + destruct (position col (columns df2)) as [j2|] eqn:E2; [|discriminate].
      left. eapply position_Some_In. exact E2.
Qed.

(** Labels that are all integers or all strings are equal when pandas or
    Python finds them equal, and any two of them can be ordered. *)
Lemma plain_labels_eq l a b :
  plain_labels l -> In a l -> In b l ->
  (label_eq a b = true -> a = b) /\ (py_eq a b = true -> a = b)
  /\ exists r, py_lt a b = Ok r.
Proof.
  intros [H|H] Ha Hb; rewrite Forall_forall in H;
    destruct (H a Ha) as [x ->]; destruct (H b Hb) as [y ->].
  - unfold label_eq, py_eq, py_lt. simpl. rewrite orb_false_r.
    repeat split; [| |eauto];
      (destruct (x ?= y) eqn:E; try discriminate;
       intros _; apply Z.compare_eq in E; congruence).
  - unfold label_eq, py_eq, py_lt. simpl. rewrite orb_false_r.
    repeat split; [| |eauto];
      (intros E; apply String.eqb_eq in E; congruence).
Qed.

Lemma key_universe_total df1 df2 :
  plain_labels (index df1 ++ index df2) -> exists keys, key_universe df1 df2 = Ok keys.
Proof.
  intros Hp. unfold key_universe. apply sorted_total.
  intros a b Ha Hb.
  destruct (plain_labels_eq _ a b Hp (label_set_In _ _ a Ha) (label_set_In _ _ b Hb))
    as (_ & _ & H).
  exact H.
Qed.

Lemma filter_label_none idx rows key :
  (forall a, In a idx -> label_eq a key = false) ->
  filter (fun lr : value * list value => label_eq (fst lr) key) (combine idx rows) = [].
Proof.
  revert rows. induction idx as [|a idx IH]; intros rows H; [reflexivity|].
  destruct rows as [|r rows]; [reflexivity|]. simpl.
  rewrite (H a (or_introl eq_refl)). apply IH. intros b Hb. apply H. right. exact Hb.
Qed.

Lemma filter_label_unique idx rows key :
  List.length idx = List.length rows -> NoDup idx ->
  (forall a, In a idx -> label_eq a key = true -> a = key) ->
  index_contains idx key = true ->
  exists row,
    filter (fun lr : value * list value => label_eq (fst lr) key) (combine idx rows)
    = [(key, row)].
Proof.
  revert rows. induction idx as [|a idx IH]; intros rows Hlen Hnd Heq Hin;
    [discriminate|].
  destruct rows as [|r rows]; [discriminate|]. simpl in Hlen.
  inversion Hnd as [|? ? Hna Hnd']; subst. simpl.
  destruct (label_eq a key) eqn:E.
  - assert (a = key) as -> by (apply Heq; [left; reflexivity|exact E]).
    exists r. f_equal. apply filter_label_none.
    intros b Hb. destruct (label_eq b key) eqn:Eb; [|reflexivity].
    exfalso. apply Hna. rewrite <- (Heq b (or_intror Hb) Eb). exact Hb.
  - unfold index_contains in Hin. simpl in Hin. rewrite E in Hin. simpl in Hin.
    apply IH; auto.
    intros b Hb. apply Heq. right. exact Hb.
Qed.

Lemma lookup_scalar df key col :
  List.length (index df) = List.length (data df) -> NoDup (index df) ->
  (forall a, In a (index df) -> label_eq a key = true -> a = key) ->
  index_contains (index df) key = true ->
  exists v, lookup df key col = Ok (Scalar v).
Proof.
  intros Hlen Hnd Heq Hin. unfold lookup.
  destruct (has_column col df) eqn:Hc; [|eauto].
  apply has_column_In in Hc. destruct (position_In _ _ Hc) as (j & Hj & _).
  unfold at_. rewrite Hj.
  destruct (filter_label_unique _ _ key Hlen Hnd Heq Hin) as [row ->]. eauto.
Qed.

Lemma compare_key_total df1 df2 f1 f2 cols ncols st key :
  cols <> [] ->
  (in_both df1 df2 key = true ->
   Forall (fun col => exists v1 v2, lookup df1 key col = Ok (Scalar v1)
                                    /\ lookup df2 key col = Ok (Scalar v2)) cols) ->
  exists st', compare_key df1 df2 f1 f2 cols ncols st key = Ok st'.
Proof.
  intros Hne Hsc. destruct st as [[s d] m]. unfold compare_key.
  destruct (index_contains (index df1) key) eqn:E1; simpl; [|eauto].
  destruct (index_contains (index df2) key) eqn:E2; simpl; [|eauto].
  rewrite (column_loop_run df1 df2 f1 f2 ncols key cols)
    by (apply Hsc; unfold in_both; rewrite E1, E2; reflexivity).
  cbn [rbind].
  destruct (match_percentage_total (Z.of_nat (List.length cols))
              (0 + Z.of_nat (List.length (key_mismatches df1 df2 f1 f2 ncols key cols))))
    as [pct Hpct].
  - destruct cols; [congruence|simpl; lia].
  - pose proof (key_mismatches_length df1 df2 f1 f2 ncols key cols). lia.
  - rewrite Hpct. cbn [rbind]. eauto.
Qed.

(** X4: when [compare_files] returns.  Both files load and hold the key
    column; the key values of each table are distinct, and all of them are
    integers or all are strings; there is a column besides the key; and for
    each column the dtype test of lines 58-59 can be evaluated (so, among
    others, whenever both tables have the same columns).  Then the run
    returns its three frames. *)
Theorem compare_files_returns
    (w : world) (file1 file2 key_column : string) (tr : list event)
    (raw1 raw2 df1 df2 : DataFrame) :
  fst (read_file w file1 tr) = Ok raw1 ->
  fst (read_file w file2 (snd (read_file w file1 tr))) = Ok raw2 ->
  set_index raw1 key_column = Ok df1 ->
  set_index raw2 key_column = Ok df2 ->
  NoDup (index df1) -> NoDup (index df2) ->
  plain_labels (index df1 ++ index df2) ->
  columns df1 <> [] ->
  (forall col, In col (columns df1) \/ In col (columns df2) ->
               dtype_known df1 df2 col) ->
  exists fr tr', compare_files w file1 file2 key_column tr = (Ok fr, tr').
Proof.
  intros Hr1 Hr2 Hs1 Hs2 Hn1 Hn2 Hp Hne Hk.
  destruct (read_file w file1 tr) as [r1 tr1] eqn:E1. simpl in Hr1, Hr2. subst r1.
  destruct (read_file w file2 tr1) as [r2 tr2] eqn:E2. simpl in Hr2. subst r2.
  rewrite (compare_files_step _ _ _ _ _ _ _ _ _ E1 E2).
  unfold compare_frames.
  rewrite (set_index_has_column _ _ _ Hs1), (set_index_has_column _ _ _ Hs2).
  cbn [negb orb]. unfold bind, lift, logging_info, emit, ret.
  rewrite Hs1, Hs2.
  destruct (key_universe_total df1 df2 Hp) as [keys Hkeys]. rewrite Hkeys.
  destruct (column_universe_total df1 df2) as [cols Hcols]. rewrite Hcols.
  assert (Hcne : cols <> []).
  { destruct (columns df1) as [|c cs] eqn:Ec; [congruence|].
    assert (In c cols) by (apply (column_universe_In _ _ _ c Hcols); left; rewrite Ec; left; reflexivity).
    destruct cols; [contradiction|congruence]. }
  unfold compare_rows, numeric_columns.
  destruct (filterM_total (is_numeric_col df1 df2) cols) as [ncols Hncols].
  { intros col Hc. apply is_numeric_col_known. apply Hk.
    apply (column_universe_In _ _ _ col Hcols). exact Hc. }
  rewrite Hncols. cbn [rbind].
  destruct (foldM_total (compare_key df1 df2 (stem file1) (stem file2) cols ncols) keys)
    with (a := ([] : list dict, [] : list dict, [] : list dict)) as [o Ho].
  { intros st key Hkey. apply compare_key_total; [exact Hcne|].
    intros Hb. unfold in_both in Hb. apply andb_true_iff in Hb. destruct Hb as [Hb1 Hb2].
    assert (Hkin : In key (index df1 ++ index df2)%list).
    { apply in_or_app. eapply key_universe_In; eassumption. }
    apply Forall_forall. intros col _.
    destruct (lookup_scalar df1 key col) as [v1 Hv1]; auto.
    { eapply set_index_rows; eassumption. }
    { intros a Ha. apply (plain_labels_eq _ a key Hp); [apply in_or_app; left|]; auto. }
    destruct (lookup_scalar df2 key col) as [v2 Hv2]; auto.
    { eapply set_index_rows; eassumption. }
    { intros a Ha. apply (plain_labels_eq _ a key Hp); [apply in_or_app; right|]; auto. }
    eauto. }
  rewrite Ho. eauto.
Qed.

Lemma compare_files_returns_witness :
  exists fr tr',
    compare_files Examples.files "scores_A.csv" "scores_B.csv" "key" [] = (Ok fr, tr').
Proof.
  eapply (compare_files_returns Examples.files "scores_A.csv" "scores_B.csv" "key" []).
  - vm_compute. reflexivity.
  - vm_compute. reflexivity.
  - vm_compute. reflexivity.
  - vm_compute. reflexivity.
  - vm_compute. repeat constructor. simpl. tauto.
  - vm_compute. repeat constructor. simpl. tauto.
  - left. vm_compute. repeat constructor; eauto.
  - vm_compute. discriminate.
  - intros col Hcol. vm_compute in Hcol.
    assert (H : col = "score" \/ col = "name") by intuition congruence.
    destruct H as [-> | ->]; (split; [|left]); vm_compute; tauto.
Defined.

(** *** How the comparison fails *)
Lemma filterM_first_raise {A} (f : A -> result bool) l :
  (exists x, In x l /\ forall b, f x <> Ok b) ->
  exists y e, In y l /\ f y = Raise e /\ filterM f l = Raise e.
Proof.
  induction l as [|x0 l IH]; intros (x & Hx & Hf); [contradiction|]. simpl.
  destruct (f x0) as [b|e] eqn:E0.
  - destruct Hx as [->|Hx]; [exfalso; eapply Hf; exact E0|].
    destruct IH as (y & e & Hy & Hfy & Hl); [eauto|].
    exists y, e. rewrite Hl. simpl. auto.
  - exists x0, e. simpl. auto.
Qed.

(** X5: the dtype test of lines 58-59 indexes both frames with every column
    of the column universe.  So when both files load, hold the key column and
    their keys sort, but some column is missing from the first table, or is
    missing from the second one and not numeric in the first, the run ends
    with the KeyError of such a column, after logging both counts and before
    any key is compared. *)
Theorem compare_files_unknown_dtype
    (w : world) (file1 file2 key_column : string) (tr : list event)
    (raw1 raw2 df1 df2 : DataFrame) (keys : list value) (col : string) :
  fst (read_file w file1 tr) = Ok raw1 ->
  fst (read_file w file2 (snd (read_file w file1 tr))) = Ok raw2 ->
  set_index raw1 key_column = Ok df1 ->
  set_index raw2 key_column = Ok df2 ->
  key_universe df1 df2 = Ok keys ->
  In col (columns df1) \/ In col (columns df2) ->
  ~ dtype_known df1 df2 col ->
  exists c cols,
    column_universe df1 df2 = Ok cols /\ In c cols /\ ~ dtype_known df1 df2 c /\
    compare_files w file1 file2 key_column tr
    = (Raise (KeyError (VStr c)),
       (snd (read_file w file2 (snd (read_file w file1 tr)))
        ++ [LogInfo ("Total keys to compare: " ++ str_of_nat (List.length keys));
            LogInfo ("Total columns to compare: " ++ str_of_nat (List.length cols))])%list).
Proof.
  intros Hr1 Hr2 Hs1 Hs2 Hkeys Hcol Hunk.
  destruct (read_file w file1 tr) as [r1 tr1] eqn:E1. cbn [fst snd] in *. subst r1.
  destruct (read_file w file2 tr1) as [r2 tr2] eqn:E2. cbn [fst snd] in *. subst r2.
  rewrite (compare_files_step _ _ _ _ _ _ _ _ _ E1 E2).
  destruct (column_universe_total df1 df2) as [cols Hcols].
  destruct (filterM_first_raise (is_numeric_col df1 df2) cols) as (c & e & Hc & Hfc & Hl).
  { exists col. split; [apply (column_universe_In _ _ _ col Hcols); exact Hcol|].
    intros b Hb. apply Hunk. apply is_numeric_col_known. eauto. }
  pose proof (is_numeric_col_raise _ _ _ _ Hfc) as ->.
  exists c, cols. split; [exact Hcols|]. split; [exact Hc|]. split.
  { intros Hk. apply is_numeric_col_known in Hk. destruct Hk as [b Hb]. congruence. }
  unfold compare_frames.
  rewrite (set_index_has_column _ _ _ Hs1), (set_index_has_column _ _ _ Hs2).
  cbn [negb orb]. unfold bind, lift, logging_info, emit, ret.
  rewrite Hs1, Hs2, Hkeys, Hcols.
  unfold compare_rows, numeric_columns. rewrite Hl. cbn [rbind snd].
  rewrite <- app_assoc. reflexivity.
Qed.

Lemma compare_files_unknown_dtype_witness :
  exists c cols,
    column_universe {| index := [VInt 1]; schema := [("x", object_)]; data := [[VStr "a"]] |}
                    {| index := [VInt 1]; schema := [("y", object_)]; data := [[VStr "a"]] |}
    = Ok cols /\ In c cols /\
    ~ dtype_known {| index := [VInt 1]; schema := [("x", object_)]; data := [[VStr "a"]] |}
                  {| index := [VInt 1]; schema := [("y", object_)]; data := [[VStr "a"]] |} c /\
    compare_files Examples.files "x.csv" "y.csv" "key" []
    = (Raise (KeyError (VStr c)),
       (snd (read_file Examples.files "y.csv" (snd (read_file Examples.files "x.csv" [])))
        ++ [LogInfo ("Total keys to compare: " ++ str_of_nat (List.length [VInt 1]));
            LogInfo ("Total columns to compare: " ++ str_of_nat (List.length cols))])%list).
Proof.
  eapply (compare_files_unknown_dtype Examples.files "x.csv" "y.csv" "key" []
            Examples.with_x Examples.with_y _ _ [VInt 1] "y").
  - vm_compute. reflexivity.
  - vm_compute. reflexivity.
  - vm_compute. reflexivity.
  - vm_compute. reflexivity.
  - vm_compute. reflexivity.
  - right. vm_compute. tauto.
  - intros [H _]. vm_compute in H. intuition discriminate.
Defined.

(** A label that the index holds finds at least one row. *)
Lemma filter_label_some idx rows key :
  List.length idx = List.length rows ->
  index_contains idx key = true ->
  filter (fun lr : value * list value => label_eq (fst lr) key) (combine idx rows) <> [].
Proof.
  revert rows. induction idx as [|a idx IH]; intros rows Hlen Hin; [discriminate|].
  destruct rows as [|r rows]; [discriminate|]. simpl in *.
  unfold index_contains in Hin. simpl in Hin.
  destruct (label_eq a key); [discriminate|]. simpl in Hin.
  apply IH; [congruence|exact Hin].
Qed.

Lemma lookup_found df key col :
  List.length (index df) = List.length (data df) ->
  index_contains (index df) key = true ->
  exists c, lookup df key col = Ok c.
Proof.
  intros Hlen Hin. unfold lookup.
  destruct (has_column col df) eqn:Hc; [|eauto].
  apply has_column_In in Hc. destruct (position_In _ _ Hc) as (j & Hj & _).
  unfold at_. rewrite Hj.
  pose proof (filter_label_some _ _ key Hlen Hin) as Hne.
  destruct (filter _ _) as [|[l r] [|x rest]]; [congruence|eauto|eauto].
Qed.

Lemma lookup_series df key col :
  In col (columns df) -> (2 <= label_count df key)%nat ->
  exists vs, lookup df key col = Ok (SeriesOf vs).
Proof.
  intros Hc Hn. unfold lookup.
  rewrite (proj2 (has_column_In col df) Hc).
  destruct (position_In _ _ Hc) as (j & Hj & _).
  unfold at_. rewrite Hj. unfold label_count in Hn.
  destruct (filter _ _) as [|[l r] [|x rest]]; simpl in Hn; try lia. eauto.
Qed.

Lemma compare_column_outcome df1 df2 f1 f2 ncols key st col :
  List.length (index df1) = List.length (data df1) ->
  List.length (index df2) = List.length (data df2) ->
  in_both df1 df2 key = true ->
  (exists st', compare_column df1 df2 f1 f2 ncols key st col = Ok st')
  \/ exists e, compare_column df1 df2 f1 f2 ncols key st col = Raise e /\ series_error e.
Proof.
  intros H1 H2 Hb. unfold in_both in Hb. apply andb_true_iff in Hb. destruct Hb as [Hb1 Hb2].
  destruct st as [m d]. unfold compare_column, series_error.
  destruct (lookup_found df1 key col H1 Hb1) as [c1 ->].
  destruct (lookup_found df2 key col H2 Hb2) as [c2 ->]. cbn [rbind].
  destruct c1 as [v1|xs], c2 as [v2|ys]; eauto.
  - destruct (py_ne v1 v2); eauto.
  - destruct (List.length xs =? List.length ys)%nat; eauto.
Qed.

Lemma column_loop_outcome df1 df2 f1 f2 ncols key cols :
  List.length (index df1) = List.length (data df1) ->
  List.length (index df2) = List.length (data df2) ->
  in_both df1 df2 key = true ->
  forall st,
    (exists st', foldM (compare_column df1 df2 f1 f2 ncols key) cols st = Ok st')
    \/ exists e, foldM (compare_column df1 df2 f1 f2 ncols key) cols st = Raise e
                 /\ series_error e.
Proof.
  intros H1 H2 Hb. induction cols as [|col cols IH]; intros st; cbn [foldM]; [eauto|].
  destruct (compare_column_outcome df1 df2 f1 f2 ncols key st col H1 H2 Hb)
    as [[st' ->]|(e & -> & He)]; cbn [rbind]; [apply IH|eauto].
Qed.

Lemma compare_key_outcome df1 df2 f1 f2 cols ncols st key :
  List.length (index df1) = List.length (data df1) ->
  List.length (index df2) = List.length (data df2) ->
  cols <> [] ->
  (exists st', compare_key df1 df2 f1 f2 cols ncols st key = Ok st')
  \/ exists e, compare_key df1 df2 f1 f2 cols ncols st key = Raise e /\ series_error e.
Proof.
  intros H1 H2 Hne. destruct st as [[s d] m]. unfold compare_key.
  destruct (index_contains (index df1) key) eqn:E1; cbn [negb]; [|eauto].
  destruct (index_contains (index df2) key) eqn:E2; cbn [negb]; [|eauto].
  destruct (column_loop_outcome df1 df2 f1 f2 ncols key cols H1 H2) with (st := (0, d))
    as [[[mm d'] Hl]|(e & Hl & He)].
  { unfold in_both. rewrite E1, E2. reflexivity. }
  - rewrite Hl. cbn [rbind].
    destruct (column_loop_ok _ _ _ _ _ _ _ _ _ _ _ Hl) as (_ & -> & _).
    destruct (match_percentage_total (Z.of_nat (List.length cols))
                (0 + Z.of_nat (List.length (key_mismatches df1 df2 f1 f2 ncols key cols))))
      as [pct Hpct].
    + destruct cols; [congruence|simpl; lia].
    + pose proof (key_mismatches_length df1 df2 f1 f2 ncols key cols). lia.
    + rewrite Hpct. cbn [rbind]. eauto.
  - rewrite Hl. cbn [rbind]. eauto.
Qed.

Lemma key_loop_outcome df1 df2 f1 f2 cols ncols keys :
  List.length (index df1) = List.length (data df1) ->
  List.length (index df2) = List.length (data df2) ->
  cols <> [] ->
  forall st,
    (exists st', foldM (compare_key df1 df2 f1 f2 cols ncols) keys st = Ok st')
    \/ exists e, foldM (compare_key df1 df2 f1 f2 cols ncols) keys st = Raise e
                 /\ series_error e.
Proof.
  intros H1 H2 Hne. induction keys as [|key keys IH]; intros st; cbn [foldM]; [eauto|].
  destruct (compare_key_outcome df1 df2 f1 f2 cols ncols st key H1 H2 Hne)
    as [[st' ->]|(e & -> & He)]; cbn [rbind]; [apply IH|eauto].
Qed.

(** In a key loop that returns, every cell looked up for a key of both
    frames is a scalar. *)
Lemma key_loop_scalars df1 df2 f1 f2 cols ncols keys :
  forall st st',
    foldM (compare_key df1 df2 f1 f2 cols ncols) keys st = Ok st' ->
    forall key, In key keys -> in_both df1 df2 key = true ->
      Forall (fun col => exists v1 v2, lookup df1 key col = Ok (Scalar v1)
                                       /\ lookup df2 key col = Ok (Scalar v2)) cols.
Proof.
  induction keys as [|k keys IH]; intros st st' H key Hin Hb; [contradiction|].
  cbn [foldM] in H. apply rbind_inv_ok in H. destruct H as (st1 & Hk & Hrest).
  destruct Hin as [->|Hin]; [|eapply IH; eassumption].
  clear Hrest IH. destruct st as [[s d] m]. unfold compare_key in Hk.
  unfold in_both in Hb. apply andb_true_iff in Hb. destruct Hb as [Hb1 Hb2].
  rewrite Hb1, Hb2 in Hk. cbn [negb] in Hk.
  apply rbind_inv_ok in Hk. destruct Hk as ([mm d'] & Hl & _).
  apply column_loop_ok in Hl. apply Hl.
Qed.

(** X6: a key that labels two or more rows of a table makes the whole run
    fail.  Both files load and hold the key column, the keys sort and the
    dtype test of every column can be evaluated; some key of the key universe
    is in both tables and labels two rows of the first table, which has a
    column besides the key (or two rows of the second one, likewise).  Then
    [df.at] returns a Series for it and the run ends with the ValueError that
    pandas raises when a Series is used as a condition, or when two Series of
    different labels are compared. *)
Theorem compare_files_duplicate_key
    (w : world) (file1 file2 key_column : string) (tr : list event)
    (raw1 raw2 df1 df2 : DataFrame) (keys : list value) (key : value) :
  fst (read_file w file1 tr) = Ok raw1 ->
  fst (read_file w file2 (snd (read_file w file1 tr))) = Ok raw2 ->
  set_index raw1 key_column = Ok df1 ->
  set_index raw2 key_column = Ok df2 ->
  key_universe df1 df2 = Ok keys ->
  (forall col, In col (columns df1) \/ In col (columns df2) ->
               dtype_known df1 df2 col) ->
  In key keys ->
  in_both df1 df2 key = true ->
  ((2 <= label_count df1 key)%nat /\ columns df1 <> [])
  \/ ((2 <= label_count df2 key)%nat /\ columns df2 <> []) ->
  fst (compare_files w file1 file2 key_column tr) = Raise (ValueError series_ambiguous)
  \/ fst (compare_files w file1 file2 key_column tr) = Raise (ValueError series_mislabelled).
Proof.
  intros Hr1 Hr2 Hs1 Hs2 Hkeys Hk Hkey Hb Hdup.
  destruct (read_file w file1 tr) as [r1 tr1] eqn:E1. simpl in Hr1, Hr2. subst r1.
  destruct (read_file w file2 tr1) as [r2 tr2] eqn:E2. simpl in Hr2. subst r2.
  rewrite (compare_files_step _ _ _ _ _ _ _ _ _ E1 E2).
  unfold compare_frames.
  rewrite (set_index_has_column _ _ _ Hs1), (set_index_has_column _ _ _ Hs2).
  cbn [negb orb]. unfold bind, lift, logging_info, emit, ret.
  rewrite Hs1, Hs2, Hkeys.
  destruct (column_universe_total df1 df2) as [cols Hcols]. rewrite Hcols.
  assert (Hsome : exists col vs, In col cols /\
                    (lookup df1 key col = Ok (SeriesOf vs)
                     \/ lookup df2 key col = Ok (SeriesOf vs))).
  { destruct Hdup as [[Hn Hne]|[Hn Hne]].
    - destruct (columns df1) as [|c cs] eqn:Ec; [congruence|].
      assert (Hc : In c (columns df1)) by (rewrite Ec; left; reflexivity).
      destruct (lookup_series df1 key c Hc Hn) as [vs Hvs].
      exists c, vs. split; [apply (column_universe_In _ _ _ c Hcols); left; exact Hc|].
      left. exact Hvs.
    - destruct (columns df2) as [|c cs] eqn:Ec; [congruence|].
      assert (Hc : In c (columns df2)) by (rewrite Ec; left; reflexivity).
      destruct (lookup_series df2 key c Hc Hn) as [vs Hvs].
      exists c, vs. split; [apply (column_universe_In _ _ _ c Hcols); right; exact Hc|].
      right. exact Hvs. }
  destruct Hsome as (col & vs & Hcol & Hser).
  unfold compare_rows, numeric_columns.
  destruct (filterM_total (is_numeric_col df1 df2) cols) as [ncols Hncols].
  { intros c Hc. apply is_numeric_col_known. apply Hk.
    apply (column_universe_In _ _ _ c Hcols). exact Hc. }
  rewrite Hncols. cbn [rbind].
  destruct (key_loop_outcome df1 df2 (stem file1) (stem file2) cols ncols keys)
    with (st := ([] : list dict, [] : list dict, [] : list dict))
    as [[st' Hl]|(e & Hl & [He|He])].
  - eapply set_index_rows; eassumption.
  - eapply set_index_rows; eassumption.
  - destruct cols; [contradiction|congruence].
  - exfalso.
    pose proof (key_loop_scalars _ _ _ _ _ _ _ _ _ Hl key Hkey Hb) as Hsc.
    rewrite Forall_forall in Hsc. destruct (Hsc col Hcol) as (v1 & v2 & Hv1 & Hv2).
    destruct Hser; congruence.
  - rewrite Hl. left. simpl. congruence.
  - rewrite Hl. right. simpl. congruence.
Qed.

Lemma compare_files_duplicate_key_witness :
  fst (compare_files Examples.more_files "twice.csv" "once.csv" "key" [])
  = Raise (ValueError series_ambiguous)
  \/ fst (compare_files Examples.more_files "twice.csv" "once.csv" "key" [])
     = Raise (ValueError series_mislabelled).
Proof.
  eapply (compare_files_duplicate_key Examples.more_files "twice.csv" "once.csv" "key" []
            Examples.twice Examples.keys12 _ _ [VInt 1; VInt 2] (VInt 1)).
  - vm_compute. reflexivity.
  - vm_compute. reflexivity.
  - vm_compute. reflexivity.
  - vm_compute. reflexivity.
  - vm_compute. reflexivity.
  - intros col Hcol. vm_compute in Hcol.
    assert (col = "v") as -> by intuition congruence.
    split; [|left]; vm_compute; tauto.
  - vm_compute. tauto.
  - vm_compute. reflexivity.
  - left. split; [vm_compute; lia|vm_compute; discriminate].
Defined.




(** *** The rows of a run that returns *)
Lemma compare_files_ok_log w file1 file2 key_column tr fr tr' df1 df2 keys cols ncols :
  compare_files w file1 file2 key_column tr = (Ok fr, tr') ->
  run_context w file1 file2 key_column tr df1 df2 keys cols ncols ->
  tr' = (snd (read_file w file2 (snd (read_file w file1 tr)))
         ++ [LogInfo ("Total keys to compare: " ++ str_of_nat (List.length keys));
             LogInfo ("Total columns to compare: " ++ str_of_nat (List.length cols))])%list.
Proof.
  intros H (raw1 & raw2 & Hr1 & Hr2 & Hs1 & Hs2 & Hkeys & Hcols & Hn).
  destruct (read_file w file1 tr) as [r1 tr1] eqn:E1. cbn [fst snd] in *. subst r1.
  destruct (read_file w file2 tr1) as [r2 tr2] eqn:E2. cbn [fst snd] in *. subst r2.
  rewrite (compare_files_step _ _ _ _ _ _ _ _ _ E1 E2) in H.
  unfold compare_frames in H.
  rewrite (set_index_has_column _ _ _ Hs1), (set_index_has_column _ _ _ Hs2) in H.
  cbn [negb orb] in H. unfold bind, lift, logging_info, emit, ret in H.
  rewrite Hs1, Hs2, Hkeys, Hcols in H.
  destruct (compare_rows df1 df2 (stem file1) (stem file2) keys cols);
    inversion H; subst. rewrite <- app_assoc. reflexivity.
Qed.

Lemma mismatch_rows_sum df1 df2 f1 f2 ncols cols keys rows :
  Forall2 (fun k row =>
             exists pct,
               let t := Z.of_nat (List.length cols) in
               let mm := Z.of_nat (List.length (key_mismatches df1 df2 f1 f2 ncols k cols)) in
               match_percentage t mm = Ok pct /\ row = summary_row k t mm pct)
          keys rows ->
  Z.of_nat (List.length (flat_map (fun k => key_mismatches df1 df2 f1 f2 ncols k cols) keys))
  = fold_right Z.add 0 (map mismatched_of rows).
Proof.
  induction 1 as [|k row ks rows (pct & _ & ->) _ IH]; [reflexivity|].
  cbn [flat_map map fold_right]. rewrite length_app, Nat2Z.inj_add, IH.
  reflexivity.
Qed.

Lemma summary_rows_columns df1 df2 f1 f2 ncols cols keys rows :
  Forall2 (fun k row =>
             exists pct,
               let t := Z.of_nat (List.length cols) in
               let mm := Z.of_nat (List.length (key_mismatches df1 df2 f1 f2 ncols k cols)) in
               match_percentage t mm = Ok pct /\ row = summary_row k t mm pct)
          keys rows ->
  Forall (fun row =>
            exists matched,
              dict_get row "total_columns" = Some (VInt (Z.of_nat (List.length cols))) /\
              dict_get row "matched_columns" = Some (VInt matched) /\
              dict_get row "mismatched_columns" = Some (VInt (mismatched_of row)) /\
              0 <= mismatched_of row /\ 0 <= matched /\
              matched + mismatched_of row = Z.of_nat (List.length cols))
         rows.
Proof.
  induction 1 as [|k row ks rows (pct & _ & ->) _ IH]; constructor; [|exact IH].
  pose proof (key_mismatches_length df1 df2 f1 f2 ncols k cols) as Hle.
  eexists. split; [reflexivity|]. split; [reflexivity|]. split; [reflexivity|].
  change (mismatched_of (summary_row k _ _ pct))
    with (Z.of_nat (List.length (key_mismatches df1 df2 f1 f2 ncols k cols))).
  lia.
Qed.

(** X8: the row counts of a run that returns.  The number of keys it logs
    is the number of summary rows plus the number of missing rows; every
    summary row shows the logged number of columns as its total, split into
    a matched and a mismatched count that are not negative; and the detailed
    frame has as many rows as the mismatched counts of the summary add up
    to. *)
Theorem output_row_counts
    (w : world) (file1 file2 key_column : string) (tr tr' : list event)
    (fr : DataFrame * DataFrame * DataFrame) :
  compare_files w file1 file2 key_column tr = (Ok fr, tr') ->
  exists summary_rows detailed_rows missing_rows n_cols,
    fr = frames (summary_rows, detailed_rows, missing_rows) /\
    tr' = (snd (read_file w file2 (snd (read_file w file1 tr)))
           ++ [LogInfo ("Total keys to compare: "
                        ++ str_of_nat (List.length summary_rows
                                       + List.length missing_rows));
               LogInfo ("Total columns to compare: " ++ str_of_nat n_cols)])%list /\
    Forall (fun row =>
              exists matched,
                dict_get row "total_columns" = Some (VInt (Z.of_nat n_cols)) /\
                dict_get row "matched_columns" = Some (VInt matched) /\
                dict_get row "mismatched_columns" = Some (VInt (mismatched_of row)) /\
                0 <= mismatched_of row /\ 0 <= matched /\
                matched + mismatched_of row = Z.of_nat n_cols)
           summary_rows /\
    Z.of_nat (List.length detailed_rows)
    = fold_right Z.add 0 (map mismatched_of summary_rows).
Proof.
  intros H.
  destruct (compare_files_outputs _ _ _ _ _ _ _ H)
    as (df1 & df2 & keys & cols & ncols & s & d & m & Hctx & -> & -> & -> & Hs).
  eexists s, _, _, (List.length cols).
  split; [reflexivity|]. split; [|split].
  - rewrite (compare_files_ok_log _ _ _ _ _ _ _ _ _ _ _ _ H Hctx).
    rewrite length_map. rewrite <- (Forall2_length Hs).
    replace (List.length (filter (in_both df1 df2) keys)
             + List.length (filter (fun k => negb (in_both df1 df2 k)) keys))%nat
      with (List.length keys); [reflexivity|].
    clear. induction keys as [|k keys IH]; [reflexivity|]. simpl.
    destruct (in_both df1 df2 k); simpl; lia.
  - eapply summary_rows_columns. exact Hs.
  - eapply mismatch_rows_sum. exact Hs.
Qed.

Lemma output_row_counts_witness :
  exists fr tr', 
    compare_files Examples.files "A.csv" "B.csv" "key" [] = (Ok fr, tr') /\
    exists summary_rows detailed_rows missing_rows n_cols,
      fr = frames (summary_rows, detailed_rows, missing_rows) /\
      tr' = (snd (read_file Examples.files "B.csv" (snd (read_file Examples.files "A.csv" [])))
             ++ [LogInfo ("Total keys to compare: "
                          ++ str_of_nat (List.length summary_rows
                                         + List.length missing_rows));
                 LogInfo ("Total columns to compare: " ++ str_of_nat n_cols)])%list /\
      Forall (fun row =>
                exists matched,
                  dict_get row "total_columns" = Some (VInt (Z.of_nat n_cols)) /\
                  dict_get row "matched_columns" = Some (VInt matched) /\
                  dict_get row "mismatched_columns" = Some (VInt (mismatched_of row)) /\
                  0 <= mismatched_of row /\ 0 <= matched /\
                  matched + mismatched_of row = Z.of_nat n_cols)
             summary_rows /\
      Z.of_nat (List.length detailed_rows)
      = fold_right Z.add 0 (map mismatched_of summary_rows).
Proof.
  eexists _, _. split; [vm_compute; reflexivity|].
  eapply (output_row_counts Examples.files "A.csv" "B.csv" "key" []).
  vm_compute. reflexivity.
Defined.

Lemma py_eq_refl_in l x :
  (forall f, In (VFloat f) l -> is_nan f = false) -> In x l -> py_eq x x = true.
Proof.
  intros H Hx. apply py_eq_refl. intros f ->. apply H. exact Hx.
Qed.

Lemma set_fold_NoDup {A} (eq : A -> A -> bool) l :
  forall s, NoDup s -> (forall x, In x s \/ In x l -> eq x x = true) ->
            NoDup (fold_left (set_add eq) l s).
Proof.
  induction l as [|x l IH]; intros s Hnd Hr; [exact Hnd|]. cbn [fold_left].
  apply IH.
  - unfold set_add. destruct (existsb (eq x) s) eqn:E; [exact Hnd|].
    assert (Hx : ~ In x s).
    { intros Hin. assert (existsb (eq x) s = true); [|congruence].
      apply existsb_exists. exists x. split; [exact Hin|].
      apply Hr. right. left. reflexivity. }
    apply (Permutation_NoDup (l := x :: s)).
    + apply Permutation_cons_append.
    + constructor; assumption.
  - intros y [Hy|Hy]; [|apply Hr; right; right; exact Hy].
    apply set_add_In in Hy. destruct Hy as [Hy| ->]; apply Hr; [left|right; left]; auto.
Qed.

Lemma set_union_NoDup {A} (eq : A -> A -> bool) l1 l2 :
  (forall x, In x (l1 ++ l2) -> eq x x = true) ->
  NoDup (set_union eq (set_of eq l1) (set_of eq l2)).
Proof.
  intros Hr. unfold set_union, set_of.
  assert (H1 : NoDup (fold_left (set_add eq) l1 [])).
  { apply set_fold_NoDup; [constructor|].
    intros x [[]|Hx]. apply Hr. apply in_or_app. left. exact Hx. }
  apply set_fold_NoDup; [exact H1|].
  intros x [Hx|Hx]; apply set_fold_In in Hx; destruct Hx as [[]|Hx];
    apply Hr; apply in_or_app; auto.
Qed.

Lemma key_universe_NoDup df1 df2 keys :
  key_universe df1 df2 = Ok keys ->
  (forall f, In (VFloat f) (index df1 ++ index df2) -> is_nan f = false) ->
  NoDup keys.
Proof.
  unfold key_universe. intros H Hnan.
  apply sorted_perm in H. eapply Permutation_NoDup; [exact H|].
  apply set_union_NoDup. intros x. apply py_eq_refl_in. exact Hnan.
Qed.

Lemma NoDup_map_Some {A} (l : list A) : NoDup l -> NoDup (map Some l).
Proof.
  induction 1 as [|x l Hx _ IH]; simpl; constructor; [|exact IH].
  intros Hin. apply in_map_iff in Hin. destruct Hin as (y & Hy & Hyl).
  inversion Hy; subst. contradiction.
Qed.

(** X9: the rows of a run that returns follow the sorted keys.  No key of
    the key universe is less than the key before it; the summary rows are
    those of the keys of both tables and the missing rows those of the other
    keys, each in that order; and when no key value is [nan], no two rows of
    the summary and of the missing keys together have the same key. *)
Theorem output_rows_follow_sorted_keys
    (w : world) (file1 file2 key_column : string) (tr tr' : list event)
    (fr : DataFrame * DataFrame * DataFrame) :
  compare_files w file1 file2 key_column tr = (Ok fr, tr') ->
  exists df1 df2 keys cols ncols summary_rows detailed_rows missing_rows,
    run_context w file1 file2 key_column tr df1 df2 keys cols ncols /\
    fr = frames (summary_rows, detailed_rows, missing_rows) /\
    Sorted (fun a b => py_lt b a = Ok false) keys /\
    map key_of summary_rows = map Some (filter (in_both df1 df2) keys) /\
    map key_of missing_rows
    = map Some (filter (fun k => negb (in_both df1 df2 k)) keys) /\
    ((forall f, In (VFloat f) (index df1 ++ index df2) -> is_nan f = false) ->
     NoDup (map key_of (summary_rows ++ missing_rows))).
Proof.
  intros H.
  destruct (compare_files_outputs _ _ _ _ _ _ _ H)
    as (df1 & df2 & keys & cols & ncols & s & d & m & Hctx & -> & -> & -> & Hs).
  eexists df1, df2, keys, cols, ncols, s, _, _.
  split; [exact Hctx|]. split; [reflexivity|].
  destruct Hctx as (raw1 & raw2 & _ & _ & _ & _ & Hkeys & _ & _).
  assert (Hsk : map key_of s = map Some (filter (in_both df1 df2) keys))
    by (eapply summary_keys; exact Hs).
  assert (Hmk : map key_of
                  (map (fun k => missing_row k (holder df1 (stem file1) (stem file2) k))
                       (filter (fun k => negb (in_both df1 df2 k)) keys))
                = map Some (filter (fun k => negb (in_both df1 df2 k)) keys)).
  { rewrite map_map. apply map_ext. intros k. apply missing_row_present_in. }
  split; [|split; [exact Hsk|split; [exact Hmk|]]].
  - unfold key_universe in Hkeys.
    eapply (sorted_Sorted py_lt py_lt_asym). exact Hkeys.
  - intros Hnan. pose proof (key_universe_NoDup _ _ _ Hkeys Hnan) as Hnd.
    rewrite map_app, Hsk, Hmk, <- map_app. apply NoDup_map_Some.
    clear - Hnd. induction keys as [|k keys IH]; [constructor|].
    inversion Hnd as [|? ? Hk Hnd']; subst. specialize (IH Hnd'). simpl.
    destruct (in_both df1 df2 k); simpl.
    + constructor; [|exact IH]. intros Hin. apply Hk.
      apply in_app_or in Hin. destruct Hin as [Hin|Hin];
        apply filter_In in Hin; apply Hin.
    + apply (Permutation_NoDup (l := k :: (filter (in_both df1 df2) keys
                                      ++ filter (fun k => negb (in_both df1 df2 k)) keys)%list)).
      * apply Permutation_middle.
      * constructor; [|exact IH]. intros Hin. apply Hk.
        apply in_app_or in Hin. destruct Hin as [Hin|Hin];
          apply filter_In in Hin; apply Hin.
Qed.

Lemma output_rows_follow_sorted_keys_witness :
  exists fr tr',
    compare_files Examples.files "A.csv" "B.csv" "key" [] = (Ok fr, tr') /\
    exists df1 df2 keys cols ncols summary_rows detailed_rows missing_rows,
      run_context Examples.files "A.csv" "B.csv" "key" [] df1 df2 keys cols ncols /\
      fr = frames (summary_rows, detailed_rows, missing_rows) /\
      Sorted (fun a b => py_lt b a = Ok false) keys /\
      map key_of summary_rows = map Some (filter (in_both df1 df2) keys) /\
      map key_of missing_rows
      = map Some (filter (fun k => negb (in_both df1 df2 k)) keys) /\
      ((forall f, In (VFloat f) (index df1 ++ index df2) -> is_nan f = false) ->
       NoDup (map key_of (summary_rows ++ missing_rows))).
Proof.
  eexists _, _. split; [vm_compute; reflexivity|].
  eapply (output_rows_follow_sorted_keys Examples.files "A.csv" "B.csv" "key" []).
  vm_compute. reflexivity.
Defined.

(** *** The fields of a mismatch row *)
Lemma key_mismatches_inv df1 df2 f1 f2 ncols key cols row :
  In row (key_mismatches df1 df2 f1 f2 ncols key cols) ->
  exists col v1 v2,
    In col cols /\
    lookup df1 key col = Ok (Scalar v1) /\ lookup df2 key col = Ok (Scalar v2) /\
    py_ne v1 v2 = true /\
    row = mismatch_row f1 f2 ncols key col v1 v2.
Proof.
  unfold key_mismatches. intros H. apply in_flat_map in H.
  destruct H as (col & Hcol & Hrow). exists col.
  destruct (lookup df1 key col) as [[v1|xs]|e1]; try contradiction.
  destruct (lookup df2 key col) as [[v2|ys]|e2]; try contradiction.
  destruct (py_ne v1 v2) eqn:Hne; [|contradiction].
  destruct Hrow as [<-|[]]. exists v1, v2. auto.
Qed.

Lemma mismatch_row_normal f1 f2 ncols key col v1 v2 :
  ~ In f1 ["key"; "column_name"; "difference"] ->
  ~ In f2 ["key"; "column_name"; "difference"] ->
  mismatch_row f1 f2 ncols key col v1 v2
  = ([("key", key); ("column_name", VStr col)]
     ++ (if String.eqb f1 f2 then [(f2, v2)] else [(f1, v1); (f2, v2)])
     ++ (if existsb (String.eqb col) ncols
         then [("difference", difference v1 v2)] else []))%list.
Proof.
  intros H1 H2. simpl in H1, H2.
  assert (E1k : String.eqb "key" f1 = false) by (apply String.eqb_neq; intuition).
  assert (E1c : String.eqb "column_name" f1 = false) by (apply String.eqb_neq; intuition).
  assert (E1d : String.eqb f1 "difference" = false) by (apply String.eqb_neq; intuition).
  assert (E2k : String.eqb "key" f2 = false) by (apply String.eqb_neq; intuition).
  assert (E2c : String.eqb "column_name" f2 = false) by (apply String.eqb_neq; intuition).
  assert (E2d : String.eqb f2 "difference" = false) by (apply String.eqb_neq; intuition).
  assert (Ekd : String.eqb "key" "difference" = false) by reflexivity.
  assert (Ecd : String.eqb "column_name" "difference" = false) by reflexivity.
  unfold mismatch_row, dict_of. cbn [fold_left fst snd].
  change (dict_set (dict_set [] "key" key) "column_name" (VStr col))
    with [("key", key); ("column_name", VStr col)].
  repeat (cbn [dict_set app];
          match goal with H : String.eqb _ _ = false |- _ => rewrite H end).
  destruct (String.eqb f1 f2) eqn:E12.
  - apply String.eqb_eq in E12. subst f2.
    destruct (existsb (String.eqb col) ncols); [|reflexivity].
    repeat (cbn [dict_set app];
            match goal with H : String.eqb _ _ = false |- _ => rewrite H end).
    reflexivity.
  - destruct (existsb (String.eqb col) ncols); [|reflexivity].
    repeat (cbn [dict_set app];
            match goal with H : String.eqb _ _ = false |- _ => rewrite H end).
    reflexivity.
Qed.

(** X10: the fields of the detailed rows.  In a run that returns, with file
    stems other than [key], [column_name] and [difference], every row of the
    detailed frame belongs to a key and a column whose two cells differ, and
    holds the key, the column name, the two cells under the two stems and,
    for a numeric column, their difference.  When both files have the same
    stem (the same file name in two directories), the dict has one entry for
    both: the row holds the cell of the second file only. *)
Theorem detailed_rows_fields
    (w : world) (file1 file2 key_column : string) (tr tr' : list event)
    (fr : DataFrame * DataFrame * DataFrame) :
  compare_files w file1 file2 key_column tr = (Ok fr, tr') ->
  ~ In (stem file1) ["key"; "column_name"; "difference"] ->
  ~ In (stem file2) ["key"; "column_name"; "difference"] ->
  exists df1 df2 keys cols ncols summary_rows detailed_rows missing_rows,
    run_context w file1 file2 key_column tr df1 df2 keys cols ncols /\
    fr = frames (summary_rows, detailed_rows, missing_rows) /\
    Forall (fun row =>
              exists key col v1 v2,
                In key keys /\ In col cols /\
                lookup df1 key col = Ok (Scalar v1) /\
                lookup df2 key col = Ok (Scalar v2) /\
                py_ne v1 v2 = true /\
                row = ([("key", key); ("column_name", VStr col)]
                       ++ (if String.eqb (stem file1) (stem file2)
                           then [(stem file2, v2)]
                           else [(stem file1, v1); (stem file2, v2)])
                       ++ (if existsb (String.eqb col) ncols
                           then [("difference", difference v1 v2)] else []))%list)
           detailed_rows.
Proof.
  intros H Hf1 Hf2.
  destruct (compare_files_outputs _ _ _ _ _ _ _ H)
    as (df1 & df2 & keys & cols & ncols & s & d & m & Hctx & -> & -> & -> & Hs).
  eexists df1, df2, keys, cols, ncols, s, _, _.
  split; [exact Hctx|]. split; [reflexivity|].
  apply Forall_forall. intros row Hrow.
  apply in_flat_map in Hrow. destruct Hrow as (key & Hkey & Hrow).
  apply filter_In in Hkey. destruct Hkey as [Hkey _].
  apply key_mismatches_inv in Hrow.
  destruct Hrow as (col & v1 & v2 & Hcol & Hv1 & Hv2 & Hne & ->).
  exists key, col, v1, v2. repeat (split; [assumption|]).
  apply mismatch_row_normal; assumption.
Qed.

Lemma detailed_rows_fields_witness :
  exists fr tr',
    compare_files Examples.more_files "old/scores.csv" "new/scores.csv" "key" []
    = (Ok fr, tr') /\
    stem "old/scores.csv" = stem "new/scores.csv" /\
    exists df1 df2 keys cols ncols summary_rows detailed_rows missing_rows,
      run_context Examples.more_files "old/scores.csv" "new/scores.csv" "key" []
                  df1 df2 keys cols ncols /\
      fr = frames (summary_rows, detailed_rows, missing_rows) /\
      Forall (fun row =>
                exists key col v1 v2,
                  In key keys /\ In col cols /\
                  lookup df1 key col = Ok (Scalar v1) /\
                  lookup df2 key col = Ok (Scalar v2) /\
                  py_ne v1 v2 = true /\
                  row = ([("key", key); ("column_name", VStr col)]
                         ++ (if String.eqb (stem "old/scores.csv") (stem "new/scores.csv")
                             then [(stem "new/scores.csv", v2)]
                             else [(stem "old/scores.csv", v1); (stem "new/scores.csv", v2)])
                         ++ (if existsb (String.eqb col) ncols
                             then [("difference", difference v1 v2)] else []))%list)
             detailed_rows.
Proof.
  eexists _, _. split; [vm_compute; reflexivity|]. split; [vm_compute; reflexivity|].
  eapply (detailed_rows_fields Examples.more_files "old/scores.csv" "new/scores.csv"
            "key" []).
  - vm_compute. reflexivity.
  - vm_compute. intuition discriminate.
  - vm_compute. intuition discriminate.
Defined.

(** *** Saving the summary of a run *)
Lemma record_columns_same cols rows :
  NoDup cols -> rows <> [] -> Forall (fun r : dict => map fst r = cols) rows ->
  record_columns rows = cols.
Proof.
  intros Hnd Hne Hall. unfold record_columns.
  destruct rows as [|r rows]; [congruence|].
  apply Forall_cons_iff in Hall. destruct Hall as [Hr Hrest]. cbn [fold_left].
  rewrite Hr. rewrite (set_of_fresh cols [] Hnd) by (intros x _ []). cbn [app].
  clear Hne Hr. induction rows as [|r' rows IH]; [reflexivity|].
  apply Forall_cons_iff in Hrest. destruct Hrest as [Hr' Hrest]. cbn [fold_left].
  rewrite Hr'. rewrite set_union_known by auto. apply IH. exact Hrest.
Qed.

Lemma summary_frame_cells rows :
  rows <> [] -> Forall is_summary_row rows ->
  columns (DataFrame_of_records rows) = summary_columns /\
  Forall (fun row => exists key t mm pct,
            In (summary_row key t mm pct) rows /\
            cell_at 4 row = VFloat pct /\ cell_at 5 row = VStr (status_of mm))
         (data (DataFrame_of_records rows)).
Proof.
  intros Hne Hall.
  assert (Hcols : record_columns rows = summary_columns).
  { apply record_columns_same; [|exact Hne|].
    - unfold summary_columns. repeat constructor; simpl; intuition discriminate.
    - eapply Forall_impl; [|exact Hall]. intros r (k & t & mm & pct & ->). reflexivity. }
  unfold DataFrame_of_records, columns. cbn [schema data]. rewrite Hcols.
  remember (map (fun r => map (record_cell r) summary_columns) rows) as raw eqn:Hraw.
  remember (fun j => infer_dtype (map (cell_at j) raw)) as dt eqn:Hdt.
  split; [reflexivity|].
  apply Forall_forall. intros row Hrow.
  apply in_map_iff in Hrow. destruct Hrow as (cells & <- & Hcells).
  rewrite Hraw in Hcells. apply in_map_iff in Hcells.
  destruct Hcells as (r & <- & Hr).
  rewrite Forall_forall in Hall. destruct (Hall r Hr) as (k & t & mm & pct & ->).
  exists k, t, mm, pct. split; [exact Hr|]. cbn. split.
  - destruct (dt 4%nat); reflexivity.
  - destruct (dt 5%nat); reflexivity.
Qed.

Lemma summary_frame_sortable rows :
  rows <> [] -> Forall is_summary_row rows ->
  exists sorted_df, sort_values (DataFrame_of_records rows) "match_percentage" = Ok sorted_df.
Proof.
  intros Hne Hall. destruct (summary_frame_cells rows Hne Hall) as [Hcols Hcells].
  unfold sort_values. rewrite Hcols.
  change (position "match_percentage" summary_columns) with (Some 4%nat).
  destruct (sorted_total
              (fun a b : value * list value =>
                 na_last_lt (cell_at 4 (snd a)) (cell_at 4 (snd b)))
              (combine (index (DataFrame_of_records rows))
                       (data (DataFrame_of_records rows)))) as [s Hs].
  { rewrite Forall_forall in Hcells. intros [la ra] [lb rb] Ha Hb.
    apply in_combine_r in Ha, Hb.
    destruct (Hcells ra Ha) as (_ & _ & _ & x & _ & Hx & _).
    destruct (Hcells rb Hb) as (_ & _ & _ & y & _ & Hy & _).
    cbn [snd]. rewrite Hx, Hy. unfold na_last_lt, py_lt. simpl.
    destruct (is_nan x); [eauto|]. destruct (is_nan y); eauto. }
  rewrite Hs. simpl. eauto.
Qed.

Lemma save_report_sorted s d m output_file tr sorted_df :
  sort_values s "match_percentage" = Ok sorted_df ->
  save_report s d m output_file tr
  = (Ok tt,
     (tr ++ [LogInfo ("Saving report to: " ++ output_file);
             SaveExcel output_file (report_of s d m sorted_df);
             LogInfo "Comparison report saved successfully!"])%list).
Proof.
  intros Hs. unfold save_report, write_sheets, bind, logging_info, emit.
  rewrite Hs. cbn [rbind]. rewrite <- !app_assoc. reflexivity.
Qed.

Lemma save_report_unsorted s d m output_file tr e :
  sort_values s "match_percentage" = Raise e ->
  save_report s d m output_file tr
  = (Raise e,
     (tr ++ [LogInfo ("Saving report to: " ++ output_file);
             SaveExcel output_file []])%list).
Proof.
  intros Hs. unfold save_report, write_sheets, bind, logging_info, emit, raise.
  rewrite Hs. cbn [rbind]. rewrite <- !app_assoc. reflexivity.
Qed.



(** *** The entry point, from the comparison to the report *)
Lemma summary_rows_are_summary_rows df1 df2 f1 f2 ncols cols keys rows :
  Forall2 (fun k row =>
             exists pct,
               let t := Z.of_nat (List.length cols) in
               let mm := Z.of_nat (List.length (key_mismatches df1 df2 f1 f2 ncols k cols)) in
               match_percentage t mm = Ok pct /\ row = summary_row k t mm pct)
          keys rows ->
  Forall is_summary_row rows.
Proof.
  induction 1 as [|k row ks rows (pct & _ & ->) _ IH]; constructor; [|exact IH].
  unfold is_summary_row. eauto.
Qed.




(** *** The calls on the SUMMARY sheet *)
Lemma report_summary_sheet s d m sorted_df :
  columns s = summary_columns ->
  sheet (report_of s d m sorted_df) "SUMMARY"
  = Some {| ws_header := columns sorted_df; ws_rows := data sorted_df;
            ws_ops := summary_calls (len s) |}.
Proof.
  intros H. unfold report_of, format_sheets, to_excel. rewrite H.
  generalize (len s). intros n. reflexivity.
Qed.


Lemma records_rows rows :
  List.length (index (DataFrame_of_records rows)) = len (DataFrame_of_records rows)
  /\ len (DataFrame_of_records rows) = List.length rows.
Proof.
  unfold len, DataFrame_of_records, range_index. cbn [index data].
  rewrite !length_map, length_seq. split; reflexivity.
Qed.




(** *** Swapping the two files *)
Lemma read_file_result w file_path tr tr' :
  fst (read_file w file_path tr) = fst (read_file w file_path tr').
Proof.
  unfold read_file, bind, logging_info, emit, pd_read_csv, pd_read_excel, raise.
  destruct (endswith file_path ".csv"); [reflexivity|].
  destruct (endswith file_path ".xlsx"); reflexivity.
Qed.

Section SortedOnce.
Context {A : Type} (R : A -> A -> Prop) (P : A -> Prop).
Hypothesis R_trans : forall a b c, P a -> P b -> P c -> R a b -> R b c -> R a c.
Hypothesis R_antisym : forall a b, P a -> P b -> R a b -> R b a -> a = b.

Lemma Sorted_all_after l :
  Forall P l -> Sorted R l -> StronglySorted R l.
Proof.
  induction l as [|x l IH]; intros HP Hs; [constructor|].
  inversion HP as [|? ? Px HPl]; subst. inversion Hs as [|? ? Hsl Hhd]; subst.
  specialize (IH HPl Hsl). constructor; [exact IH|].
  destruct l as [|y l]; [constructor|].
  inversion Hhd as [|? ? Rxy]; subst.
  inversion IH as [|? ? _ Hy]; subst. inversion HPl as [|? ? Py HPl']; subst.
  constructor; [exact Rxy|].
  rewrite Forall_forall in *. intros z Hz. eapply (R_trans x y z); auto.
Qed.

(** Two sorted lists with the same elements are the same list. *)
Lemma sorted_unique l1 :
  forall l2, Forall P l1 -> Sorted R l1 -> Sorted R l2 -> Permutation l1 l2 -> l1 = l2.
Proof.
  induction l1 as [|x l1 IH]; intros l2 HP H1 H2 Hperm.
  - apply Permutation_nil in Hperm. congruence.
  - destruct l2 as [|y l2]; [apply Permutation_sym, Permutation_nil in Hperm; discriminate|].
    assert (HP2 : Forall P (y :: l2)) by (eapply Permutation_Forall; eassumption).
    pose proof (Sorted_all_after _ HP H1) as S1.
    pose proof (Sorted_all_after _ HP2 H2) as S2.
    inversion S1 as [|? ? _ Hx]; subst. inversion S2 as [|? ? _ Hy]; subst.
    inversion HP as [|? ? Px HPl1]; subst. inversion HP2 as [|? ? Py HPl2]; subst.
    assert (x = y) as ->.
    { assert (Hxin : In x (y :: l2))
        by (eapply Permutation_in; [exact Hperm|left; reflexivity]).
      assert (Hyin : In y (x :: l1))
        by (eapply Permutation_in; [apply Permutation_sym; exact Hperm|left; reflexivity]).
      destruct Hxin as [Hxy|Hxin]; [congruence|].
      destruct Hyin as [Hyx|Hyin]; [congruence|].
      rewrite Forall_forall in Hx, Hy. apply R_antisym; auto. }
    f_equal. apply IH; auto.
    + inversion H1; assumption.
    + inversion H2; assumption.
    + eapply Permutation_cons_inv. exact Hperm.
Qed.

End SortedOnce.

Lemma compare_opp a b : String.compare b a = CompOpp (String.compare a b).
Proof. apply String.compare_antisym. Qed.

Lemma str_lt_asym a b : str_lt a b = Ok true -> str_lt b a = Ok false.
Proof.
  unfold str_lt, String.ltb. rewrite (compare_opp a b).
  destruct (String.compare a b); simpl; congruence.
Qed.

Lemma str_le_antisym a b :
  str_lt b a = Ok false -> str_lt a b = Ok false -> a = b.
Proof.
  unfold str_lt, String.ltb. rewrite (compare_opp a b).
  destruct (String.compare a b) eqn:E; simpl; try congruence.
  intros _ _. apply String.compare_eq_iff. exact E.
Qed.

Lemma str_le_trans a b c :
  str_lt b a = Ok false -> str_lt c b = Ok false -> str_lt c a = Ok false.
Proof.
  unfold str_lt. intros H1 H2.
  destruct (String.ltb c a) eqn:E; [|reflexivity]. exfalso.
  apply ltb_lt in E.
  assert (Hba : ~ String_as_OT.lt b a) by (rewrite <- ltb_lt; congruence).
  assert (Hcb : ~ String_as_OT.lt c b) by (rewrite <- ltb_lt; congruence).
  destruct (String_as_OT.compare c b) as [Hlt|Heq|Hgt]; [contradiction| |].
  - apply Hba. rewrite <- Heq. exact E.
  - apply Hba. eapply String_as_OT.lt_trans; eassumption.
Qed.

Lemma plain_labels_le_trans l a b c :
  plain_labels l -> In a l -> In b l -> In c l ->
  py_lt b a = Ok false -> py_lt c b = Ok false -> py_lt c a = Ok false.
Proof.
  intros [H|H] Ha Hb Hc; rewrite Forall_forall in H;
    destruct (H a Ha) as [x ->]; destruct (H b Hb) as [y ->];
    destruct (H c Hc) as [z ->]; unfold py_lt; simpl.
  - destruct (y ?= x) eqn:E1; try discriminate;
      destruct (z ?= y) eqn:E2; try discriminate;
      destruct (z ?= x) eqn:E3; try reflexivity; intros _ _; exfalso;
      rewrite ?Z.compare_eq_iff, ?Z.compare_lt_iff, ?Z.compare_gt_iff in *; lia.
  - apply str_le_trans.
Qed.

Lemma plain_labels_le_antisym l a b :
  plain_labels l -> In a l -> In b l ->
  py_lt b a = Ok false -> py_lt a b = Ok false -> a = b.
Proof.
  intros [H|H] Ha Hb; rewrite Forall_forall in H;
    destruct (H a Ha) as [x ->]; destruct (H b Hb) as [y ->]; unfold py_lt; simpl.
  - destruct (y ?= x) eqn:E1; try discriminate;
      destruct (x ?= y) eqn:E2; try discriminate; intros _ _;
      rewrite ?Z.compare_eq_iff, ?Z.compare_lt_iff, ?Z.compare_gt_iff in *;
      f_equal; lia.
  - intros H1 H2. f_equal. apply str_le_antisym; assumption.
Qed.

Lemma set_union_In_app {A} (eq : A -> A -> bool) l1 l2 x :
  (forall a b, In a (l1 ++ l2) -> In b (l1 ++ l2) -> eq a b = true -> a = b) ->
  (In x (set_union eq (set_of eq l1) (set_of eq l2)) <-> In x (l1 ++ l2)).
Proof.
  intros Heq. unfold set_union, set_of. split.
  - intros Hx. apply in_or_app.
    apply set_fold_In in Hx. destruct Hx as [Hx|Hx];
      apply set_fold_In in Hx; destruct Hx as [[]|Hx]; auto.
  - intros Hx. apply in_app_or in Hx. destruct Hx as [Hx|Hx].
    + destruct (set_fold_covers eq l1 [] x (or_intror Hx)) as (y & Hy & Hy').
      assert (y = x) as ->.
      { destruct Hy' as [?|E]; [assumption|]. symmetry. apply Heq; auto.
        - apply in_or_app. left. exact Hx.
        - apply set_fold_In in Hy. destruct Hy as [[]|Hy]. apply in_or_app. left. exact Hy. }
      apply set_fold_keeps. exact Hy.
    + destruct (set_fold_covers eq l2 [] x (or_intror Hx)) as (y & Hy & Hy').
      assert (Hyin : In y (l1 ++ l2)%list).
      { apply set_fold_In in Hy. destruct Hy as [[]|Hy]. apply in_or_app. right. exact Hy. }
      assert (y = x) as ->.
      { destruct Hy' as [?|E]; [assumption|]. symmetry. apply Heq; auto.
        apply in_or_app. right. exact Hx. }
      destruct (set_fold_covers eq (fold_left (set_add eq) l2 [])
                  (fold_left (set_add eq) l1 []) x (or_intror Hy)) as (z & Hz & Hz').
      assert (z = x) as ->; [|exact Hz].
      destruct Hz' as [?|E]; [assumption|]. symmetry. apply Heq; auto.
      apply in_or_app.
      apply set_fold_In in Hz. destruct Hz as [Hz|Hz];
        apply set_fold_In in Hz; destruct Hz as [[]|Hz]; auto.
Qed.

(** The sorted union of two sets does not depend on their order when equal
    elements are the same element and the order is a total one on them. *)
Lemma sorted_union_swap {A} (eq : A -> A -> bool) (lt : A -> A -> result bool) l1 l2 s s' :
  (forall a b, lt a b = Ok true -> lt b a = Ok false) ->
  (forall a, In a (l1 ++ l2) -> eq a a = true) ->
  (forall a b, In a (l1 ++ l2) -> In b (l1 ++ l2) -> eq a b = true -> a = b) ->
  (forall a b c, In a (l1 ++ l2) -> In b (l1 ++ l2) -> In c (l1 ++ l2) ->
                 lt b a = Ok false -> lt c b = Ok false -> lt c a = Ok false) ->
  (forall a b, In a (l1 ++ l2) -> In b (l1 ++ l2) ->
               lt b a = Ok false -> lt a b = Ok false -> a = b) ->
  sorted lt (set_union eq (set_of eq l1) (set_of eq l2)) = Ok s ->
  sorted lt (set_union eq (set_of eq l2) (set_of eq l1)) = Ok s' ->
  s = s'.
Proof.
  intros Hasym Hrefl Heq Htrans Hanti Hs Hs'.
  assert (Hsw : forall x, In x (l2 ++ l1)%list <-> In x (l1 ++ l2)%list).
  { intros x. rewrite !in_app_iff. tauto. }
  pose proof (sorted_perm _ _ _ Hs) as Hp. pose proof (sorted_perm _ _ _ Hs') as Hp'.
  assert (Hin : forall x, In x s <-> In x (l1 ++ l2)%list).
  { intros x. rewrite <- (set_union_In_app eq l1 l2 x Heq).
    split; apply Permutation_in; [apply Permutation_sym|]; exact Hp. }
  assert (Hin' : forall x, In x s' <-> In x (l1 ++ l2)%list).
  { intros x. rewrite <- Hsw. rewrite <- (set_union_In_app eq l2 l1 x).
    - split; apply Permutation_in; [apply Permutation_sym|]; exact Hp'.
    - intros a b Ha Hb. apply Heq; apply Hsw; assumption. }
  apply (sorted_unique (fun a b => lt b a = Ok false) (fun x => In x (l1 ++ l2)%list)).
  - intros a b c; apply Htrans.
  - intros a b; apply Hanti.
  - apply Forall_forall. intros x. apply Hin.
  - eapply (sorted_Sorted lt Hasym). exact Hs.
  - eapply (sorted_Sorted lt Hasym). exact Hs'.
  - apply NoDup_Permutation.
    + eapply Permutation_NoDup; [exact Hp|]. apply set_union_NoDup. exact Hrefl.
    + eapply Permutation_NoDup; [exact Hp'|]. apply set_union_NoDup.
      intros x Hx. apply Hrefl. apply Hsw. exact Hx.
    + intros x. rewrite Hin, Hin'. tauto.
Qed.

Lemma key_universe_swap df1 df2 keys keys' :
  plain_labels (index df1 ++ index df2) ->
  key_universe df1 df2 = Ok keys -> key_universe df2 df1 = Ok keys' -> keys = keys'.
Proof.
  intros Hp. unfold key_universe.
  apply sorted_union_swap.
  - apply py_lt_asym.
  - intros a Ha. apply py_eq_refl. intros f ->.
    destruct Hp as [H|H]; rewrite Forall_forall in H; destruct (H _ Ha); discriminate.
  - intros a b Ha Hb. apply (plain_labels_eq _ a b Hp Ha Hb).
  - intros a b c. apply plain_labels_le_trans. exact Hp.
  - intros a b. apply plain_labels_le_antisym. exact Hp.
Qed.

Lemma column_universe_swap df1 df2 cols cols' :
  column_universe df1 df2 = Ok cols -> column_universe df2 df1 = Ok cols' -> cols = cols'.
Proof.
  unfold column_universe. apply sorted_union_swap.
  - apply str_lt_asym.
  - intros a _. apply String.eqb_refl.
  - intros a b _ _. apply String.eqb_eq.
  - intros a b c _ _ _. apply str_le_trans.
  - intros a b _ _. apply str_le_antisym.
Qed.

Lemma numeric_columns_swap df1 df2 cols ncols ncols' :
  numeric_columns df1 df2 cols = Ok ncols ->
  numeric_columns df2 df1 cols = Ok ncols' -> ncols = ncols'.
Proof.
  unfold numeric_columns. revert ncols ncols'.
  induction cols as [|c cols IH]; intros n n' H H'; simpl in H, H'; [congruence|].
  apply rbind_inv_ok in H. destruct H as (b & Hb & H).
  apply rbind_inv_ok in H. destruct H as (r & Hr & H).
  apply rbind_inv_ok in H'. destruct H' as (b' & Hb' & H').
  apply rbind_inv_ok in H'. destruct H' as (r' & Hr' & H').
  rewrite (IH _ _ Hr Hr') in H.
  assert (b = b'); [|subst b'; congruence].
  unfold is_numeric_col in Hb, Hb'.
  destruct (getitem df1 c) as [s1|e1]; [|discriminate].
  destruct (getitem df2 c) as [s2|e2]; simpl in Hb, Hb'; [|discriminate].
  destruct (is_number (s_dtype s1)), (is_number (s_dtype s2)); simpl in *; congruence.
Qed.

Lemma in_both_swap df1 df2 key : in_both df2 df1 key = in_both df1 df2 key.
Proof. unfold in_both. apply andb_comm. Qed.

Lemma Forall2_flat_map {A B C} (R : B -> C -> Prop) (f : A -> list B) (g : A -> list C) l :
  (forall x, In x l -> Forall2 R (f x) (g x)) ->
  Forall2 R (flat_map f l) (flat_map g l).
Proof.
  induction l as [|x l IH]; intros H; simpl; [constructor|].
  apply Forall2_app; [apply H; left; reflexivity|].
  apply IH. intros y Hy. apply H. right. exact Hy.
Qed.

(** X14: swapping the two files.  Both files load and hold the key column,
    and the key values are all integers or all strings.  If the run on
    (file1, file2) and the run on (file2, file1) both return, they return the
    same summary rows and the same missing rows, and their detailed rows
    correspond one to one: same key and column, the two cells exchanged, and
    the difference negated (0.0 stays 0.0, and a difference that cannot be
    computed stays None). *)
Theorem compare_files_swap
    (w : world) (file1 file2 key_column : string) (tr tr' tr1 tr1' : list event)
    (raw1 raw2 df1 df2 : DataFrame) (fr fr' : DataFrame * DataFrame * DataFrame) :
  fst (read_file w file1 tr) = Ok raw1 ->
  fst (read_file w file2 tr) = Ok raw2 ->
  set_index raw1 key_column = Ok df1 ->
  set_index raw2 key_column = Ok df2 ->
  plain_labels (index df1 ++ index df2) ->
  compare_files w file1 file2 key_column tr = (Ok fr, tr1) ->
  compare_files w file2 file1 key_column tr' = (Ok fr', tr1') ->
  exists summary_rows missing_rows detailed_rows detailed_rows' ncols,
    fr = frames (summary_rows, detailed_rows, missing_rows) /\
    fr' = frames (summary_rows, detailed_rows', missing_rows) /\
    Forall2 (fun row row' =>
               exists key col v1 v2,
                 row = mismatch_row (stem file1) (stem file2) ncols key col v1 v2 /\
                 row' = mismatch_row (stem file2) (stem file1) ncols key col v2 v1 /\
                 ((difference v1 v2 = VNone /\ difference v2 v1 = VNone)
                  \/ exists d d',
                       difference v1 v2 = VFloat d /\ difference v2 v1 = VFloat d' /\
                       (d' = fneg d \/ (d = S754_zero false /\ d' = S754_zero false))))
            detailed_rows detailed_rows'.
Proof.
  intros Hr1 Hr2 Hs1 Hs2 Hp H H'.
  destruct (compare_files_outputs _ _ _ _ _ _ _ H)
    as (a1 & a2 & keys & cols & ncols & s & d & m & Hctx & -> & -> & -> & Hs).
  destruct (compare_files_outputs _ _ _ _ _ _ _ H')
    as (b2 & b1 & keys' & cols' & ncols' & s' & d' & m' & Hctx' & -> & -> & -> & Hs').
  destruct Hctx as (r1 & r2 & Hc1 & Hc2 & Hc3 & Hc4 & Hkeys & Hcols & Hn).
  destruct Hctx' as (r2' & r1' & Hd2 & Hd1 & Hd3 & Hd4 & Hkeys' & Hcols' & Hn').
  rewrite (read_file_result w file2 _ tr) in Hc2.
  rewrite (read_file_result w file2 _ tr) in Hd2.
  rewrite (read_file_result w file1 _ tr) in Hd1.
  assert (r1 = raw1) by congruence. assert (r2 = raw2) by congruence.
  assert (r1' = raw1) by congruence. assert (r2' = raw2) by congruence. subst.
  assert (a1 = df1) by congruence. assert (a2 = df2) by congruence.
  assert (b1 = df1) by congruence. assert (b2 = df2) by congruence. subst.
  pose proof (key_universe_swap _ _ _ _ Hp Hkeys Hkeys'). subst keys'.
  pose proof (column_universe_swap _ _ _ _ Hcols Hcols'). subst cols'.
  pose proof (numeric_columns_swap _ _ _ _ _ Hn Hn'). subst ncols'.
  assert (Hf : filter (in_both df2 df1) keys = filter (in_both df1 df2) keys)
    by (apply filter_ext; intros k; apply in_both_swap).
  rewrite Hf in Hs'.
  assert (Es : s' = s).
  { clear - Hs Hs'. revert s' Hs'.
    induction Hs as [|k row ks rows (pct & Hpct & ->) _ IH]; intros s' Hs';
      inversion Hs' as [|? row' ? rows' (pct' & Hpct' & ->) Hrest]; subst; [reflexivity|].
    rewrite (IH _ Hrest). f_equal.
    pose proof (Forall2_length
                  (key_mismatches_swap df1 df2 (stem file1) (stem file2) ncols k cols)) as E.
    cbv zeta in Hpct, Hpct'. rewrite <- E in *. congruence. }
  assert (Em : map (fun k => missing_row k (holder df2 (stem file2) (stem file1) k))
                   (filter (fun k => negb (in_both df2 df1 k)) keys)
               = map (fun k => missing_row k (holder df1 (stem file1) (stem file2) k))
                     (filter (fun k => negb (in_both df1 df2 k)) keys)).
  { rewrite (filter_ext (fun k => negb (in_both df2 df1 k))
                        (fun k => negb (in_both df1 df2 k)))
      by (intros k; rewrite in_both_swap; reflexivity).
    apply map_ext_in. intros k Hk. apply filter_In in Hk. destruct Hk as [Hk Hb].
    f_equal. unfold holder. unfold in_both in Hb.
    destruct (key_universe_In _ _ _ _ Hkeys Hk) as [Hin|Hin];
      rewrite (index_contains_In _ _ Hin) in *.
    - rewrite andb_true_l in Hb. apply negb_true_iff in Hb. rewrite Hb. reflexivity.
    - rewrite andb_true_r in Hb. apply negb_true_iff in Hb. rewrite Hb. reflexivity. }
  subst s'. rewrite Em.
  eexists s, _, _, _, ncols. split; [reflexivity|]. split; [reflexivity|].
  rewrite Hf. apply Forall2_flat_map. intros k _.
  eapply Forall2_impl; [|apply key_mismatches_swap].
  intros row row' (col & v1 & v2 & -> & ->). exists k, col, v1, v2.
  split; [reflexivity|]. split; [reflexivity|]. apply difference_swap.
Qed.

Lemma compare_files_swap_witness :
  exists fr fr' tr1 tr1',
    compare_files Examples.files "scores_A.csv" "scores_B.csv" "key" [] = (Ok fr, tr1) /\
    compare_files Examples.files "scores_B.csv" "scores_A.csv" "key" [] = (Ok fr', tr1') /\
    exists summary_rows missing_rows detailed_rows detailed_rows' ncols,
      fr = frames (summary_rows, detailed_rows, missing_rows) /\
      fr' = frames (summary_rows, detailed_rows', missing_rows) /\
      Forall2 (fun row row' =>
                 exists key col v1 v2,
                   row = mismatch_row (stem "scores_A.csv") (stem "scores_B.csv")
                                      ncols key col v1 v2 /\
                   row' = mismatch_row (stem "scores_B.csv") (stem "scores_A.csv")
                                       ncols key col v2 v1 /\
                   ((difference v1 v2 = VNone /\ difference v2 v1 = VNone)
                    \/ exists d d',
                         difference v1 v2 = VFloat d /\ difference v2 v1 = VFloat d' /\
                         (d' = fneg d \/ (d = S754_zero false /\ d' = S754_zero false))))
              detailed_rows detailed_rows'.
Proof.
  eexists _, _, _, _. split; [vm_compute; reflexivity|]. split; [vm_compute; reflexivity|].
  eapply (compare_files_swap Examples.files "scores_A.csv" "scores_B.csv" "key" [] []).
  - vm_compute. reflexivity.
  - vm_compute. reflexivity.
  - vm_compute. reflexivity.
  - vm_compute. reflexivity.
  - left. vm_compute. repeat constructor; eauto.
  - vm_compute. reflexivity.
  - vm_compute. reflexivity.
Defined.

(** *** The columns of the three frames *)
Lemma filterM_filter {A} (f : A -> result bool) (g : A -> bool) l r :
  (forall x b, In x l -> f x = Ok b -> b = g x) ->
  filterM f l = Ok r -> r = filter g l.
Proof.
  revert r. induction l as [|x l IH]; intros r Hfg H; simpl in H;
    [inversion H; reflexivity|].
  apply rbind_inv_ok in H. destruct H as (b & Hb & H).
  apply rbind_inv_ok in H. destruct H as (r' & Hr' & H). inversion H; subst. simpl.
  rewrite <- (Hfg x b (or_introl eq_refl) Hb).
  rewrite <- (IH r'); [reflexivity| |exact Hr'].
  intros y c Hy. apply Hfg. right. exact Hy.
Qed.

Lemma numeric_columns_filter df1 df2 cols ncols :
  numeric_columns df1 df2 cols = Ok ncols ->
  ncols = filter (fun col => numeric_in df1 col || numeric_in df2 col) cols.
Proof.
  apply filterM_filter. intros col b _. unfold is_numeric_col, numeric_in.
  destruct (getitem df1 col) as [s1|e1]; simpl; [|discriminate].
  destruct (is_number (s_dtype s1)); simpl; [congruence|].
  destruct (getitem df2 col) as [s2|e2]; simpl; congruence.
Qed.

Lemma map_fst_combine {A B} (l : list A) (l' : list B) :
  List.length l = List.length l' -> map fst (combine l l') = l.
Proof.
  revert l'. induction l as [|a l IH]; intros [|b l']; simpl; intros H;
    try discriminate; [reflexivity|].
  f_equal. apply IH. congruence.
Qed.

Lemma records_columns rows : columns (DataFrame_of_records rows) = record_columns rows.
Proof.
  unfold columns, DataFrame_of_records. cbn [schema].
  apply map_fst_combine. rewrite length_map, length_seq. reflexivity.
Qed.

(** The keys of dicts that all have the keys [base], some of them with the
    further key [x] at the end. *)
Lemma record_columns_optional base x rows :
  NoDup (base ++ [x]) -> rows <> [] ->
  Forall (fun r : dict => map fst r = base \/ map fst r = (base ++ [x])%list) rows ->
  record_columns rows
  = (base ++ if existsb (fun r : dict => existsb (String.eqb x) (map fst r)) rows
             then [x] else [])%list.
Proof.
  intros Hnd Hne Hall.
  assert (Hb : NoDup base) by (apply NoDup_app_remove_r in Hnd; exact Hnd).
  assert (Hx : ~ In x base).
  { apply NoDup_remove_2 in Hnd. rewrite app_nil_r in Hnd. exact Hnd. }
  assert (Hxb : existsb (String.eqb x) base = false) by (apply existsb_eqb_false; exact Hx).
  assert (Hxx : existsb (String.eqb x) (base ++ [x]) = true).
  { apply existsb_eqb_In. apply in_or_app. right. left. reflexivity. }
  assert (Hbase : fold_left (set_add String.eqb) base [] = base).
  { rewrite (set_of_fresh base [] Hb) by (intros y _ []). reflexivity. }
  assert (Hext : forall acc, acc = base \/ acc = (base ++ [x])%list ->
                             fold_left (set_add String.eqb) base acc = acc).
  { intros acc [-> | ->]; apply set_union_known; intros y Hy; auto.
    apply in_or_app. left. exact Hy. }
  assert (Hstep : forall acc (r : dict),
             acc = base \/ acc = (base ++ [x])%list ->
             map fst r = base \/ map fst r = (base ++ [x])%list ->
             fold_left (set_add String.eqb) (map fst r) acc
             = if existsb (String.eqb x) (map fst r) then (base ++ [x])%list else acc).
  { intros acc r Hacc [Hr|Hr]; rewrite Hr.
    - rewrite Hxb. apply Hext. exact Hacc.
    - rewrite Hxx, fold_left_app, (Hext acc Hacc). cbn [fold_left].
      destruct Hacc as [-> | ->]; unfold set_add.
      + rewrite Hxb. reflexivity.
      + rewrite Hxx. reflexivity. }
  unfold record_columns.
  assert (Hgen : forall (rs : list dict) acc,
             acc = base \/ acc = (base ++ [x])%list ->
             Forall (fun r : dict => map fst r = base \/ map fst r = (base ++ [x])%list) rs ->
             fold_left (fun acc (r : dict) =>
                          fold_left (set_add String.eqb) (map fst r) acc) rs acc
             = if existsb (fun r : dict => existsb (String.eqb x) (map fst r)) rs
               then (base ++ [x])%list else acc).
  { induction rs as [|r rs IH]; intros acc Hacc Hrs; [reflexivity|].
    apply Forall_cons_iff in Hrs. destruct Hrs as [Hr Hrs]. cbn [fold_left existsb].
    rewrite (Hstep acc r Hacc Hr).
    destruct (existsb (String.eqb x) (map fst r)); cbn [orb].
    - rewrite IH by auto. destruct (existsb _ rs); reflexivity.
    - apply IH; auto. }
  destruct rows as [|r rows]; [congruence|].
  apply Forall_cons_iff in Hall. destruct Hall as [Hr Hrest]. cbn [fold_left existsb].
  assert (Hfirst : fold_left (set_add String.eqb) (map fst r) []
                   = if existsb (String.eqb x) (map fst r) then (base ++ [x])%list else base).
  { destruct Hr as [Hr|Hr]; rewrite Hr.
    - rewrite Hxb. exact Hbase.
    - rewrite Hxx, fold_left_app, Hbase. cbn [fold_left]. unfold set_add.
      rewrite Hxb. reflexivity. }
  rewrite Hfirst.
  destruct (existsb (String.eqb x) (map fst r)); cbn [orb].
  - rewrite Hgen by auto. destruct (existsb _ rows); reflexivity.
  - rewrite Hgen by auto. destruct (existsb _ rows); [reflexivity|].
    rewrite app_nil_r. reflexivity.
Qed.

Lemma has_field_keys name (row : dict) :
  has_field name row = existsb (String.eqb name) (map fst row).
Proof.
  unfold has_field. induction row as [|[k v] row IH]; [reflexivity|]. simpl.
  rewrite (String.eqb_sym name k). destruct (String.eqb k name); [reflexivity|exact IH].
Qed.

Lemma existsb_pointwise {A} (f g : A -> bool) l :
  (forall x, f x = g x) -> existsb f l = existsb g l.
Proof.
  intros H. induction l as [|x l IH]; simpl; [reflexivity|]. rewrite H, IH. reflexivity.
Qed.

(** X15: the columns of the three frames of a run that returns, with file
    stems other than [key], [column_name] and [difference] and different from
    each other or not.  A frame built from no row has no column.  Otherwise
    the summary has its six columns and the missing keys [key] and
    [present_in]; the detailed frame has [key], [column_name], the stems of
    the files (one column when they are the same) and, when some row is that
    of a numeric column, [difference].  A detailed row has the [difference]
    field exactly when its column is numeric in one of the tables. *)
Theorem output_frame_columns
    (w : world) (file1 file2 key_column : string) (tr tr' : list event)
    (fr : DataFrame * DataFrame * DataFrame) :
  compare_files w file1 file2 key_column tr = (Ok fr, tr') ->
  ~ In (stem file1) ["key"; "column_name"; "difference"] ->
  ~ In (stem file2) ["key"; "column_name"; "difference"] ->
  exists df1 df2 keys cols ncols summary_rows detailed_rows missing_rows,
    run_context w file1 file2 key_column tr df1 df2 keys cols ncols /\
    fr = (DataFrame_of_records summary_rows,
          DataFrame_of_records detailed_rows,
          DataFrame_of_records missing_rows) /\
    columns (DataFrame_of_records summary_rows)
    = match summary_rows with [] => [] | _ => summary_columns end /\
    columns (DataFrame_of_records missing_rows)
    = match missing_rows with [] => [] | _ => ["key"; "present_in"] end /\
    columns (DataFrame_of_records detailed_rows)
    = match detailed_rows with
      | [] => []
      | _ => (["key"; "column_name"] ++ cell_fields (stem file1) (stem file2)
              ++ if existsb (has_field "difference") detailed_rows
                 then ["difference"] else [])%list
      end /\
    Forall (fun row =>
              exists col,
                dict_get row "column_name" = Some (VStr col) /\
                has_field "difference" row = numeric_in df1 col || numeric_in df2 col)
           detailed_rows.
Proof.
  intros H Hf1 Hf2.
  destruct (compare_files_outputs _ _ _ _ _ _ _ H)
    as (df1 & df2 & keys & cols & ncols & s & d & m & Hctx & -> & Hm & Hd & Hs).
  exists df1, df2, keys, cols, ncols, s, d, m.
  split; [exact Hctx|]. split; [reflexivity|].
  destruct Hctx as (_ & _ & _ & _ & _ & _ & _ & _ & Hn).
  apply numeric_columns_filter in Hn.
  assert (Hrows : Forall (fun row =>
                    exists key col v1 v2,
                      In col cols /\
                      row = ([("key", key); ("column_name", VStr col)]
                             ++ (if String.eqb (stem file1) (stem file2)
                                 then [(stem file2, v2)]
                                 else [(stem file1, v1); (stem file2, v2)])
                             ++ (if existsb (String.eqb col) ncols
                                 then [("difference", difference v1 v2)] else []))%list) d).
  { rewrite Hd. apply Forall_forall. intros row Hrow.
    apply in_flat_map in Hrow. destruct Hrow as (key & _ & Hrow).
    apply key_mismatches_inv in Hrow.
    destruct Hrow as (col & v1 & v2 & Hcol & _ & _ & _ & ->).
    exists key, col, v1, v2. split; [exact Hcol|].
    apply mismatch_row_normal; assumption. }
  assert (Hnum : forall col, In col cols ->
                   existsb (String.eqb col) ncols = numeric_in df1 col || numeric_in df2 col).
  { intros col Hcol. rewrite Hn.
    destruct (numeric_in df1 col || numeric_in df2 col) eqn:E.
    - apply existsb_eqb_In. apply filter_In. auto.
    - apply existsb_eqb_false. intros Hin. apply filter_In in Hin. destruct Hin. congruence. }
  simpl in Hf1, Hf2.
  assert (Hd1 : String.eqb (stem file1) "difference" = false)
    by (apply String.eqb_neq; intuition).
  assert (Hd2 : String.eqb (stem file2) "difference" = false)
    by (apply String.eqb_neq; intuition).
  assert (Hc1 : String.eqb (stem file1) "column_name" = false)
    by (apply String.eqb_neq; intuition).
  assert (Hc2 : String.eqb (stem file2) "column_name" = false)
    by (apply String.eqb_neq; intuition).
  split; [|split; [|split]].
  - rewrite records_columns. destruct s as [|r s']; [reflexivity|].
    apply record_columns_same; [|discriminate|].
    + unfold summary_columns. repeat constructor; simpl; intuition discriminate.
    + eapply Forall_impl; [|eapply summary_rows_are_summary_rows; exact Hs].
      intros r0 (k & t & mm & pct & ->). reflexivity.
  - rewrite records_columns. destruct m as [|r m']; [reflexivity|].
    apply record_columns_same; [|discriminate|].
    + repeat constructor; simpl; intuition discriminate.
    + rewrite Hm. apply Forall_forall. intros r0 Hr0. apply in_map_iff in Hr0.
      destruct Hr0 as (k & <- & _). reflexivity.
  - rewrite records_columns. destruct d as [|r d']; [reflexivity|].
    set (rows := r :: d') in *.
    rewrite (existsb_pointwise (has_field "difference")
               (fun r0 : dict => existsb (String.eqb "difference") (map fst r0)))
      by (intros; apply has_field_keys).
    rewrite app_assoc.
    apply record_columns_optional; [|discriminate|].
    + unfold cell_fields. destruct (String.eqb (stem file1) (stem file2)) eqn:E12;
        repeat constructor; simpl; intuition (try discriminate; try congruence).
      apply String.eqb_neq in E12. congruence.
    + eapply Forall_impl; [|exact Hrows].
      intros r0 (key & col & v1 & v2 & _ & ->). unfold cell_fields.
      destruct (String.eqb (stem file1) (stem file2));
        destruct (existsb (String.eqb col) ncols); simpl; auto.
  - eapply Forall_impl; [|exact Hrows].
    intros r0 (key & col & v1 & v2 & Hcol & ->). exists col.
    split; [reflexivity|].
    rewrite <- (Hnum col Hcol). unfold has_field.
    destruct (String.eqb (stem file1) (stem file2));
      destruct (existsb (String.eqb col) ncols); simpl;
      rewrite ?Hd1, ?Hd2; reflexivity.
Qed.

Lemma output_frame_columns_witness :
  exists fr tr',
    compare_files Examples.files "scores_A.csv" "scores_B.csv" "key" [] = (Ok fr, tr') /\
    exists df1 df2 keys cols ncols summary_rows detailed_rows missing_rows,
      run_context Examples.files "scores_A.csv" "scores_B.csv" "key" []
                  df1 df2 keys cols ncols /\
      fr = (DataFrame_of_records summary_rows,
            DataFrame_of_records detailed_rows,
            DataFrame_of_records missing_rows) /\
      columns (DataFrame_of_records summary_rows)
      = match summary_rows with [] => [] | _ => summary_columns end /\
      columns (DataFrame_of_records missing_rows)
      = match missing_rows with [] => [] | _ => ["key"; "present_in"] end /\
      columns (DataFrame_of_records detailed_rows)
      = match detailed_rows with
        | [] => []
        | _ => (["key"; "column_name"]
                ++ cell_fields (stem "scores_A.csv") (stem "scores_B.csv")
                ++ if existsb (has_field "difference") detailed_rows
                   then ["difference"] else [])%list
        end /\
      Forall (fun row =>
                exists col,
                  dict_get row "column_name" = Some (VStr col) /\
                  has_field "difference" row = numeric_in df1 col || numeric_in df2 col)
             detailed_rows.
Proof.
  eexists _, _. split; [vm_compute; reflexivity|].
  eapply (output_frame_columns Examples.files "scores_A.csv" "scores_B.csv" "key" []).
  - vm_compute. reflexivity.
  - vm_compute. intuition discriminate.
  - vm_compute. intuition discriminate.
Defined.

(** *** Keys that cannot be sorted *)
Lemma py_lt_ok_kind a b r :
  py_lt a b = Ok r ->
  (numeric_value a = true /\ numeric_value b = true)
  \/ (exists s t, a = VStr s /\ b = VStr t).
Proof.
  unfold py_lt, numeric_value.
  destruct (as_num a) as [x|] eqn:Ea, (as_num b) as [y|] eqn:Eb; try discriminate.
  - auto.
  - destruct a; try discriminate; destruct b; try discriminate. eauto.
Qed.

Lemma py_lt_type_error a b e :
  py_lt a b = Raise e -> e = TypeError "'<' not supported between these instances".
Proof.
  unfold py_lt.
  destruct (as_num a), (as_num b); try (intros H; inversion H; reflexivity).
  destruct a; try (intros H; inversion H; reflexivity);
    destruct b; intros H; inversion H; reflexivity.
Qed.

(** A list that [sorted] accepts holds numbers only, or strings only, or at
    most one value. *)
Lemma sorted_one_kind l s :
  sorted py_lt l = Ok s ->
  (forall a, In a l -> numeric_value a = true)
  \/ (forall a, In a l -> exists t, a = VStr t)
  \/ (List.length l <= 1)%nat.
Proof.
  revert s. induction l as [|x l IH]; intros s H; [right; right; simpl; lia|].
  cbn [sorted] in H. apply rbind_inv_ok in H. destruct H as (s' & Hs' & Hins).
  pose proof (sorted_perm _ _ _ Hs') as Hperm.
  destruct s' as [|y s''].
  { apply Permutation_sym, Permutation_nil in Hperm. subst l. right; right; simpl; lia. }
  assert (Hy : In y l)
    by (eapply Permutation_in; [apply Permutation_sym; exact Hperm|left; reflexivity]).
  cbn [insert_sorted] in Hins. apply rbind_inv_ok in Hins. destruct Hins as (b & Hb & _).
  apply py_lt_ok_kind in Hb.
  destruct (IH _ Hs') as [Hnum|[Hstr|Hlen]].
  - left. intros a [<-|Ha]; [|apply Hnum; exact Ha].
    destruct Hb as [[_ Hx]|(t & u & Hyt & _)]; [exact Hx|].
    specialize (Hnum y Hy). rewrite Hyt in Hnum. discriminate.
  - right; left. intros a [<-|Ha]; [|apply Hstr; exact Ha].
    destruct Hb as [[Hyn _]|(t & u & _ & Hxu)]; [|eauto].
    destruct (Hstr y Hy) as [t Hyt]. rewrite Hyt in Hyn. discriminate.
  - destruct l as [|z [|z' l']]; simpl in Hlen; try lia; [contradiction|].
    destruct Hy as [->|[]].
    destruct Hb as [[Hyn Hxn]|(t & u & Hyt & Hxu)].
    + left. intros a [<-|[<-|[]]]; assumption.
    + right; left. intros a [<-|[<-|[]]]; eauto.
Qed.

Lemma set_union_has (P : value -> Prop) l1 l2 x :
  (forall a b, P a -> py_eq a b = true -> P b) ->
  In x (l1 ++ l2) -> P x ->
  exists z, In z (set_union py_eq (set_of py_eq l1) (set_of py_eq l2)) /\ P z.
Proof.
  intros HP Hx Px. unfold set_union, set_of. apply in_app_or in Hx.
  destruct Hx as [Hx|Hx].
  - destruct (set_fold_covers py_eq l1 [] x (or_intror Hx)) as (y & Hy & Hy').
    exists y. split; [apply set_fold_keeps; exact Hy|].
    destruct Hy' as [->|E]; [exact Px|eapply HP; eassumption].
  - destruct (set_fold_covers py_eq l2 [] x (or_intror Hx)) as (y & Hy & Hy').
    assert (Py : P y) by (destruct Hy' as [->|E]; [exact Px|eapply HP; eassumption]).
    destruct (set_fold_covers py_eq (fold_left (set_add py_eq) l2 [])
                (fold_left (set_add py_eq) l1 []) y (or_intror Hy)) as (z & Hz & Hz').
    exists z. split; [exact Hz|].
    destruct Hz' as [->|E]; [exact Py|eapply HP; eassumption].
Qed.

Lemma py_eq_numeric a b :
  numeric_value a = true -> py_eq a b = true -> numeric_value b = true.
Proof.
  unfold numeric_value, py_eq.
  destruct (as_num a); [|discriminate]. destruct (as_num b); [reflexivity|discriminate].
Qed.

Lemma py_eq_text t b : py_eq (VStr t) b = true -> b = VStr t.
Proof.
  unfold py_eq. simpl. destruct b; simpl; try discriminate.
  intros H. apply String.eqb_eq in H. congruence.
Qed.

(** X16: keys that Python cannot order.  Both files load and hold the key
    column; among the key values of the two tables there are a number and a
    string (an id column that one file holds as numbers and the other as
    text).  Then [sorted] raises its TypeError: the run ends after the second
    file is read, before anything is logged about keys or columns. *)
Theorem compare_files_mixed_keys
    (w : world) (file1 file2 key_column : string) (tr : list event)
    (raw1 raw2 df1 df2 : DataFrame) (a : value) (t : string) :
  fst (read_file w file1 tr) = Ok raw1 ->
  fst (read_file w file2 (snd (read_file w file1 tr))) = Ok raw2 ->
  set_index raw1 key_column = Ok df1 ->
  set_index raw2 key_column = Ok df2 ->
  In a (index df1 ++ index df2) -> numeric_value a = true ->
  In (VStr t) (index df1 ++ index df2) ->
  compare_files w file1 file2 key_column tr
  = (Raise (TypeError "'<' not supported between these instances"),
     snd (read_file w file2 (snd (read_file w file1 tr)))).
Proof.
  intros Hr1 Hr2 Hs1 Hs2 Ha Hnum Ht.
  destruct (read_file w file1 tr) as [r1 tr1] eqn:E1. cbn [fst snd] in *. subst r1.
  destruct (read_file w file2 tr1) as [r2 tr2] eqn:E2. cbn [fst snd] in *. subst r2.
  rewrite (compare_files_step _ _ _ _ _ _ _ _ _ E1 E2).
  unfold compare_frames.
  rewrite (set_index_has_column _ _ _ Hs1), (set_index_has_column _ _ _ Hs2).
  cbn [negb orb]. unfold bind, lift. rewrite Hs1, Hs2.
  destruct (key_universe df1 df2) as [keys|e] eqn:Hk.
  - exfalso. unfold key_universe in Hk.
    destruct (set_union_has (fun v => numeric_value v = true) _ _ a py_eq_numeric Ha Hnum)
      as (z1 & Hz1 & Pz1).
    destruct (set_union_has (fun v => v = VStr t) (index df1) (index df2) (VStr t))
      as (z2 & Hz2 & Pz2); [|exact Ht|reflexivity|].
    { intros x y -> E. apply py_eq_text. exact E. }
    subst z2.
    destruct (sorted_one_kind _ _ Hk) as [Hn|[Hs|Hl]].
    + specialize (Hn _ Hz2). discriminate.
    + destruct (Hs _ Hz1) as [u ->]. discriminate.
    + destruct (set_union py_eq (set_of py_eq (index df1)) (set_of py_eq (index df2)))
        as [|k [|k' ks]]; simpl in Hl; try lia; [contradiction|].
      destruct Hz1 as [->|[]]. destruct Hz2 as [->|[]]. discriminate.
  - unfold key_universe in Hk. apply sorted_raise in Hk. destruct Hk as (x & y & Hxy).
    rewrite (py_lt_type_error _ _ _ Hxy). reflexivity.
Qed.

Lemma compare_files_mixed_keys_witness :
  compare_files Examples.more_files "once.csv" "text.xlsx" "key" []
  = (Raise (TypeError "'<' not supported between these instances"),
     snd (read_file Examples.more_files "text.xlsx"
            (snd (read_file Examples.more_files "once.csv" [])))).
Proof.
  eapply (compare_files_mixed_keys Examples.more_files "once.csv" "text.xlsx" "key" []
            Examples.keys12 Examples.text_keys _ _ (VInt 1) "1").
  - vm_compute. reflexivity.
  - vm_compute. reflexivity.
  - vm_compute. reflexivity.
  - vm_compute. reflexivity.
  - vm_compute. tauto.
  - reflexivity.
  - vm_compute. tauto.
Defined.

(** *** A column of the first table only *)
Lemma filterM_each {A} (f : A -> result bool) l r :
  filterM f l = Ok r -> forall x, In x l -> exists b, f x = Ok b.
Proof.
  revert r. induction l as [|y l IH]; intros r H x Hx; [contradiction|].
  simpl in H. apply rbind_inv_ok in H. destruct H as (b & Hb & H).
  apply rbind_inv_ok in H. destruct H as (r' & Hr' & _).
  destruct Hx as [<-|Hx]; [eauto|eapply IH; eassumption].
Qed.

(** X17: a column that only the first table has.  In a run that returns,
    such a column is numeric in the first table, and for every key of both
    tables the cell of the second table is None: unless the first cell is
    None itself, the detailed rows hold a mismatch row for the key and the
    column, whose second value is None and whose difference is None. *)
Theorem column_of_first_table_only
    (w : world) (file1 file2 key_column : string) (tr tr' : list event)
    (fr : DataFrame * DataFrame * DataFrame) (col : string) :
  compare_files w file1 file2 key_column tr = (Ok fr, tr') ->
  exists df1 df2 keys cols ncols summary_rows detailed_rows missing_rows,
    run_context w file1 file2 key_column tr df1 df2 keys cols ncols /\
    fr = frames (summary_rows, detailed_rows, missing_rows) /\
    (In col (columns df1) -> ~ In col (columns df2) ->
     numeric_in df1 col = true /\ In col ncols /\
     forall key, In key keys -> in_both df1 df2 key = true ->
       exists v1,
         lookup df1 key col = Ok (Scalar v1) /\
         lookup df2 key col = Ok (Scalar VNone) /\
         (v1 <> VNone ->
          difference v1 VNone = VNone /\
          In (mismatch_row (stem file1) (stem file2) ncols key col v1 VNone)
             detailed_rows)).
Proof.
  intros H.
  destruct (compare_files_ok_inv _ _ _ _ _ _ _ H)
    as (raw1 & raw2 & df1 & df2 & keys & cols & ncols & [[s d] m]
        & Hr1 & Hr2 & Hs1 & Hs2 & Hkeys & Hcols & Hn & Hloop & ->).
  exists df1, df2, keys, cols, ncols, s, d, m.
  split; [exists raw1, raw2; repeat (split; [assumption|]); assumption|].
  split; [reflexivity|].
  intros Hc1 Hc2.
  assert (Hcol : In col cols) by (apply (column_universe_In _ _ _ col Hcols); auto).
  destruct (filterM_each _ _ _ Hn col Hcol) as [b Hb].
  assert (Hk : dtype_known df1 df2 col) by (apply is_numeric_col_known; eauto).
  destruct Hk as [_ [Hin|(sr & Hsr & Hnumber)]]; [contradiction|].
  assert (Hnum : numeric_in df1 col = true) by (unfold numeric_in; rewrite Hsr; exact Hnumber).
  split; [exact Hnum|]. split.
  { rewrite (numeric_columns_filter _ _ _ _ Hn). apply filter_In.
    split; [exact Hcol|]. rewrite Hnum. reflexivity. }
  intros key Hkey Hb2.
  pose proof (key_loop_scalars _ _ _ _ _ _ _ _ _ Hloop key Hkey Hb2) as Hsc.
  rewrite Forall_forall in Hsc. destruct (Hsc col Hcol) as (v1 & v2 & Hv1 & Hv2).
  assert (Hnone : lookup df2 key col = Ok (Scalar VNone)).
  { unfold lookup, has_column. rewrite (existsb_eqb_false _ _ Hc2). reflexivity. }
  exists v1. split; [exact Hv1|]. split; [exact Hnone|].
  intros Hv. split.
  - unfold difference. reflexivity.
  - destruct (key_loop_ok _ _ _ _ _ _ _ _ _ _ _ _ _ Hloop) as (_ & -> & _).
    cbn [app]. apply in_flat_map. exists key. split; [apply filter_In; auto|].
    apply key_mismatches_In; auto.
    unfold py_ne, py_eq. destruct v1; simpl; try reflexivity. congruence.
Qed.

Lemma column_of_first_table_only_witness :
  exists fr tr',
    compare_files Examples.files "score.csv" "ids.csv" "key" [] = (Ok fr, tr') /\
    exists df1 df2 keys cols ncols summary_rows detailed_rows missing_rows,
      run_context Examples.files "score.csv" "ids.csv" "key" [] df1 df2 keys cols ncols /\
      fr = frames (summary_rows, detailed_rows, missing_rows) /\
      (In "score" (columns df1) -> ~ In "score" (columns df2) ->
       numeric_in df1 "score" = true /\ In "score" ncols /\
       forall key, In key keys -> in_both df1 df2 key = true ->
         exists v1,
           lookup df1 key "score" = Ok (Scalar v1) /\
           lookup df2 key "score" = Ok (Scalar VNone) /\
           (v1 <> VNone ->
            difference v1 VNone = VNone /\
            In (mismatch_row (stem "score.csv") (stem "ids.csv") ncols key "score" v1 VNone)
               detailed_rows)).
Proof.
  eexists _, _. split; [vm_compute; reflexivity|].
  eapply (column_of_first_table_only Examples.files "score.csv" "ids.csv" "key" []).
  vm_compute. reflexivity.
Defined.

(** *** The order of the detailed rows and the status of a key *)
Lemma mismatch_row_info f1 f2 ncols key col v1 v2 :
  ~ In f1 ["key"; "column_name"; "difference"] ->
  ~ In f2 ["key"; "column_name"; "difference"] ->
  row_info (mismatch_row f1 f2 ncols key col v1 v2) = (Some key, Some (VStr col)).
Proof.
  intros H1 H2. rewrite (mismatch_row_normal _ _ _ _ _ _ _ H1 H2). reflexivity.
Qed.

Lemma key_mismatches_filter df1 df2 f1 f2 ncols key cols :
  ~ In f1 ["key"; "column_name"; "difference"] ->
  ~ In f2 ["key"; "column_name"; "difference"] ->
  map row_info (key_mismatches df1 df2 f1 f2 ncols key cols)
  = map (fun col => (Some key, Some (VStr col)))
        (filter (fun col => cells_differ df1 df2 (key, col)) cols).
Proof.
  intros H1 H2. unfold key_mismatches.
  induction cols as [|col cols IH]; [reflexivity|].
  cbn [flat_map filter]. unfold cells_differ at 1. cbn [fst snd].
  rewrite map_app, IH.
  destruct (lookup df1 key col) as [[v1|xs]|e1]; try reflexivity.
  destruct (lookup df2 key col) as [[v2|ys]|e2]; try reflexivity.
  destruct (py_ne v1 v2); [|reflexivity].
  cbn [map app]. rewrite (mismatch_row_info _ _ _ _ _ _ _ H1 H2). reflexivity.
Qed.

Lemma key_mismatches_nil_iff df1 df2 f1 f2 ncols key cols :
  key_mismatches df1 df2 f1 f2 ncols key cols = []
  <-> forall col, In col cols -> cells_differ df1 df2 (key, col) = false.
Proof.
  unfold key_mismatches. induction cols as [|col cols IH].
  - split; [intros _ c []|reflexivity].
  - cbn [flat_map]. split.
    + intros H. apply app_eq_nil in H. destruct H as [Hc Hrest].
      intros c [<-|Hc']; [|apply IH; assumption].
      unfold cells_differ. cbn [fst snd].
      destruct (lookup df1 key col) as [[v1|xs]|e1]; try reflexivity.
      destruct (lookup df2 key col) as [[v2|ys]|e2]; try reflexivity.
      destruct (py_ne v1 v2); [discriminate|reflexivity].
    + intros H. rewrite (proj2 IH) by (intros c Hc; apply H; right; exact Hc).
      rewrite app_nil_r.
      specialize (H col (or_introl eq_refl)). unfold cells_differ in H. cbn [fst snd] in H.
      destruct (lookup df1 key col) as [[v1|xs]|e1]; try reflexivity.
      destruct (lookup df2 key col) as [[v2|ys]|e2]; try reflexivity.
      rewrite H. reflexivity.
Qed.

Lemma map_flat_map {A B C} (f : B -> C) (g : A -> list B) l :
  map f (flat_map g l) = flat_map (fun x => map f (g x)) l.
Proof.
  induction l as [|x l IH]; simpl; [reflexivity|]. rewrite map_app, IH. reflexivity.
Qed.

(** X18: the order of the detailed rows.  In a run that returns, with file
    stems other than [key], [column_name] and [difference]: the column
    universe is ascending, and the keys and column names of the detailed
    rows, read in order, are those of the keys of both tables in sorted order
    and, for each key, of the columns whose two cells differ in sorted
    order. *)
Theorem detailed_rows_order
    (w : world) (file1 file2 key_column : string) (tr tr' : list event)
    (fr : DataFrame * DataFrame * DataFrame) :
  compare_files w file1 file2 key_column tr = (Ok fr, tr') ->
  ~ In (stem file1) ["key"; "column_name"; "difference"] ->
  ~ In (stem file2) ["key"; "column_name"; "difference"] ->
  exists df1 df2 keys cols ncols summary_rows detailed_rows missing_rows,
    run_context w file1 file2 key_column tr df1 df2 keys cols ncols /\
    fr = frames (summary_rows, detailed_rows, missing_rows) /\
    Sorted (fun a b => String.ltb b a = false) cols /\
    map row_info detailed_rows
    = flat_map (fun key =>
                  map (fun col => (Some key, Some (VStr col)))
                      (filter (fun col => cells_differ df1 df2 (key, col)) cols))
               (filter (in_both df1 df2) keys).
Proof.
  intros H Hf1 Hf2.
  destruct (compare_files_outputs _ _ _ _ _ _ _ H)
    as (df1 & df2 & keys & cols & ncols & s & d & m & Hctx & -> & _ & -> & _).
  eexists df1, df2, keys, cols, ncols, s, _, m.
  split; [exact Hctx|]. split; [reflexivity|].
  destruct Hctx as (_ & _ & _ & _ & _ & _ & _ & Hcols & _). split.
  - unfold column_universe in Hcols.
    pose proof (sorted_Sorted str_lt str_lt_asym _ _ Hcols) as Hs.
    eapply Sorted_impl_Forall with (P := fun _ => True); [|apply Forall_forall; auto|exact Hs].
    intros a b _ _. unfold str_lt. congruence.
  - rewrite map_flat_map. apply flat_map_ext. intros key.
    apply key_mismatches_filter; assumption.
Qed.

Lemma detailed_rows_order_witness :
  exists fr tr',
    compare_files Examples.files "amounts_A.csv" "amounts_B.xlsx" "key" [] = (Ok fr, tr') /\
    exists df1 df2 keys cols ncols summary_rows detailed_rows missing_rows,
      run_context Examples.files "amounts_A.csv" "amounts_B.xlsx" "key" []
                  df1 df2 keys cols ncols /\
      fr = frames (summary_rows, detailed_rows, missing_rows) /\
      Sorted (fun a b => String.ltb b a = false) cols /\
      map row_info detailed_rows
      = flat_map (fun key =>
                    map (fun col => (Some key, Some (VStr col)))
                        (filter (fun col => cells_differ df1 df2 (key, col)) cols))
                 (filter (in_both df1 df2) keys).
Proof.
  eexists _, _. split; [vm_compute; reflexivity|].
  eapply (detailed_rows_order Examples.files "amounts_A.csv" "amounts_B.xlsx" "key" []).
  - vm_compute. reflexivity.
  - vm_compute. intuition discriminate.
  - vm_compute. intuition discriminate.
Defined.

Lemma status_of_match mm : status_of mm = "✅ MATCH" <-> mm = 0.
Proof.
  unfold status_of. destruct (Z.eqb_spec mm 0) as [->|Hne].
  - split; reflexivity.
  - split; [discriminate|contradiction].
Qed.

(** X19: the status of a key.  In a run that returns, the summary row of a
    key of both tables has one of the two status texts, and it is the MATCH
    one exactly when no column of the column universe has two differing
    cells for that key. *)
Theorem summary_status
    (w : world) (file1 file2 key_column : string) (tr tr' : list event)
    (fr : DataFrame * DataFrame * DataFrame) :
  compare_files w file1 file2 key_column tr = (Ok fr, tr') ->
  exists df1 df2 keys cols ncols summary_rows detailed_rows missing_rows,
    run_context w file1 file2 key_column tr df1 df2 keys cols ncols /\
    fr = frames (summary_rows, detailed_rows, missing_rows) /\
    Forall2 (fun key row =>
               (dict_get row "status" = Some (VStr "✅ MATCH")
                \/ dict_get row "status" = Some (VStr "❌ MISMATCH")) /\
               (dict_get row "status" = Some (VStr "✅ MATCH")
                <-> forall col, In col cols -> cells_differ df1 df2 (key, col) = false))
            (filter (in_both df1 df2) keys) summary_rows.
Proof.
  intros H.
  destruct (compare_files_outputs _ _ _ _ _ _ _ H)
    as (df1 & df2 & keys & cols & ncols & s & d & m & Hctx & -> & _ & _ & Hs).
  exists df1, df2, keys, cols, ncols, s, d, m.
  split; [exact Hctx|]. split; [reflexivity|].
  eapply Forall2_impl; [|exact Hs].
  intros key row (pct & _ & ->). cbv zeta.
  set (mm := Z.of_nat (List.length (key_mismatches df1 df2 (stem file1) (stem file2)
                                                   ncols key cols))).
  change (dict_get (summary_row key (Z.of_nat (List.length cols)) mm pct) "status")
    with (Some (VStr (status_of mm))).
  split.
  - unfold status_of. destruct (mm =? 0); auto.
  - rewrite <- key_mismatches_nil_iff
      with (f1 := stem file1) (f2 := stem file2) (ncols := ncols).
    split.
    + intros E. assert (Hm : mm = 0) by (apply status_of_match; congruence).
      unfold mm in Hm. apply length_zero_iff_nil. lia.
    + intros E. assert (Hm : mm = 0) by (unfold mm; rewrite E; reflexivity).
      rewrite (proj2 (status_of_match mm) Hm). reflexivity.
Qed.

Lemma summary_status_witness :
  exists fr tr',
    compare_files Examples.files "scores_A.csv" "scores_B.csv" "key" [] = (Ok fr, tr') /\
    exists df1 df2 keys cols ncols summary_rows detailed_rows missing_rows,
      run_context Examples.files "scores_A.csv" "scores_B.csv" "key" []
                  df1 df2 keys cols ncols /\
      fr = frames (summary_rows, detailed_rows, missing_rows) /\
      Forall2 (fun key row =>
                 (dict_get row "status" = Some (VStr "✅ MATCH")
                  \/ dict_get row "status" = Some (VStr "❌ MISMATCH")) /\
                 (dict_get row "status" = Some (VStr "✅ MATCH")
                  <-> forall col, In col cols -> cells_differ df1 df2 (key, col) = false))
              (filter (in_both df1 df2) keys) summary_rows.
Proof.
  eexists _, _. split; [vm_compute; reflexivity|].
  eapply (summary_status Examples.files "scores_A.csv" "scores_B.csv" "key" []).
  vm_compute. reflexivity.
Defined.

(** *** Mismatching keys come first in the SUMMARY sheet *)
Lemma summary_row_inj key t mm pct key' t' mm' pct' :
  summary_row key t mm pct = summary_row key' t' mm' pct' ->
  key = key' /\ t = t' /\ mm = mm' /\ pct = pct'.
Proof.
  unfold summary_row, dict_of. cbn [fold_left fst snd].
  intros H.
  assert (Hk : dict_get (summary_row key t mm pct) "key"
               = dict_get (summary_row key' t' mm' pct') "key")
    by (unfold summary_row, dict_of; cbn [fold_left fst snd]; rewrite H; reflexivity).
  assert (Ht : dict_get (summary_row key t mm pct) "total_columns"
               = dict_get (summary_row key' t' mm' pct') "total_columns")
    by (unfold summary_row, dict_of; cbn [fold_left fst snd]; rewrite H; reflexivity).
  assert (Hm : dict_get (summary_row key t mm pct) "mismatched_columns"
               = dict_get (summary_row key' t' mm' pct') "mismatched_columns")
    by (unfold summary_row, dict_of; cbn [fold_left fst snd]; rewrite H; reflexivity).
  assert (Hp : dict_get (summary_row key t mm pct) "match_percentage"
               = dict_get (summary_row key' t' mm' pct') "match_percentage")
    by (unfold summary_row, dict_of; cbn [fold_left fst snd]; rewrite H; reflexivity).
  cbn in Hk, Ht, Hm, Hp. inversion Hk. inversion Ht. inversion Hm. inversion Hp. auto.
Qed.

Lemma fle_not_nan x y : fle x y -> is_nan x = false /\ is_nan y = false.
Proof.
  unfold fle, SFleb. destruct x, y; simpl; try discriminate; auto.
Qed.

Lemma fle_antisym_eqb x y : fle x y -> fle y x -> feqb x y = true.
Proof.
  unfold fle, feqb, SFleb, SFeqb. rewrite (SFcompare_antisym x y).
  destruct (SFcompare x y) as [[| |]|]; simpl; congruence.
Qed.

Lemma Forall2_right {A B} (R : A -> B -> Prop) l l' :
  Forall2 R l l' -> Forall (fun b => exists a, R a b) l'.
Proof. induction 1; constructor; eauto. Qed.

(** X20: the rows of the SUMMARY sheet, from the comparison to the report.
    When [compare_files] has returned and [save_report] has saved its three
    frames, the SUMMARY sheet of the workbook holds the rows sorted by
    percentage; with fewer than 20000 compared columns only a key without
    mismatch has 100.0, so every row of status MATCH is followed by rows of
    status MATCH only: the keys with a mismatch come first. *)
Theorem summary_sheet_mismatches_first
    (w : world) (file1 file2 key_column output_file : string)
    (tr tr' tr2 : list event) (summary_df detail_df missing_df : DataFrame) :
  compare_files w file1 file2 key_column tr
  = (Ok (summary_df, detail_df, missing_df), tr') ->
  save_report summary_df detail_df missing_df output_file tr' = (Ok tt, tr2) ->
  exists df1 df2 keys cols ncols wb ws,
    run_context w file1 file2 key_column tr df1 df2 keys cols ncols /\
    tr2 = (tr' ++ [LogInfo ("Saving report to: " ++ output_file);
                   SaveExcel output_file wb;
                   LogInfo "Comparison report saved successfully!"])%list /\
    sheet wb "SUMMARY" = Some ws /\
    (Z.of_nat (List.length cols) < 20000 ->
     Sorted (fun r1 r2 => cell_at 5 r1 = VStr "✅ MATCH" -> cell_at 5 r2 = VStr "✅ MATCH")
            (ws_rows ws)).
Proof.
  intros H Hsave.
  destruct (compare_files_outputs _ _ _ _ _ _ _ H)
    as (df1 & df2 & keys & cols & ncols & s & d & m & Hctx & Hfr & _ & _ & Hs).
  unfold frames in Hfr. inversion Hfr; subst summary_df detail_df missing_df; clear Hfr.
  assert (Hall : Forall is_summary_row s)
    by (eapply summary_rows_are_summary_rows; exact Hs).
  assert (Hne : s <> []).
  { intros ->. rewrite (save_report_unsorted _ _ _ _ _ (KeyError (VStr "match_percentage")))
      in Hsave by reflexivity. discriminate. }
  destruct (summary_frame_cells s Hne Hall) as [Hcols Hcells].
  destruct (summary_frame_sortable s Hne Hall) as [sdf Hsort].
  rewrite (save_report_sorted _ _ _ _ _ _ Hsort) in Hsave. inversion Hsave; clear Hsave.
  destruct (records_rows s) as [Hlen _].
  destruct (sort_values_ok _ _ _ Hlen Hsort) as (j & Hj & Hperm & Hsorted).
  rewrite Hcols in Hj. cbn in Hj. inversion Hj; subst j; clear Hj.
  eexists df1, df2, keys, cols, ncols, _, _.
  split; [exact Hctx|]. split; [reflexivity|].
  split; [apply report_summary_sheet; exact Hcols|].
  intros Hsmall. cbn [ws_rows].
  pose proof (Forall2_right _ _ _ Hs) as Hfacts.
  eapply Sorted_impl_Forall; [| |exact Hsorted].
  2:{ eapply Permutation_Forall; [exact Hperm|exact Hcells]. }
  intros r1 r2 (k1 & t1 & mm1 & pct1 & Hin1 & Hp1 & Hst1)
               (k2 & t2 & mm2 & pct2 & Hin2 & Hp2 & Hst2) Hord Hmatch.
  rewrite Forall_forall in Hfacts.
  destruct (Hfacts _ Hin1) as (a1 & q1 & Hq1 & E1).
  destruct (Hfacts _ Hin2) as (a2 & q2 & Hq2 & E2).
  cbv zeta in Hq1, Hq2, E1, E2.
  apply summary_row_inj in E1. destruct E1 as (_ & -> & -> & ->).
  apply summary_row_inj in E2. destruct E2 as (_ & -> & -> & ->).
  pose proof (key_mismatches_length df1 df2 (stem file1) (stem file2) ncols a1 cols) as L1.
  pose proof (key_mismatches_length df1 df2 (stem file1) (stem file2) ncols a2 cols) as L2.
  destruct (match_percentage_props _ _ _ (conj (Nat2Z.is_nonneg _) (inj_le _ _ L1)) Hq1)
    as (Hlo1 & Hhi1 & Hzero1 & _).
  destruct (match_percentage_props _ _ _ (conj (Nat2Z.is_nonneg _) (inj_le _ _ L2)) Hq2)
    as (Hlo2 & Hhi2 & _ & Hfull2).
  rewrite Hst1 in Hmatch. rewrite Hst2. f_equal.
  apply status_of_match. apply Hfull2; [|exact Hsmall].
  assert (Hm1 : Z.of_nat (List.length (key_mismatches df1 df2 (stem file1) (stem file2)
                                                      ncols a1 cols)) = 0)
    by (apply status_of_match; congruence).
  rewrite (Hzero1 Hm1) in *.
  rewrite Hp1, Hp2 in Hord.
  apply fle_antisym_eqb; [exact Hhi2|].
  apply not_less_fle; [apply (fle_not_nan _ _ Hhi2)|apply (fle_not_nan _ _ Hhi2)|exact Hord].
Qed.

Lemma summary_sheet_mismatches_first_witness :
  exists summary_df detail_df missing_df tr' tr2,
    compare_files Examples.files "amounts_A.csv" "amounts_B.xlsx" "key" []
    = (Ok (summary_df, detail_df, missing_df), tr') /\
    save_report summary_df detail_df missing_df "report.xlsx" tr' = (Ok tt, tr2) /\
    exists df1 df2 keys cols ncols wb ws,
      run_context Examples.files "amounts_A.csv" "amounts_B.xlsx" "key" []
                  df1 df2 keys cols ncols /\
      tr2 = (tr' ++ [LogInfo ("Saving report to: " ++ "report.xlsx");
                     SaveExcel "report.xlsx" wb;
                     LogInfo "Comparison report saved successfully!"])%list /\
      sheet wb "SUMMARY" = Some ws /\
      (Z.of_nat (List.length cols) < 20000 ->
       Sorted (fun r1 r2 => cell_at 5 r1 = VStr "✅ MATCH" -> cell_at 5 r2 = VStr "✅ MATCH")
              (ws_rows ws)).
Proof.
  eexists _, _, _, _, _. split; [vm_compute; reflexivity|].
  split; [vm_compute; reflexivity|].
  eapply (summary_sheet_mismatches_first Examples.files "amounts_A.csv" "amounts_B.xlsx"
            "key" "report.xlsx" []).
  - vm_compute. reflexivity.
  - vm_compute. reflexivity.
Defined.
